(** * z-ai-acp: the session bridge, its event translator and its prompt analyzer

    A shallow embedding of [src/prompt-analyzer.ts], of [src/utils.ts]
    ([applyEnvironmentSettings]) and of the session operations of
    [src/acp-agent.ts] ([newSession], [setSessionModel], [canUseTool],
    [toAcpNotifications]), followed by the properties proved about them.

    Modelling conventions.
    - A JavaScript string is a [string]: the bytes of its UTF-8 encoding.
      Every pattern and keyword of the program starts with a lead byte, so
      scanning by byte finds what scanning by code unit finds on well-formed
      text.
    - An object used as a dictionary is a [gmap] of its own properties.
      A read of [toolUseCache], of the model table or, in
      [setSessionModel], of [sessions] also finds what the object
      inherits from [Object.prototype] ([Js.Object_prototype]), as the
      language defines that object: with no property added to it.
    - State that the program mutates is passed explicitly; a host round
      trip is a node of a small interaction tree. *)

From Stdlib Require Import ZArith Ascii String Bool List Lia.
From stdpp Require Import base strings gmap list pretty.

Local Open Scope string_scope.
#[local] Set Warnings "-register-all".

(** ** JavaScript strings and the regular expressions the program uses *)

Module Js.

(** The UTF-8 encoding of a code point of the Basic Multilingual Plane. *)
Definition utf8 (cp : N) : string :=
  let byte (n : N) := ascii_of_N n in
  if (cp <? 128)%N then String (byte cp) ""
  else if (cp <? 2048)%N then
    String (byte (192 + cp / 64)%N) (String (byte (128 + cp mod 64)%N) "")
  else
    String (byte (224 + cp / 4096)%N)
      (String (byte (128 + (cp / 64) mod 64)%N) (String (byte (128 + cp mod 64)%N) "")).

(** [WhiteSpace] and [LineTerminator] of ECMAScript: what [\s] matches and
    what [trim] and [parseInt] strip. *)
Definition whiteSpaceCodePoints : list N :=
  [9; 10; 11; 12; 13; 32; 160; 5760;
   8192; 8193; 8194; 8195; 8196; 8197; 8198; 8199; 8200; 8201; 8202;
   8232; 8233; 8239; 8287; 12288; 65279]%N.

Definition whiteSpace : list string := map utf8 whiteSpaceCodePoints.

(** [dropPrefix p s]: the rest of [s] after the prefix [p], if [s] starts with it. *)
Fixpoint dropPrefix (p s : string) : option string :=
  match p, s with
  | EmptyString, _ => Some s
  | String a p', String b s' => if Ascii.eqb a b then dropPrefix p' s' else None
  | String _ _, EmptyString => None
  end.

(** [s.includes(kw)] *)
Fixpoint includes (s kw : string) : bool :=
  match dropPrefix kw s with
  | Some _ => true
  | None => match s with
            | EmptyString => false
            | String _ s' => includes s' kw
            end
  end.

Definition isUpper (c : ascii) : bool :=
  ((65 <=? N_of_ascii c) && (N_of_ascii c <=? 90))%N.
Definition isLower (c : ascii) : bool :=
  ((97 <=? N_of_ascii c) && (N_of_ascii c <=? 122))%N.
Definition isDigit (c : ascii) : bool :=
  ((48 <=? N_of_ascii c) && (N_of_ascii c <=? 57))%N.

Definition lowerChar (c : ascii) : ascii :=
  if isUpper c then ascii_of_N (N_of_ascii c + 32) else c.

(** [s.toLowerCase()] of a string in UTF-8, on the Basic Latin letters
    and on the two characters beyond them whose lower case has a Basic
    Latin letter: the Kelvin sign (U+212A, lowered to [k]) and the capital
    I with a dot above (U+0130, lowered to [i] and the combining dot
    U+0307). Every other byte is kept: the lower case of another character
    has no Basic Latin letter, so the tests of the program, [includes] for
    a keyword made of Basic Latin characters or of characters without
    case, come out as on the lowered string. The analyzer below takes the
    lowering function as an argument, so the general theorems about it
    hold for every lowering. *)
Fixpoint toLowerCase (s : string) : string :=
  match s with
  | EmptyString => EmptyString
  | String "226" (String "132" (String "170" s')) => String "k" (toLowerCase s')
  | String "196" (String "176" s') =>
      String "i" (String "204" (String "135" (toLowerCase s')))
  | String c s' => String (lowerChar c) (toLowerCase s')
  end.

(** Strip one leading element of [ws], the first that fits. *)
Fixpoint stripOne (ws : list string) (s : string) : option string :=
  match ws with
  | [] => None
  | w :: ws' => match dropPrefix w s with
                | Some s' => Some s'
                | None => stripOne ws' s
                end
  end.

Fixpoint stripAll (fuel : nat) (ws : list string) (s : string) : string :=
  match fuel with
  | O => s
  | S fuel' => match s with
               | EmptyString => s
               | String _ _ => match stripOne ws s with
                               | Some s' => stripAll fuel' ws s'
                               | None => s
                               end
               end
  end.

Definition trimStart (s : string) : string :=
  stripAll (String.length s) whiteSpace s.

Definition trimEnd (s : string) : string :=
  String.rev (stripAll (String.length s) (map String.rev whiteSpace) (String.rev s)).

(** [s.trim()] *)
Definition trim (s : string) : string := trimEnd (trimStart s).

(** A JavaScript number as far as the program computes with one: a
    double whose value is an integer [z] ([Num 0] is [+0]), [-0], an
    infinity or [NaN]. *)
Inductive number : Type :=
  | NaN
  | Num (z : Z)
  | NegativeZero
  | Infinity (negative : bool).

(** The double nearest to the integer [n > 0], ties to the even
    significand of 53 bits; an integer that rounds to [2^1024] or more
    is [Infinity]. *)
Definition roundToDouble (n : Z) : number :=
  if (n <? 2 ^ 53)%Z then Num n
  else
    let e := (Z.log2 n - 52)%Z in
    let q := (n / 2 ^ e)%Z in
    let r := (n mod 2 ^ e)%Z in
    let half := (2 ^ (e - 1))%Z in
    let q' :=
      if (r <? half)%Z then q
      else if (half <? r)%Z then (q + 1)%Z
      else if Z.even q then q else (q + 1)%Z in
    if (2 ^ 1024 <=? q' * 2 ^ e)%Z then Infinity false else Num (q' * 2 ^ e).

(** The Number value of [sign * n], for [n >= 0] and [sign] 1 or -1. *)
Definition numberOf (sign n : Z) : number :=
  if (n =? 0)%Z then (if (sign <? 0)%Z then NegativeZero else Num 0)
  else
    match roundToDouble n with
    | Num z => Num (sign * z)
    | _ => Infinity (sign <? 0)%Z
    end.

Fixpoint digits (s : string) (acc : option Z) : option Z :=
  match s with
  | EmptyString => acc
  | String c s' =>
      if isDigit c
      then digits s' (Some (10 * default 0%Z acc + Z.of_N (N_of_ascii c - 48))%Z)
      else acc
  end.

(** [parseInt(s, 10)]: leading white space, an optional sign, then the
    longest run of decimal digits, whose value is rounded to a double;
    [NaN] when there is no digit. *)
Definition parseInt (s : string) : number :=
  let t := trimStart s in
  let '(sign, body) :=
    match t with
    | String "-" r => ((-1)%Z, r)
    | String "+" r => (1%Z, r)
    | _ => (1%Z, t)
    end in
  match digits body None with
  | Some z => numberOf sign z
  | None => NaN
  end.

(** The regular expressions of the program, with JavaScript's backtracking
    order: a greedy [+] takes another round first, a lazy [*?] tries the
    rest of the pattern first. *)
Inductive regex : Type :=
  | Class (p : ascii -> bool)
  | Lit (w : string)
  | OneOf (ws : list string)
  | Seq (r1 r2 : regex)
  | Plus (r : regex)
  | LazyStar (r : regex).

(** [exec r s k]: match [r] at the start of [s], hand the rest to the
    continuation [k]; the answer is what is left after the whole match. The
    loops are bounded by the length of the input, which is enough when a
    round consumes at least one byte, as every round of the patterns below
    does. *)
Fixpoint exec (r : regex) (s : string) (k : string -> option string) : option string :=
  match r with
  | Class p =>
      match s with
      | String c s' => if p c then k s' else None
      | EmptyString => None
      end
  | Lit w =>
      match dropPrefix w s with
      | Some s' => k s'
      | None => None
      end
  | OneOf ws =>
      (fix alt (ws : list string) : option string :=
         match ws with
         | [] => None
         | w :: ws' =>
             match (match dropPrefix w s with Some s' => k s' | None => None end) with
             | Some rest => Some rest
             | None => alt ws'
             end
         end) ws
  | Seq r1 r2 => exec r1 s (fun s' => exec r2 s' k)
  | Plus r1 =>
      (fix loop (n : nat) (s : string) : option string :=
         match n with
         | O => None
         | S n' =>
             exec r1 s (fun s' =>
               match loop n' s' with
               | Some rest => Some rest
               | None => k s'
               end)
         end) (S (String.length s)) s
  | LazyStar r1 =>
      (fix loop (n : nat) (s : string) : option string :=
         match k s with
         | Some rest => Some rest
         | None =>
             match n with
             | O => None
             | S n' => exec r1 s (loop n')
             end
         end) (S (String.length s)) s
  end.

(** The matches of a global ([/g]) pattern, left to right, not overlapping:
    after a match the scan goes on where it ended, after a failure one
    position further. *)
Fixpoint scan (r : regex) (fuel : nat) (s : string) : nat :=
  match fuel with
  | O => 0
  | S fuel' =>
      match exec r s Some with
      | Some rest =>
          if (String.length rest <? String.length s)%nat
          then S (scan r fuel' rest)
          else match s with
               | EmptyString => 1
               | String _ s' => S (scan r fuel' s')
               end
      | None =>
          match s with
          | EmptyString => 0
          | String _ s' => scan r fuel' s'
          end
      end
  end.

(** [(s.match(r) || []).length] for a global pattern [r]. *)
Definition matchCount (r : regex) (s : string) : nat :=
  scan r (S (String.length s)) s.

(** [s.split(r).length] for a pattern that matches no empty string: one
    piece more than there are matches. *)
Definition splitLength (r : regex) (s : string) : nat :=
  S (matchCount r s).

Definition wordChar (c : ascii) : bool :=
  isUpper c || isLower c || isDigit c || Ascii.eqb c "_".

(** A blank string: white space characters and nothing else. *)
Definition blank (s : string) : Prop :=
  exists ws : list string,
    Forall (fun w => w ∈ whiteSpace) ws /\ s = foldr String.append "" ws.

(** [s.endsWith(suffix)] *)
Fixpoint String_endsWith (s suffix : string) : bool :=
  String.eqb s suffix
  || match s with
     | EmptyString => false
     | String _ s' => String_endsWith s' suffix
     end.

(** [s.replace(pattern, replacement)] for a pattern that is a string: the
    first occurrence is replaced. *)
Fixpoint String_replace (pattern replacement s : string) : string :=
  match dropPrefix pattern s with
  | Some rest => replacement ++ rest
  | None => match s with
            | EmptyString => EmptyString
            | String c s' => String c (String_replace pattern replacement s')
            end
  end.

(** What every object inherits from [Object.prototype]: its methods, each
    a function with a name, and under [__proto__] the prototype of the
    object, which for an object made by a literal is [Object.prototype]
    itself. All of them are truthy. *)
Inductive PrototypeMember : Type :=
  | prototypeMethod (functionName : string)
  | prototypeObject.

Definition Object_prototype_methods : list string :=
  ["__defineGetter__"; "__defineSetter__"; "hasOwnProperty"; "__lookupGetter__";
   "__lookupSetter__"; "isPrototypeOf"; "propertyIsEnumerable"; "toString"; "valueOf";
   "toLocaleString"].

(** [({})[key]] *)
Definition Object_prototype (key : string) : option PrototypeMember :=
  if String.eqb key "__proto__" then Some prototypeObject
  else if String.eqb key "constructor" then Some (prototypeMethod "Object")
  else if existsb (String.eqb key) Object_prototype_methods then Some (prototypeMethod key)
  else None.

End Js.

(** ** [src/prompt-analyzer.ts] *)

Module PromptAnalyzer.
Import Js.

Inductive TaskComplexity : Type := simple | medium | complex.

Inductive TaskType : Type :=
  | question
  | explanation
  | code_generation
  | refactoring
  | debugging
  | architecture
  | review.

Inductive ThinkingEffort : Type := low | medium_effort | high.

#[export] Instance TaskType_eq_dec : EqDecision TaskType.
Proof. solve_decision. Defined.


Definition TaskType_name (t : TaskType) : string :=
  match t with
  | question => "question"
  | explanation => "explanation"
  | code_generation => "code_generation"
  | refactoring => "refactoring"
  | debugging => "debugging"
  | architecture => "architecture"
  | review => "review"
  end.

Definition TaskComplexity_name (c : TaskComplexity) : string :=
  match c with
  | simple => "simple"
  | medium => "medium"
  | complex => "complex"
  end.

Record PromptAnalysis : Type := {
  complexity : TaskComplexity;
  taskType : TaskType;
  suggestedModel : string;
  suggestedThinkingEffort : ThinkingEffort;
  suggestedMaxThinkingTokens : Z;
  reasoning : string
}.

Definition COMPLEX_KEYWORDS : list string :=
  [ "refactor"; "architecture"; "design"; "implement"; "build";
    "create system"; "optimize"; "performance"; "security"; "algorithm";
    "複雑"; "アーキテクチャ"; "리팩토링"; "아키텍처"; "설계"; "구현" ].

Definition SIMPLE_KEYWORDS : list string :=
  [ "what is"; "how to"; "explain"; "show me"; "list"; "find"; "search";
    "read"; "view"; "display"; "무엇"; "어떻게"; "설명"; "보여" ].

(** [Object.entries(TASK_TYPE_KEYWORDS)]: the entries in the order the
    object literal lists them. *)
Definition TASK_TYPE_KEYWORDS : list (TaskType * list string) :=
  [ (question, ["what"; "why"; "how"; "when"; "where"; "무엇"; "왜"; "어떻게"]);
    (explanation, ["explain"; "describe"; "tell me about"; "설명"; "알려"]);
    (code_generation,
      ["create"; "generate"; "write"; "implement"; "add"; "생성"; "작성"; "추가"]);
    (refactoring,
      ["refactor"; "improve"; "optimize"; "clean up"; "리팩토링"; "개선"; "최적화"]);
    (debugging,
      ["fix"; "bug"; "error"; "debug"; "issue"; "problem"; "수정"; "버그"; "에러"]);
    (architecture,
      ["architecture"; "design"; "structure"; "pattern"; "아키텍처"; "설계"; "구조"]);
    (review, ["review"; "check"; "analyze"; "audit"; "검토"; "분석"; "확인"]) ].

(** [/```[\s\S]*?```/g] *)
Definition CODE_BLOCK_PATTERN : regex :=
  Seq (Lit "```") (Seq (LazyStar (Class (fun _ => true))) (Lit "```")).

(** [/(?:\/[\w-]+)+\.[\w]+/g] *)
Definition FILE_PATH_PATTERN : regex :=
  Seq (Plus (Seq (Lit "/") (Plus (Class (fun c => wordChar c || Ascii.eqb c "-")))))
      (Seq (Lit ".") (Plus (Class wordChar))).

(** [/\s+/] *)
Definition WHITESPACE_PATTERN : regex := Plus (OneOf whiteSpace).

(** [keywords.filter((kw) => lowerText.includes(kw)).length] *)
Definition keywordHits (lowerText : string) (keywords : list string) : nat :=
  length (filter (fun kw => includes lowerText kw = true) keywords).

(** One round of the loop over the task types: the running
    [(taskType, maxScore)] changes only on a strictly greater score. *)
Definition pickStep (lowerText : string) (acc : TaskType * nat)
    (entry : TaskType * list string) : TaskType * nat :=
  let score := keywordHits lowerText (snd entry) in
  if (snd acc <? score)%nat then (fst entry, score) else acc.

Definition pickTaskType (lowerText : string) : TaskType * nat :=
  fold_left (pickStep lowerText) TASK_TYPE_KEYWORDS (question, 0%nat).

Definition lengthScore (wordCount : nat) : Z :=
  if (200 <? wordCount)%nat then 3
  else if (100 <? wordCount)%nat then 2
  else if (50 <? wordCount)%nat then 1
  else 0.

Definition lineScore (lineCount : nat) : Z :=
  if (50 <? lineCount)%nat then 2
  else if (20 <? lineCount)%nat then 1
  else 0.

Definition taskTypeScore (t : TaskType) : Z :=
  match t with
  | architecture | refactoring | code_generation => 3
  | debugging | review => 2
  | _ => 0
  end.

Definition tierOfScore (complexityScore : Z) : TaskComplexity :=
  if (8 <=? complexityScore)%Z then complex
  else if (3 <=? complexityScore)%Z then medium
  else simple.

Section Analyzer.

(** [String.prototype.toLowerCase]; the program is [analyzePrompt] below at
    [Js.toLowerCase]. *)
Variable lowerCase : string -> string.

Definition lineCount (promptText : string) : nat :=
  splitLength (Lit (String "010" "")) promptText.

Definition wordCount (promptText : string) : nat :=
  splitLength WHITESPACE_PATTERN promptText.

Definition codeBlocks (promptText : string) : nat :=
  matchCount CODE_BLOCK_PATTERN promptText.

Definition filePaths (promptText : string) : nat :=
  matchCount FILE_PATH_PATTERN promptText.

Definition complexKeywordCount (promptText : string) : nat :=
  keywordHits (lowerCase promptText) COMPLEX_KEYWORDS.

Definition simpleKeywordCount (promptText : string) : nat :=
  keywordHits (lowerCase promptText) SIMPLE_KEYWORDS.

Definition detectTaskType (promptText : string) : TaskType :=
  fst (pickTaskType (lowerCase promptText)).

Definition complexityScore (promptText : string) : Z :=
  (lengthScore (wordCount promptText)
   + lineScore (lineCount promptText)
   + Z.of_nat (Nat.min (codeBlocks promptText * 2) 6)
   + Z.of_nat (Nat.min (filePaths promptText) 3)
   + Z.of_nat (complexKeywordCount promptText) * 2
   - Z.of_nat (simpleKeywordCount promptText)
   + taskTypeScore (detectTaskType promptText))%Z.

Definition analyze (promptText : string) : PromptAnalysis :=
  let taskType := detectTaskType promptText in
  let score := complexityScore promptText in
  let complexity := tierOfScore score in
  let '(model, effort, tokens) :=
    match complexity with
    | complex => ("glm-4.7", high, 20000%Z)
    | medium => ("glm-4.7", medium_effort, 15000%Z)
    | simple =>
        match taskType with
        | question | explanation => ("glm-4.5-air", low, 10000%Z)
        | _ => ("glm-4.7", low, 10000%Z)
        end
    end in
  {| complexity := complexity;
     taskType := taskType;
     suggestedModel := model;
     suggestedThinkingEffort := effort;
     suggestedMaxThinkingTokens := tokens;
     reasoning :=
       "Complexity: " ++ TaskComplexity_name complexity
       ++ " (score: " ++ pretty score
       ++ "), Task: " ++ TaskType_name taskType
       ++ ", Words: " ++ pretty (wordCount promptText)
       ++ ", Lines: " ++ pretty (lineCount promptText)
       ++ ", Code blocks: " ++ pretty (codeBlocks promptText) |}.

End Analyzer.

Definition analyzePrompt (promptText : string) : PromptAnalysis :=
  analyze toLowerCase promptText.

(** [modelMapping] of [mapModelToGlm] *)
Definition modelMapping : gmap string string :=
  list_to_map
    [ ("claude-4.5-sonnet-20250114", "glm-4.7");
      ("claude-4-haiku-20250114", "glm-4.5-air");
      ("claude-4-opus-20250114", "glm-4.7");
      ("claude-3-5-sonnet-20241022", "glm-4.7");
      ("claude-3-5-haiku-20241022", "glm-4.5-air");
      ("claude-3-opus-20240229", "glm-4.7") ].

(** What [mapModelToGlm] returns: a model name, or what the table
    inherits from [Object.prototype] under the name it was asked for. *)
Inductive MappedModel : Type :=
  | ModelName (name : string)
  | Inherited (member : PrototypeMember).

(** [modelMapping[claudeModel] || claudeModel]: an entry of the table
    that is not empty, else what the table inherits under that name, else
    the argument. *)
Definition mapModelToGlm (claudeModel : string) : MappedModel :=
  match modelMapping !! claudeModel with
  | Some glm => if String.eqb glm "" then ModelName claudeModel else ModelName glm
  | None =>
      match Object_prototype claudeModel with
      | Some member => Inherited member
      | None => ModelName claudeModel
      end
  end.

Definition getClaudeModelFromGlm (glmModel : string) : string :=
  if String.eqb glmModel "glm-4.5-air" then "claude-4-haiku-20250114"
  else "claude-4-opus-20250114".






(** A prompt of [n] copies of a word on one line. *)
Definition wordsPrompt (word : string) (n : nat) : string :=
  String.concat " " (repeat word n).

End PromptAnalyzer.

(** ** [src/utils.ts]: the managed settings and the process environment *)

Module Utils.
Import Js.

Definition hexDigit (n : N) : ascii :=
  if (n <? 10)%N then ascii_of_N (48 + n) else ascii_of_N (87 + n).

(** [QuoteJSONString] without its enclosing quotes. *)
Fixpoint jsonEscape (s : string) : string :=
  match s with
  | EmptyString => EmptyString
  | String c s' =>
      let n := N_of_ascii c in
      (if (n =? 8)%N then "\b"
       else if (n =? 9)%N then "\t"
       else if (n =? 10)%N then "\n"
       else if (n =? 12)%N then "\f"
       else if (n =? 13)%N then "\r"
       else if (n =? 34)%N then String "\" (String c "")
       else if (n =? 92)%N then "\\"
       else if (n <? 32)%N
            then "\u00" ++ String (hexDigit (n / 16)) (String (hexDigit (n mod 16)) "")
       else String c "")
      ++ jsonEscape s'
  end.

Definition jsonQuote (s : string) : string :=
  String (ascii_of_N 34) (jsonEscape s ++ String (ascii_of_N 34) "").

Fixpoint jsonMembers (entries : list (string * string)) : string :=
  match entries with
  | [] => ""
  | [(k, v)] => jsonQuote k ++ ":" ++ jsonQuote v
  | (k, v) :: rest => jsonQuote k ++ ":" ++ jsonQuote v ++ "," ++ jsonMembers rest
  end.

(** [JSON.stringify] of a [Record<string, string>], given by its entries. *)
Definition JSON_stringify (entries : list (string * string)) : string :=
  "{" ++ jsonMembers entries ++ "}".

Record ZAiConfig : Type := {
  enabled : option bool;
  api_endpoint : option string;
  model_mapping : option (list (string * string))
}.

Record Permissions : Type := {
  allow : option (list string);
  deny : option (list string)
}.

(** [interface ManagedSettings]; [env] holds [Object.entries(settings.env)]. *)
Record ManagedSettings : Type := {
  permissions : option Permissions;
  env : option (list (string * string));
  z_ai : option ZAiConfig
}.

(** The body of the loop over the [env] section: a key is written only
    when [process.env[key] === undefined]. The environment of the process
    is taken as a dictionary of strings, which is how it behaves for the
    names of environment variables. *)
Definition applyEntry (processEnv : gmap string string) (entry : string * string)
    : gmap string string :=
  match processEnv !! fst entry with
  | None => <[fst entry := snd entry]> processEnv
  | Some _ => processEnv
  end.

Definition applyEnvSection (entries : list (string * string))
    (processEnv : gmap string string) : gmap string string :=
  fold_left applyEntry entries processEnv.

Definition truthy (s : option string) : bool :=
  match s with
  | Some v => negb (String.eqb v "")
  | None => false
  end.

Definition applyZAi (zAiConfig : ZAiConfig) (processEnv : gmap string string)
    : gmap string string :=
  match enabled zAiConfig with
  | Some true =>
      let e1 :=
        match api_endpoint zAiConfig, processEnv !! "ANTHROPIC_BASE_URL" with
        | Some url, None =>
            if truthy (Some url) then <["ANTHROPIC_BASE_URL" := url]> processEnv
            else processEnv
        | _, _ => processEnv
        end in
      let e2 :=
        match model_mapping zAiConfig with
        | Some mapping => <["Z_AI_MODEL_MAPPING_CONFIG" := JSON_stringify mapping]> e1
        | None => e1
        end in
      <["Z_AI_ENABLED" := "true"]> e2
  | _ => processEnv
  end.

Definition applyEnvironmentSettings (settings : ManagedSettings)
    (processEnv : gmap string string) : gmap string string :=
  let e1 :=
    match env settings with
    | Some entries => applyEnvSection entries processEnv
    | None => processEnv
    end in
  match z_ai settings with
  | Some zAiConfig => applyZAi zAiConfig e1
  | None => e1
  end.

End Utils.

(** ** [src/acp-agent.ts] *)

Module AcpAgent.
Import Js.

(** A JSON value, as the engine sends tool inputs and results. *)
Inductive Json : Type :=
  | JNull
  | JBool (b : bool)
  | JNumber (z : Z)
  | JString (s : string)
  | JArray (items : list Json)
  | JObject (members : list (string * Json)).

(** What a call can throw. *)
Inductive Thrown : Type :=
  | authRequired                       (* RequestError.authRequired() *)
  | internalError (data : string)      (* RequestError.internalError(undefined, data) *)
  | Error (message : string)           (* new Error(message) *)
  | TypeError (message : string).

Inductive Outcome (A : Type) : Type :=
  | Returned (a : A)
  | Threw (e : Thrown).
Arguments Returned {A} a.
Arguments Threw {A} e.

(** [value.name] for a JSON value: [undefined] ([None]) when there is no
    such member, a [TypeError] on [null]. *)
Fixpoint member (key : string) (members : list (string * Json)) : option Json :=
  match members with
  | [] => None
  | (k, v) :: rest => if String.eqb k key then Some v else member key rest
  end.

Definition getProperty (value : Json) (key : string) : Outcome (option Json) :=
  match value with
  | JNull => Threw (TypeError "Cannot read properties of null")
  | JObject members => Returned (member key members)
  | _ => Returned None
  end.

(** The engine's [Query] handle: the state its setters change. *)
Record Query : Type := {
  model : option string;
  maxThinkingTokens : option number;          (* [None] is [null] *)
  queryPermissionMode : string;
  interrupted : bool
}.

Definition setModel (modelId : string) (q : Query) : Query :=
  {| model := Some modelId;
     maxThinkingTokens := maxThinkingTokens q;
     queryPermissionMode := queryPermissionMode q;
     interrupted := interrupted q |}.

Definition setMaxThinkingTokens (tokens : option number) (q : Query) : Query :=
  {| model := model q;
     maxThinkingTokens := tokens;
     queryPermissionMode := queryPermissionMode q;
     interrupted := interrupted q |}.

Record ModelInfo : Type := {
  value : string;
  displayName : string;
  description : string
}.

(** [NewSessionRequest], with the two [_meta] entries that steer
    [newSession]: [disableBuiltInTools] and an aborted [abortController]. *)
Record NewSessionRequest : Type := {
  cwd : string;
  mcpServers : list string;
  disableBuiltInTools : bool;
  aborted : bool
}.

(** [type Session]; the input channel and the settings manager carry no
    state that the operations below read. *)
Record Session : Type := {
  query : option Query;
  cancelled : bool;
  permissionMode : string;
  isAuthRequired : bool;
  sessionParams : NewSessionRequest
}.

Inductive ToolUseType : Type := tool_use | server_tool_use | mcp_tool_use.

(** An entry of [ToolUseCache]: the tool-use chunk itself. *)
Record ToolUse : Type := {
  type : ToolUseType;
  id : string;
  name : string;
  input : Json
}.

Inductive ToolResultType : Type :=
  | tool_result
  | tool_search_tool_result
  | web_fetch_tool_result
  | web_search_tool_result
  | code_execution_tool_result
  | bash_code_execution_tool_result
  | text_editor_code_execution_tool_result
  | mcp_tool_result.

Record ToolResult : Type := {
  result_type : ToolResultType;
  tool_use_id : string;
  is_error : option bool;                     (* [None]: no such field *)
  content : Json
}.

Definition ToolUseType_name (t : ToolUseType) : string :=
  match t with
  | tool_use => "tool_use"
  | server_tool_use => "server_tool_use"
  | mcp_tool_use => "mcp_tool_use"
  end.

(** JavaScript's truthiness of a JSON value. *)
Definition Json_truthy (v : Json) : bool :=
  match v with
  | JNull => false
  | JBool b => b
  | JNumber z => negb (z =? 0)%Z
  | JString s => negb (String.eqb s "")
  | JArray _ | JObject _ => true
  end.

(** What [toolUseCache[key]] can be. The cache is a plain object, so a
    read finds an entry, or what the cache inherits: the assignment
    [toolUseCache["__proto__"] = chunk] makes the chunk the prototype of
    the cache, whose fields are then read through the cache, and every
    other name falls through to [Object.prototype]. *)
Inductive CacheValue : Type :=
  | cachedToolUse (toolUse : ToolUse)
  | inheritedString (s : string)
  | inheritedInput (v : Json)
  | inheritedMember (member : PrototypeMember).

(** [toolUseCache[key]], [None] for [undefined]. The map holds the entries
    of the cache and, under [__proto__], the chunk that was made its
    prototype, if one was. *)
Definition toolUseCacheGet (cache : gmap string ToolUse) (key : string)
    : option CacheValue :=
  match cache !! key with
  | Some toolUse => Some (cachedToolUse toolUse)
  | None =>
      match cache !! "__proto__" with
      | Some prototype =>
          if String.eqb key "type"
          then Some (inheritedString (ToolUseType_name (type prototype)))
          else if String.eqb key "id" then Some (inheritedString (id prototype))
          else if String.eqb key "name" then Some (inheritedString (name prototype))
          else if String.eqb key "input" then Some (inheritedInput (input prototype))
          else inheritedMember <$> Object_prototype key
      | None => inheritedMember <$> Object_prototype key
      end
  end.

(** [!toolUse] is false *)
Definition CacheValue_truthy (toolUse : option CacheValue) : bool :=
  match toolUse with
  | Some (cachedToolUse _) | Some (inheritedMember _) => true
  | Some (inheritedString s) => negb (String.eqb s "")
  | Some (inheritedInput v) => Json_truthy v
  | None => false
  end.

(** [toolUse.name] of a truthy value, [None] for [undefined]: a string has
    no such property, a function has its name. *)
Definition CacheValue_name (toolUse : CacheValue) : option Json :=
  match toolUse with
  | cachedToolUse t => Some (JString (name t))
  | inheritedString _ => None
  | inheritedInput (JObject members) => member "name" members
  | inheritedInput _ => None
  | inheritedMember (prototypeMethod functionName) => Some (JString functionName)
  | inheritedMember prototypeObject => None
  end.

(** [toolUse.name !== "TodoWrite"] *)
Definition notTodoWrite (toolName : option Json) : bool :=
  match toolName with
  | Some (JString s) => negb (String.eqb s "TodoWrite")
  | _ => true
  end.

Inductive NoContentType : Type :=
  | document
  | search_result
  | redacted_thinking
  | input_json_delta
  | citations_delta
  | signature_delta
  | container_upload.

Inductive ImageSource : Type :=
  | base64 (data media_type : string)
  | url (address : string)
  | other_source.

(** The content blocks and deltas [toAcpNotifications] switches on, one
    constructor for each group of [case] labels; [UnknownChunk] is any
    other [type], given by its JSON text. *)
Inductive Chunk : Type :=
  | TextChunk (text : string)                 (* "text", "text_delta" *)
  | ImageChunk (source : ImageSource)         (* "image" *)
  | ThinkingChunk (thinking : string)         (* "thinking", "thinking_delta" *)
  | ToolUseChunk (toolUse : ToolUse)
  | ToolResultChunk (result : ToolResult)
  | NoContentChunk (t : NoContentType)
  | UnknownChunk (json : string).

Inductive Role : Type := assistant | user.

(** A line of the log; [logNumber before n after] is the line of the
    template [`${before}${n}${after}`], with the number as it is. *)
Inductive LogLine : Type :=
  | log (message : string)
  | error (message : string)
  | logNumber (before : string) (n : number) (after : string).

(** [ClaudeAcpAgent]: the session registry, the two caches, the hook
    callbacks registered with [tools.ts] and what went to the logger. *)
Record Agent : Type := {
  sessions : gmap string Session;
  toolUseCache : gmap string ToolUse;
  fileContentCache : gmap string string;
  hookCallbacks : gset string;
  logged : list LogLine
}.

Definition withSessions (f : gmap string Session -> gmap string Session) (a : Agent) : Agent :=
  {| sessions := f (sessions a);
     toolUseCache := toolUseCache a;
     fileContentCache := fileContentCache a;
     hookCallbacks := hookCallbacks a;
     logged := logged a |}.

Definition withToolUseCache (f : gmap string ToolUse -> gmap string ToolUse) (a : Agent) : Agent :=
  {| sessions := sessions a;
     toolUseCache := f (toolUseCache a);
     fileContentCache := fileContentCache a;
     hookCallbacks := hookCallbacks a;
     logged := logged a |}.

(** [registerHookCallback(id, ...)] *)
Definition registerHookCallback (toolUseId : string) (a : Agent) : Agent :=
  {| sessions := sessions a;
     toolUseCache := toolUseCache a;
     fileContentCache := fileContentCache a;
     hookCallbacks := {[ toolUseId ]} ∪ hookCallbacks a;
     logged := logged a |}.

Definition logger (line : LogLine) (a : Agent) : Agent :=
  {| sessions := sessions a;
     toolUseCache := toolUseCache a;
     fileContentCache := fileContentCache a;
     hookCallbacks := hookCallbacks a;
     logged := logged a ++ [line] |}.

(** What the operating system answers: the environment of the process,
    the home directory and the paths that exist. *)
Record System : Type := {
  processEnv : gmap string string;
  homedir : string;
  existing : gset string
}.

(** [path.resolve(dir, name)] for an absolute [dir] without a trailing
    separator and a plain file name. *)
Definition path_resolve (dir name : string) : string := dir ++ "/" ++ name.

Definition existsSync (sys : System) (path : string) : bool :=
  bool_decide (path ∈ existing sys).

(** The test that opens [newSession]: no token, a blank token, or a
    backup of the configuration file without the file itself. *)
Definition authMissing (sys : System) : bool :=
  let token := processEnv sys !! "ANTHROPIC_AUTH_TOKEN" in
  let noToken :=
    match token with
    | None => true
    | Some v => String.eqb v "" || String.eqb (trim v) ""
    end in
  let backupOnly :=
    existsSync sys (path_resolve (homedir sys) ".claude.json.backup")
    && negb (existsSync sys (path_resolve (homedir sys) ".claude.json")) in
  noToken || backupOnly.

(** [isOpusModel] of [setSessionModel] and [getAvailableModels] *)
Definition isOpusModel (modelId : string) : bool :=
  includes (toLowerCase modelId) "opus"
  || includes (toLowerCase modelId) "glm-4.7"
  || includes (toLowerCase modelId) "glm-4.6".

(** [process.env.MAX_THINKING_TOKENS ? parseInt(..., 10) : 15000] *)
Definition configuredThinkingTokens (env : gmap string string) : number :=
  match env !! "MAX_THINKING_TOKENS" with
  | Some v => if String.eqb v "" then Num 15000 else parseInt v
  | None => Num 15000
  end.

Definition setQuery (q : Query) (s : Session) : Session :=
  {| query := Some q;
     cancelled := cancelled s;
     permissionMode := permissionMode s;
     isAuthRequired := isAuthRequired s;
     sessionParams := sessionParams s |}.

Definition setPermissionMode (mode : string) (s : Session) : Session :=
  {| query := query s;
     cancelled := cancelled s;
     permissionMode := mode;
     isAuthRequired := isAuthRequired s;
     sessionParams := sessionParams s |}.

(** What the engine answers to the awaited calls [setModel] and
    [setMaxThinkingTokens]: it accepts both, or rejects one of them with
    [e]. *)
Inductive ModelAnswer : Type :=
  | bothAccepted
  | setModelRejected (e : Thrown)
  | setMaxThinkingTokensRejected (e : Thrown).

(** [setSessionModel(params)], with the engine's answer to its calls. An
    identifier that is no session but a member of [Object.prototype]
    passes the test for a session; the member has no [query], so the call
    returns at once. *)
Definition setSessionModel (sessionId modelId : string) (answer : ModelAnswer)
    (env : gmap string string) (a : Agent) : Outcome unit * Agent :=
  match sessions a !! sessionId with
  | None =>
      match Object_prototype sessionId with
      | Some _ => (Returned tt, a)
      | None => (Threw (Error "Session not found"), a)
      end
  | Some session =>
      match query session with
      | Some q =>
          match answer with
          | setModelRejected e => (Threw e, a)
          | setMaxThinkingTokensRejected e =>
              (Threw e, withSessions (insert sessionId (setQuery (setModel modelId q) session)) a)
          | bothAccepted =>
              let q1 := setModel modelId q in
              if isOpusModel modelId then
                let tokens := configuredThinkingTokens env in
                let q2 := setMaxThinkingTokens (Some tokens) q1 in
                (Returned tt,
                 logger (logNumber ("Extended thinking enabled for " ++ modelId ++ " with ")
                           tokens " tokens")
                   (withSessions (insert sessionId (setQuery q2 session)) a))
              else
                let q2 := setMaxThinkingTokens None q1 in
                (Returned tt,
                 logger (log ("Extended thinking disabled for " ++ modelId))
                   (withSessions (insert sessionId (setQuery q2 session)) a))
          end
      | None => (Returned tt, a)
      end
  end.

(** [sessions[sessionId].query.maxThinkingTokens]: the budget the engine
    of a session holds, when the session has an engine. *)
Definition thinkingBudget (a : Agent) (sessionId : string) : option (option number) :=
  match sessions a !! sessionId with
  | Some session => maxThinkingTokens <$> query session
  | None => None
  end.

Record SessionModelState : Type := {
  availableModels : list ModelInfo;
  currentModelId : string
}.

Record SessionMode : Type := {
  modeId : string;
  modeName : string
}.

Record NewSessionResponse : Type := {
  newSessionId : string;
  models : SessionModelState;
  currentModeId : string;
  availableModes : list SessionMode
}.

(** A slash command as the engine lists it, and as the agent offers it. *)
Record SlashCommand : Type := {
  commandName : string;
  commandDescription : option string;
  argumentHint : option string
}.

Record AvailableCommand : Type := {
  availableName : string;
  availableDescription : string;
  availableInput : option string              (* [{ hint }] or [null] *)
}.

(** What [newSession] awaits outside this file: the settings manager
    ([settings.ts]), which can reject, and the engine, whose calls can
    each reject: [query(...)], [supportedCommands()], [supportedModels()]
    and, for the model that becomes current, [setModel] and
    [setMaxThinkingTokens]. [IS_ROOT] is whether the process runs as root. *)
Class Engine : Type := {
  settingsManagerInitialize : NewSessionRequest -> option Thrown;
  createQuery : NewSessionRequest -> string -> Outcome Query;
  supportedCommands : Query -> Outcome (list SlashCommand);
  supportedModels : Query -> Outcome (list ModelInfo);
  modelAnswer : Query -> string -> ModelAnswer;
  IS_ROOT : bool
}.

Section Sessions.
Context `{Engine}.

Definition UNSUPPORTED_COMMANDS : list string :=
  ["context"; "cost"; "login"; "logout"; "output-style:new"; "release-notes"; "todos"].

(** The [map] callback of [getAvailableSlashCommands] *)
Definition availableCommand (command : SlashCommand) : AvailableCommand :=
  {| availableName :=
       if String_endsWith (commandName command) " (MCP)"
       then "mcp:" ++ String_replace " (MCP)" "" (commandName command)
       else commandName command;
     availableDescription := default "" (commandDescription command);
     availableInput :=
       match argumentHint command with
       | Some hint => if String.eqb hint "" then None else Some hint
       | None => None
       end |}.

Definition getAvailableSlashCommands (q : Query) : Outcome (list AvailableCommand) :=
  match supportedCommands q with
  | Threw e => Threw e
  | Returned commands =>
      Returned
        (List.filter
           (fun command =>
              negb (existsb (String.eqb (availableName command)) UNSUPPORTED_COMMANDS))
           (map availableCommand commands))
  end.

(** [getAvailableModels]: the first model becomes the current one (and gets
    the thinking budget when it is an Opus-class model); reading
    [models[0].value] of an empty list is a [TypeError]. Beside the
    outcome, the state the engine is left in. *)
Definition getAvailableModels (env : gmap string string) (q : Query)
    : Outcome SessionModelState * Query :=
  match supportedModels q with
  | Threw e => (Threw e, q)
  | Returned [] => (Threw (TypeError "Cannot read properties of undefined"), q)
  | Returned (currentModel :: others) =>
      let state :=
        {| availableModels :=
             List.filter (fun m => negb (String.eqb (value m) (value currentModel)))
               (currentModel :: others);
           currentModelId := value currentModel |} in
      let q1 := setModel (value currentModel) q in
      match modelAnswer q (value currentModel) with
      | setModelRejected e => (Threw e, q)
      | setMaxThinkingTokensRejected e =>
          if isOpusModel (value currentModel) then (Threw e, q1) else (Returned state, q1)
      | bothAccepted =>
          if isOpusModel (value currentModel)
          then (Returned state, setMaxThinkingTokens (Some (configuredThinkingTokens env)) q1)
          else (Returned state, q1)
      end
  end.

Definition sessionModes : list SessionMode :=
  [ {| modeId := "default"; modeName := "Default" |};
    {| modeId := "acceptEdits"; modeName := "Accept Edits" |};
    {| modeId := "plan"; modeName := "Plan Mode" |};
    {| modeId := "dontAsk"; modeName := "Don't Ask" |} ]
  ++ (if IS_ROOT then []
      else [ {| modeId := "bypassPermissions"; modeName := "Bypass Permissions" |} ]).

(** [newSession(params)], with [uuid] the value [randomUUID()] draws. The
    assembly of the engine options is inside [createQuery]; the slash
    commands go to the host in a deferred [available_commands_update],
    which is not part of the call's result. *)
Definition newSession (params : NewSessionRequest) (uuid : string) (sys : System)
    (a : Agent) : Outcome NewSessionResponse * Agent :=
  let a0 := logger (log "newSession called with params:") a in
  if authMissing sys then
    (Threw authRequired, logger (log "Auth required - throwing authRequired error") a0)
  else
    let sessionId := uuid in
    match settingsManagerInitialize params with
    | Some e => (Threw e, a0)
    | None =>
        if aborted params then (Threw (Error "Cancelled"), a0)
        else
          let a1 := logger (log "Creating query with cwd:") a0 in
          match createQuery params sessionId with
          | Threw e => (Threw e, logger (error "Error creating query:") a1)
          | Returned q =>
              let session :=
                {| query := Some q;
                   cancelled := false;
                   permissionMode := "default";
                   isAuthRequired := false;
                   sessionParams := params |} in
              let a2 := withSessions (insert sessionId session) a1 in
              match getAvailableSlashCommands q with
              | Threw e => (Threw e, a2)
              | Returned availableCommands =>
                  match getAvailableModels (processEnv sys) q with
                  | (Threw e, q') =>
                      (Threw e, withSessions (insert sessionId (setQuery q' session)) a2)
                  | (Returned models, q') =>
                      (Returned
                         {| newSessionId := sessionId;
                            models := models;
                            currentModeId := "default";
                            availableModes := sessionModes |},
                       withSessions (insert sessionId (setQuery q' session)) a2)
                  end
              end
          end
    end.

End Sessions.

(** The parts of [tools.ts] and [mcp-server.ts] that the translator and the
    permission mediator call; their code is not part of these sources, so
    the definitions below take them as an interface. *)
Class Tools : Type := {
  ToolInfo : Type;
  ToolUpdate : Type;
  PlanEntry : Type;
  EDIT_TOOL_NAMES : list string;
  toolInfoFromToolUse : string -> Json -> gmap string string -> ToolInfo;
  title : ToolInfo -> string;
  planEntries : Json -> list PlanEntry;
  toolUpdateFromToolResult : ToolResult -> CacheValue -> ToolUpdate
}.

Section Translator.
Context `{Tools}.

Inductive ContentBlock : Type :=
  | TextContent (text : string)
  | ImageContent (data mimeType : string) (uri : option string).

Inductive ToolCallStatus : Type := pending | completed | failed.

(** [SessionNotification["update"]], by its [sessionUpdate] tag. *)
Inductive SessionUpdate : Type :=
  | agent_message_chunk (content : ContentBlock)
  | user_message_chunk (content : ContentBlock)
  | agent_thought_chunk (content : ContentBlock)
  | plan (entries : list PlanEntry)
  | tool_call (toolCallId toolName : string) (rawInput : Json)
      (status : ToolCallStatus) (info : ToolInfo)
  | tool_call_update (toolCallId : string) (toolName : option Json)
      (status : ToolCallStatus) (fields : ToolUpdate)
  | current_mode_update (currentMode : string).

Record SessionNotification : Type := {
  sessionId : string;
  update : SessionUpdate
}.

Definition messageChunk (role : Role) (content : ContentBlock) : SessionUpdate :=
  match role with
  | assistant => agent_message_chunk content
  | user => user_message_chunk content
  end.

Definition untrackedResult (toolUseId : string) : LogLine :=
  error ("[claude-code-acp] Got a tool result for tool use that wasn't tracked: "
         ++ toolUseId).

(** The body of the loop of [toAcpNotifications]: the [update] the chunk
    leaves behind, if any, and the agent after it. *)
Definition translateChunk (role : Role) (chunk : Chunk) (a : Agent)
    : Outcome (option SessionUpdate) * Agent :=
  match chunk with
  | TextChunk text => (Returned (Some (messageChunk role (TextContent text))), a)
  | ImageChunk source =>
      let content :=
        match source with
        | base64 data media_type => ImageContent data media_type None
        | url address => ImageContent "" "" (Some address)
        | other_source => ImageContent "" "" None
        end in
      (Returned (Some (messageChunk role content)), a)
  | ThinkingChunk thinking =>
      (Returned (Some (agent_thought_chunk (TextContent thinking))), a)
  | ToolUseChunk chunk =>
      let a1 := withToolUseCache (insert (id chunk) chunk) a in
      if String.eqb (name chunk) "TodoWrite" then
        match getProperty (input chunk) "todos" with
        | Threw e => (Threw e, a1)
        | Returned (Some (JArray _)) =>
            (Returned (Some (plan (planEntries (input chunk)))), a1)
        | Returned _ => (Returned None, a1)
        end
      else
        let a2 := registerHookCallback (id chunk) a1 in
        (Returned
           (Some (tool_call (id chunk) (name chunk) (input chunk) pending
                    (toolInfoFromToolUse (name chunk) (input chunk)
                       (fileContentCache a2)))),
         a2)
  | ToolResultChunk chunk =>
      match toolUseCacheGet (toolUseCache a) (tool_use_id chunk) with
      | Some toolUse =>
          if CacheValue_truthy (Some toolUse) then
            if notTodoWrite (CacheValue_name toolUse) then
              (Returned
                 (Some (tool_call_update (tool_use_id chunk) (CacheValue_name toolUse)
                          (match is_error chunk with
                           | Some true => failed
                           | _ => completed
                           end)
                          (toolUpdateFromToolResult chunk toolUse))),
               a)
            else (Returned None, a)
          else (Returned None, logger (untrackedResult (tool_use_id chunk)) a)
      | None => (Returned None, logger (untrackedResult (tool_use_id chunk)) a)
      end
  | NoContentChunk _ => (Returned None, a)
  | UnknownChunk json => (Returned None, logger (error ("Unexpected case: " ++ json)) a)
  end.

(** The loop itself: [output] grows by one notification for each chunk that
    left an update; a throw ends it with the agent as it then is. *)
Fixpoint translateChunks (role : Role) (session : string) (chunks : list Chunk)
    (a : Agent) (output : list SessionNotification)
    : Outcome (list SessionNotification) * Agent :=
  match chunks with
  | [] => (Returned output, a)
  | chunk :: rest =>
      match translateChunk role chunk a with
      | (Threw e, a') => (Threw e, a')
      | (Returned None, a') => translateChunks role session rest a' output
      | (Returned (Some u), a') =>
          translateChunks role session rest a'
            (output ++ [ {| sessionId := session; update := u |} ])
      end
  end.

Definition toAcpNotifications (content : string + list Chunk) (role : Role)
    (session : string) (a : Agent) : Outcome (list SessionNotification) * Agent :=
  match content with
  | inl text =>
      (Returned [ {| sessionId := session;
                     update := messageChunk role (TextContent text) |} ], a)
  | inr chunks => translateChunks role session chunks a []
  end.

(** *** The permission mediator *)

Inductive PermissionUpdate : Type :=
  | setMode (mode destination : string)
  | addRules (rules : list string) (behavior destination : string).

Inductive PermissionResult : Type :=
  | allow (updatedInput : Json) (updatedPermissions : option (list PermissionUpdate))
  | deny (message : string) (interrupt : bool).

Record PermissionOption : Type := {
  kind : string;
  optionName : string;
  optionId : string
}.

Record RequestPermissionRequest : Type := {
  options : list PermissionOption;
  requestSession : string;
  toolCallId : string;
  toolCallInput : Json;
  toolCallTitle : string
}.

(** [response.outcome], absent or one of the two outcomes of the protocol. *)
Inductive RequestPermissionOutcome : Type :=
  | outcome_cancelled
  | selected (optionId : string).

Definition RequestPermissionResponse : Type := option RequestPermissionOutcome.

(** A computation that talks to the host: it ends with a value, or waits
    for the answer to a permission request, or sends a notification. *)
Inductive Host (A : Type) : Type :=
  | Ret (a : A)
  | requestPermission (request : RequestPermissionRequest)
      (k : RequestPermissionResponse -> Host A)
  | sessionUpdate (notification : SessionNotification) (k : Host A).
Arguments Ret {A} a.
Arguments requestPermission {A} request k.
Arguments sessionUpdate {A} notification k.

(** [EDIT_TOOL_NAMES.includes(toolName)] *)
Definition isEditTool (toolName : string) : bool :=
  existsb (String.eqb toolName) EDIT_TOOL_NAMES.

Definition exitPlanModeOptions : list PermissionOption :=
  [ {| kind := "allow_always"; optionName := "Yes, and auto-accept edits";
       optionId := "acceptEdits" |};
    {| kind := "allow_once"; optionName := "Yes, and manually approve edits";
       optionId := "default" |};
    {| kind := "reject_once"; optionName := "No, keep planning"; optionId := "plan" |} ].

Definition toolOptions : list PermissionOption :=
  [ {| kind := "allow_always"; optionName := "Always Allow"; optionId := "allow_always" |};
    {| kind := "allow_once"; optionName := "Allow"; optionId := "allow" |};
    {| kind := "reject_once"; optionName := "Reject"; optionId := "reject" |} ].

Definition permissionRequest (opts : list PermissionOption) (session toolName : string)
    (toolInput : Json) (toolUseID : string) (a : Agent) : RequestPermissionRequest :=
  {| options := opts;
     requestSession := session;
     toolCallId := toolUseID;
     toolCallInput := toolInput;
     toolCallTitle := title (toolInfoFromToolUse toolName toolInput (fileContentCache a)) |}.

(** [canUseTool(sessionId)(toolName, toolInput, { suggestions, toolUseID })];
    the agent is the one the call started with, no other request runs while
    it waits for the host. *)
Definition canUseTool (session : string) (a : Agent) (toolName : string)
    (toolInput : Json) (suggestions : option (list PermissionUpdate))
    (toolUseID : string) : Host (PermissionResult * Agent) :=
  match sessions a !! session with
  | None => Ret (deny "Session not found" true, a)
  | Some s =>
      if String.eqb toolName "ExitPlanMode" then
        requestPermission
          (permissionRequest exitPlanModeOptions session toolName toolInput toolUseID a)
          (fun response =>
             match response with
             | Some (selected choice) =>
                 if String.eqb choice "default" || String.eqb choice "acceptEdits" then
                   sessionUpdate
                     {| sessionId := session; update := current_mode_update choice |}
                     (Ret (allow toolInput
                             (Some (default [setMode choice "session"] suggestions)),
                           withSessions (insert session (setPermissionMode choice s)) a))
                 else Ret (deny "User rejected request to exit plan mode." true, a)
             | _ => Ret (deny "User rejected request to exit plan mode." true, a)
             end)
      else if String.eqb (permissionMode s) "bypassPermissions"
              || (String.eqb (permissionMode s) "acceptEdits" && isEditTool toolName) then
        Ret (allow toolInput
               (Some (default [addRules [toolName] "allow" "session"] suggestions)), a)
      else
        requestPermission
          (permissionRequest toolOptions session toolName toolInput toolUseID a)
          (fun response =>
             match response with
             | Some (selected choice) =>
                 if String.eqb choice "allow" || String.eqb choice "allow_always" then
                   if String.eqb choice "allow_always" then
                     Ret (allow toolInput
                            (Some (default [addRules [toolName] "allow" "session"]
                                     suggestions)), a)
                   else Ret (allow toolInput None, a)
                 else Ret (deny "User refused permission to run tool" true, a)
             | _ => Ret (deny "User refused permission to run tool" true, a)
             end)
  end.

End Translator.

Arguments Ret {H A} a.
Arguments requestPermission {H A} request k.
Arguments sessionUpdate {H A} notification k.

(** An engine and a tools module to run the operations on: two models, the
    two edit tools of the ACP server, a tool's name as its title. *)
Definition sampleEngine : Engine :=
  {| settingsManagerInitialize := fun _ => None;
     createQuery := fun _ _ =>
       Returned {| model := None; maxThinkingTokens := None;
                   queryPermissionMode := "default"; interrupted := false |};
     supportedCommands := fun _ =>
       Returned [ {| commandName := "compact"; commandDescription := Some "Compact";
                     argumentHint := None |} ];
     supportedModels := fun _ =>
       Returned
         [ {| value := "glm-4.7"; displayName := "GLM-4.7"; description := "" |};
           {| value := "glm-4.5-air"; displayName := "GLM-4.5-Air"; description := "" |} ];
     modelAnswer := fun _ _ => bothAccepted;
     IS_ROOT := false |}.

Definition sampleTools : Tools :=
  {| ToolInfo := string;
     ToolUpdate := Json;
     PlanEntry := Json;
     EDIT_TOOL_NAMES := ["mcp__acp__Edit"; "mcp__acp__Write"];
     toolInfoFromToolUse := fun toolName _ _ => toolName;
     title := fun info => info;
     planEntries := fun input =>
       match getProperty input "todos" with
       | Returned (Some (JArray todos)) => todos
       | _ => []
       end;
     toolUpdateFromToolResult := fun result _ => content result |}.

Definition noParams : NewSessionRequest :=
  {| cwd := "/work"; mcpServers := []; disableBuiltInTools := false; aborted := false |}.

Definition newAgent : Agent :=
  {| sessions := ∅; toolUseCache := ∅; fileContentCache := ∅;
     hookCallbacks := ∅; logged := [] |}.

Definition sampleQuery : Query :=
  {| model := None; maxThinkingTokens := None;
     queryPermissionMode := "default"; interrupted := false |}.

Definition sampleSession (mode : string) : Session :=
  {| query := Some sampleQuery; cancelled := false; permissionMode := mode;
     isAuthRequired := false; sessionParams := noParams |}.

(** A task-list invocation and the result of a tool nobody announced. *)
Definition sampleTodoWrite : ToolUse :=
  {| type := tool_use; id := "toolu_01"; name := "TodoWrite";
     input := JObject [("todos", JArray [JObject [("content", JString "write tests");
                                                   ("status", JString "pending")]])] |}.


(** The result of a tool nobody announced, under an identifier that
    names a member of [Object.prototype]. *)
Definition constructorResult : ToolResult :=
  {| result_type := tool_result; tool_use_id := "constructor"; is_error := None;
     content := JString "done" |}.

(** An agent with the one session [s1], in the given permission mode. *)
Definition agentWith (mode : string) : Agent :=
  withSessions (insert "s1" (sampleSession mode)) newAgent.

End AcpAgent.

(** ** [src/utils.ts]: reading a file by whole lines *)

Module Lines.

(** The text is the sequence of its UTF-16 code units, so that lengths and
    positions are those of JavaScript; [10] is the line feed. *)
Definition LF : N := 10.

(** [fullContent.indexOf("\n", index)]; [None] is [-1]. *)
Fixpoint indexOfLF (fullContent : list N) (index : nat) : option nat :=
  match fullContent with
  | [] => None
  | c :: rest =>
      match index with
      | O => if N.eqb c LF then Some O else S <$> indexOfLF rest O
      | S index' => S <$> indexOfLF rest index'
      end
  end.

Record ExtractLinesResult : Type := {
  content : list N;
  wasLimited : bool;
  linesRead : nat
}.

(** The [while (true)] loop of [extractLinesWithByteLimit] from the state
    [(linesSeen, index, contentLength)] to the values it leaves in
    [(contentLength, linesSeen, wasLimited)]; [None] when [fuel] rounds
    were not enough. *)
Fixpoint extractLoop (fuel : nat) (fullContent : list N) (maxContentLength : Z)
    (linesSeen index contentLength : nat) : option (nat * nat * bool) :=
  match fuel with
  | O => None
  | S fuel' =>
      match indexOfLF fullContent index with
      | None =>
          if (0 <? linesSeen)%nat && (maxContentLength <? Z.of_nat (length fullContent))%Z
          then Some (contentLength, linesSeen, true)
          else Some (length fullContent, S linesSeen, false)
      | Some nextIndex =>
          let newContentLength := nextIndex + 1 in
          if (0 <? linesSeen)%nat && (maxContentLength <? Z.of_nat newContentLength)%Z
          then Some (contentLength, linesSeen, true)
          else extractLoop fuel' fullContent maxContentLength
                 (S linesSeen) newContentLength newContentLength
      end
  end.

(** [extractLinesWithByteLimit(fullContent, maxContentLength)]; the loop
    gets one round more than the text has code units. *)
Definition extractLinesWithByteLimit (fullContent : list N) (maxContentLength : Z)
    : option ExtractLinesResult :=
  match fullContent with
  | [] => Some {| content := []; wasLimited := false; linesRead := 1 |}
  | _ :: _ =>
      match extractLoop (S (length fullContent)) fullContent maxContentLength 0 0 0 with
      | Some (contentLength, linesSeen, limited) =>
          Some {| content := take contentLength fullContent;
                  wasLimited := limited;
                  linesRead := linesSeen |}
      | None => None
      end
  end.

(** The number of line feeds of a text. *)
Definition lineFeeds (text : list N) : nat :=
  length (List.filter (N.eqb LF) text).

(** Three lines, the last without a line feed; a long first line. *)
Definition threeLines : list N := [97; 98; 10; 99; 100; 10; 101; 102]%N.
Definition longFirstLine : list N := [97; 98; 99; 100; 101; 102; 10; 103; 104]%N.

End Lines.

(** ** [src/utils.ts]: [Pushable], the input channel of a session *)

Module PushableQueue.
#[local] Open Scope list_scope.

Section Pushable.
Variable T : Type.

(** [IteratorResult<T>]: [{ value, done: false }] or [{ done: true }]. *)
Inductive IteratorResult : Type :=
  | Yield (item : T)
  | Done.

(** The fields of a [Pushable]; a resolver is the pending promise of one
    [next()] call, named by the ticket of that call. *)
Record Pushable : Type := {
  queue : list T;
  resolvers : list nat;
  done : bool
}.

Definition new : Pushable := {| queue := []; resolvers := []; done := false |}.

(** Each operation returns the promises it resolves, in order, each with
    its result. *)
Definition push (item : T) (p : Pushable) : Pushable * list (nat * IteratorResult) :=
  match resolvers p with
  | resolve :: rest =>
      ({| queue := queue p; resolvers := rest; done := done p |}, [(resolve, Yield item)])
  | [] => ({| queue := queue p ++ [item]; resolvers := []; done := done p |}, [])
  end.

Definition end_ (p : Pushable) : Pushable * list (nat * IteratorResult) :=
  ({| queue := queue p; resolvers := []; done := true |},
   map (fun resolve => (resolve, Done)) (resolvers p)).

(** [next()] of the iterator, called with a fresh ticket. *)
Definition next (ticket : nat) (p : Pushable) : Pushable * list (nat * IteratorResult) :=
  match queue p with
  | item :: rest =>
      ({| queue := rest; resolvers := resolvers p; done := done p |}, [(ticket, Yield item)])
  | [] =>
      if done p then (p, [(ticket, Done)])
      else ({| queue := []; resolvers := resolvers p ++ [ticket]; done := false |}, [])
  end.

(** A history of calls on one [Pushable]. *)
Inductive Call : Type :=
  | Push (item : T)
  | End
  | Next (ticket : nat).

Definition call (c : Call) (p : Pushable) : Pushable * list (nat * IteratorResult) :=
  match c with
  | Push item => push item p
  | End => end_ p
  | Next ticket => next ticket p
  end.

Fixpoint run (calls : list Call) (p : Pushable) : Pushable * list (nat * IteratorResult) :=
  match calls with
  | [] => (p, [])
  | c :: rest =>
      let '(p1, resolved1) := call c p in
      let '(p2, resolved2) := run rest p1 in
      (p2, resolved1 ++ resolved2)
  end.

Definition pushed (calls : list Call) : list T :=
  flat_map (fun c => match c with Push item => [item] | _ => [] end) calls.

Definition requested (calls : list Call) : list nat :=
  flat_map (fun c => match c with Next ticket => [ticket] | _ => [] end) calls.

Definition yielded (resolved : list (nat * IteratorResult)) : list T :=
  flat_map (fun r => match snd r with Yield item => [item] | Done => [] end) resolved.

(** Items wait only when no [next()] is pending, and nothing is pending
    once the channel is ended. *)
Definition settled (p : Pushable) : Prop :=
  (queue p = [] \/ resolvers p = []) /\ (done p = true -> resolvers p = []).

End Pushable.

Arguments Yield {T} item.
Arguments Done {T}.
Arguments Push {T} item.
Arguments End {T}.
Arguments Next {T} ticket.

End PushableQueue.

(** ** [src/utils.ts]: the stored API key *)

Module Credentials.
Import Js Utils.
#[local] Open Scope list_scope.

(** The settings files: a path is mapped to the object that [JSON.parse]
    reads from the file, with the sections of [ManagedSettings]; a path
    without an entry is a file that is missing or is not JSON, for which
    the read throws. A file that holds JSON of another shape ([null], a
    number, a section [env] that is no object of strings) is not
    represented. *)
Record Machine : Type := {
  processEnv : gmap string string;
  homedir : string;
  files : gmap string ManagedSettings
}.

Definition TOKEN : string := "ANTHROPIC_AUTH_TOKEN".

(** [getManagedSettingsPath()], for a home directory without a trailing
    separator. *)
Definition getManagedSettingsPath (m : Machine) : string :=
  match processEnv m !! "CLAUDE_CODE_SETTINGS_PATH" with
  | Some customPath =>
      if String.eqb customPath ""
      then (homedir m ++ "/.config/z-ai-acp/managed-settings.json")%string
      else customPath
  | None => (homedir m ++ "/.config/z-ai-acp/managed-settings.json")%string
  end.

Definition loadManagedSettings (m : Machine) : option ManagedSettings :=
  files m !! getManagedSettingsPath m.

(** [object[key] = value] on the entries of an object: the value of an
    existing key is replaced where it stands, a new key goes last. *)
Fixpoint setEntry (key value : string) (entries : list (string * string))
    : list (string * string) :=
  match entries with
  | [] => [(key, value)]
  | (k, v) :: rest =>
      if String.eqb k key then (k, value) :: rest else (k, v) :: setEntry key value rest
  end.

(** [delete object[key]] *)
Definition deleteEntry (key : string) (entries : list (string * string))
    : list (string * string) :=
  List.filter (fun entry => negb (String.eqb (fst entry) key)) entries.

(** The settings [saveApiKey] starts from when the file cannot be read. *)
Definition defaultSettings : ManagedSettings :=
  {| permissions := Some {| allow := Some ["*"%string]; deny := Some [] |};
     env := Some [ ("ANTHROPIC_BASE_URL", "https://api.z.ai/api/anthropic");
                   ("API_TIMEOUT_MS", "3000000");
                   ("Z_AI_MODEL_MAPPING", "true") ]%string;
     z_ai := Some {| enabled := Some true;
                     api_endpoint := Some "https://api.z.ai/api/anthropic"%string;
                     model_mapping :=
                       Some [ ("claude-3-5-sonnet-20241022", "glm-4.6");
                              ("claude-3-5-haiku-20241022", "glm-4.5-air");
                              ("claude-3-opus-20240229", "glm-4.6") ]%string |} |}.

Definition withEnv (entries : list (string * string)) (settings : ManagedSettings)
    : ManagedSettings :=
  {| permissions := permissions settings;
     env := Some entries;
     z_ai := z_ai settings |}.

Definition writeSettings (path : string) (settings : ManagedSettings) (m : Machine)
    : Machine :=
  {| processEnv := processEnv m;
     homedir := homedir m;
     files := <[path := settings]> (files m) |}.


(** [saveApiKey(apiKey)], for a call that returns: the machine it leaves. *)
Definition saveApiKey (apiKey : string) (m : Machine) : Machine :=
  let settingsPath := getManagedSettingsPath m in
  let settings := default defaultSettings (files m !! settingsPath) in
  let entries := default [] (env settings) in
  writeSettings settingsPath (withEnv (setEntry TOKEN apiKey entries) settings) m.

(** [clearApiKey()]: the key leaves the file, when the file can be read
    and has an [env] section, and the environment of the process. *)
Definition clearApiKey (m : Machine) : Machine :=
  let settingsPath := getManagedSettingsPath m in
  let m1 :=
    match files m !! settingsPath with
    | Some settings =>
        match env settings with
        | Some entries => writeSettings settingsPath (withEnv (deleteEntry TOKEN entries) settings) m
        | None => m
        end
    | None => m
    end in
  {| processEnv := delete TOKEN (processEnv m1);
     homedir := homedir m1;
     files := files m1 |}.

(** The value an object with these entries has for [key]. *)
Definition entryOf (key : string) (entries : list (string * string)) : option string :=
  snd <$> List.find (fun entry => String.eqb (fst entry) key) entries.



(** A machine whose settings file lists no key. *)
Definition sampleSettings : ManagedSettings :=
  {| permissions := None;
     env := Some [("API_TIMEOUT_MS", "3000000")]%string;
     z_ai := None |}.

Definition sampleMachine : Machine :=
  {| processEnv := ∅;
     homedir := "/home/dev";
     files := {[ "/home/dev/.config/z-ai-acp/managed-settings.json"%string := sampleSettings ]} |}.

End Credentials.

(** ** [src/utils.ts] and [src/acp-agent.ts]: getting an API key *)

Module Authentication.
Import Js Utils Credentials.
#[local] Open Scope list_scope.

(** [response.ok] *)
Definition ok (status : Z) : bool := ((200 <=? status) && (status <=? 299))%Z.

(** The two texts of a failed validation. *)
Inductive ValidationError : Type :=
  | invalidKey
  | requestFailed (status : Z).

Record Validation : Type := {
  isValid : bool;
  validationError : option ValidationError
}.

(** [validateApiKeyWithMessagesEndpoint]; [messages] is the status the
    messages endpoint answers with, [None] when the request fails. *)
Definition validateApiKeyWithMessagesEndpoint (messages : option Z) : Validation :=
  match messages with
  | Some status =>
      if (ok status || (status =? 400)%Z)%bool
      then {| isValid := true; validationError := None |}
      else if ((status =? 401) || (status =? 403))%Z
      then {| isValid := false; validationError := Some invalidKey |}
      else {| isValid := true; validationError := None |}
  | None => {| isValid := true; validationError := None |}
  end.

(** [validateApiKey]; [models] is the status the models endpoint answers
    with, [None] when the request fails. *)
Definition validateApiKey (models messages : option Z) : Validation :=
  match models with
  | Some status =>
      if ok status then {| isValid := true; validationError := None |}
      else if ((status =? 401) || (status =? 403))%Z
      then {| isValid := false; validationError := Some invalidKey |}
      else if (status =? 404)%Z then validateApiKeyWithMessagesEndpoint messages
      else {| isValid := false; validationError := Some (requestFailed status) |}
  | None => validateApiKeyWithMessagesEndpoint messages
  end.










(** The test of [newSession] for the backup of the configuration file
    without the file itself. *)
Definition backupOnly (sys : AcpAgent.System) : bool :=
  AcpAgent.existsSync sys (AcpAgent.path_resolve (AcpAgent.homedir sys) ".claude.json.backup")
  && negb (AcpAgent.existsSync sys
             (AcpAgent.path_resolve (AcpAgent.homedir sys) ".claude.json")).

End Authentication.

(** ** [src/acp-agent.ts]: modes, cancellation, the file cache and the turn *)

Module AcpTurn.
Import Js AcpAgent.
#[local] Open Scope list_scope.

Definition setCancelled (flag : bool) (s : Session) : Session :=
  {| query := query s;
     cancelled := flag;
     permissionMode := permissionMode s;
     isAuthRequired := isAuthRequired s;
     sessionParams := sessionParams s |}.

Definition setAuthRequired (flag : bool) (s : Session) : Session :=
  {| query := query s;
     cancelled := cancelled s;
     permissionMode := permissionMode s;
     isAuthRequired := flag;
     sessionParams := sessionParams s |}.

(** [query.setPermissionMode(mode)] and [query.interrupt()], when the
    engine accepts them. *)
Definition setEngineMode (mode : string) (q : Query) : Query :=
  {| model := model q;
     maxThinkingTokens := maxThinkingTokens q;
     queryPermissionMode := mode;
     interrupted := interrupted q |}.

Definition interrupt (q : Query) : Query :=
  {| model := model q;
     maxThinkingTokens := maxThinkingTokens q;
     queryPermissionMode := queryPermissionMode q;
     interrupted := true |}.

(** The [case] labels of [setSessionMode]. *)
Definition knownMode (modeId : string) : bool :=
  String.eqb modeId "default" || String.eqb modeId "acceptEdits"
  || String.eqb modeId "bypassPermissions" || String.eqb modeId "dontAsk"
  || String.eqb modeId "plan".

(** [setSessionMode(params)]. [rejection] is what the engine does with
    [setPermissionMode]: [None] when it accepts, [Some e] when it throws,
    [e] being the message of the error if it is an [Error] that has one. *)
Definition setSessionMode (sessionId modeId : string) (rejection : option (option string))
    (a : Agent) : Outcome unit * Agent :=
  match sessions a !! sessionId with
  | None => (Threw (Error "Session not found"), a)
  | Some session =>
      if knownMode modeId then
        let session1 := setPermissionMode modeId session in
        match query session with
        | Some q =>
            match rejection with
            | None =>
                (Returned tt,
                 withSessions
                   (insert sessionId (setQuery (setEngineMode modeId q) session1)) a)
            | Some e =>
                let errorMessage :=
                  match e with
                  | Some message =>
                      if String.eqb message "" then "Invalid Mode"%string else message
                  | None => "Invalid Mode"%string
                  end in
                (Threw (Error errorMessage), withSessions (insert sessionId session1) a)
            end
        | None => (Returned tt, withSessions (insert sessionId session1) a)
        end
      else (Threw (Error "Invalid Mode"), a)
  end.

(** [cancel(params)], for an engine whose [interrupt] returns. *)
Definition cancel (sessionId : string) (a : Agent) : Outcome unit * Agent :=
  match sessions a !! sessionId with
  | None => (Threw (Error "Session not found"), a)
  | Some session =>
      let session1 := setCancelled true session in
      let session2 :=
        match query session with
        | Some q => setQuery (interrupt q) session1
        | None => session1
        end in
      (Returned tt, withSessions (insert sessionId session2) a)
  end.

(** *** The cache of file contents *)

Record ReadTextFileRequest : Type := {
  readPath : string;
  limit : option Z;
  line : option Z
}.

Record WriteTextFileRequest : Type := {
  writePath : string;
  writeContent : string
}.

Definition withFileContentCache (f : gmap string string -> gmap string string)
    (a : Agent) : Agent :=
  {| sessions := sessions a;
     toolUseCache := toolUseCache a;
     fileContentCache := f (fileContentCache a);
     hookCallbacks := hookCallbacks a;
     logged := logged a |}.

(** [!value] for a number that may be absent. *)
Definition absentOrZero (value : option Z) : bool :=
  match value with
  | None => true
  | Some z => (z =? 0)%Z
  end.

(** [readTextFile(params)], with the content the client answers. *)
Definition readTextFile (params : ReadTextFileRequest) (responseContent : string)
    (a : Agent) : string * Agent :=
  if absentOrZero (limit params) && absentOrZero (line params)
  then (responseContent, withFileContentCache (insert (readPath params) responseContent) a)
  else (responseContent, a).

Definition writeTextFile (params : WriteTextFileRequest) (a : Agent) : Agent :=
  withFileContentCache (insert (writePath params) (writeContent params)) a.

(** A history of file requests that the client answered. *)
Inductive FileRequest : Type :=
  | Read (params : ReadTextFileRequest) (responseContent : string)
  | Write (params : WriteTextFileRequest).

Definition serve (request : FileRequest) (a : Agent) : Agent :=
  match request with
  | Read params responseContent => snd (readTextFile params responseContent a)
  | Write params => writeTextFile params a
  end.




(** *** The messages of the engine *)

Inductive SystemSubtype : Type :=
  | init
  | compact_boundary
  | hook_response
  | status
  | other_subtype (json : string).

Inductive ResultSubtype : Type :=
  | success
  | error_during_execution
  | error_max_budget_usd
  | error_max_turns
  | error_max_structured_output_retries
  | other_result (json : string).

Definition ResultSubtype_name (subtype : ResultSubtype) : string :=
  match subtype with
  | success => "success"
  | error_during_execution => "error_during_execution"
  | error_max_budget_usd => "error_max_budget_usd"
  | error_max_turns => "error_max_turns"
  | error_max_structured_output_retries => "error_max_structured_output_retries"
  | other_result json => json
  end.

(** A [result] message: [result] is the text of a [success], [errors] the
    list of the other subtypes. *)
Record ResultMessage : Type := {
  subtype : ResultSubtype;
  result : string;
  is_error : bool;
  errors : list string
}.

Inductive StreamEvent : Type :=
  | content_block_start (content_block : Chunk)
  | content_block_delta (delta : Chunk)
  | message_start
  | message_delta
  | message_stop
  | content_block_stop
  | other_event (json : string).

(** [message.message.content]: a string or an array of blocks. In the
    blocks of a whole message a [TextChunk] is a [text] block and a
    [ThinkingChunk] a [thinking] block. *)
Inductive MessageContent : Type :=
  | ContentText (text : string)
  | ContentBlocks (blocks : list Chunk).

Inductive SDKMessage : Type :=
  | system_message (subtype : SystemSubtype)
  | result_message (message : ResultMessage)
  | stream_event (event : StreamEvent)
  | user_message (content : MessageContent)
  | assistant_message (model : string) (content : MessageContent)
  | tool_progress
  | auth_status
  | other_message (json : string).

(** What reaches the loop of a turn, in order: a message of the engine, or
    a [cancel] notification of the host handled while the loop waits. *)
Inductive TurnEvent : Type :=
  | Message (message : SDKMessage)
  | CancelRequest.

(** An event that is neither a result message nor a cancel notification. *)
Definition noResult (event : TurnEvent) : Prop :=
  match event with
  | Message (result_message _) => False
  | CancelRequest => False
  | Message _ => True
  end.

Inductive StopReason : Type := end_turn | stop_cancelled | max_turn_requests.

(** [this.sessions[sessionId].cancelled] *)
Definition isCancelled (a : Agent) (sessionId : string) : bool :=
  match sessions a !! sessionId with
  | Some session => cancelled session
  | None => false
  end.

(** [array.join(", ")] *)
Fixpoint join (parts : list string) : string :=
  match parts with
  | [] => ""
  | [part] => part
  | part :: rest => (part ++ ", " ++ join rest)%string
  end.

Definition authErrors : list string :=
  ["401"; "403"; "authentication"; "Unauthorized"; "invalid_api_key";
   "Invalid API"; "API key"]%string.

(** [authErrors.some((err) => text.includes(err))] *)
Definition isAuthError (text : string) : bool :=
  existsb (fun err => includes text err) authErrors.

(** The [case "result"] of the loop, for a session that is not cancelled:
    the end of the turn, or [None] when the loop goes on (an unknown
    subtype, which is logged). *)
Definition handleResult (message : ResultMessage) (a : Agent) (m : Credentials.Machine)
    : option (Outcome StopReason) * Agent * Credentials.Machine :=
  match subtype message with
  | success =>
      if includes (result message) "Please run /login" then (Some (Threw authRequired), a, m)
      else if is_error message then
        if isAuthError (result message) then
          (Some (Threw authRequired),
           logger (error "Authentication error detected in result, clearing API key and requesting re-auth") a,
           Credentials.clearApiKey m)
        else (Some (Threw (internalError (result message))), a, m)
      else (Some (Returned end_turn), a, m)
  | error_during_execution =>
      if is_error message then
        let joined := join (errors message) in
        let errorMsg :=
          if String.eqb joined "" then ResultSubtype_name (subtype message) else joined in
        if isAuthError errorMsg then
          (Some (Threw authRequired),
           logger (error "Authentication error detected, clearing API key and requesting re-auth") a,
           Credentials.clearApiKey m)
        else (Some (Threw (internalError errorMsg)), a, m)
      else (Some (Returned end_turn), a, m)
  | error_max_budget_usd | error_max_turns | error_max_structured_output_retries =>
      if is_error message then
        let joined := join (errors message) in
        (Some (Threw (internalError
                        (if String.eqb joined "" then ResultSubtype_name (subtype message)
                         else joined))), a, m)
      else (Some (Returned max_turn_requests), a, m)
  | other_result json => (None, logger (error ("Unexpected case: " ++ json)) a, m)
  end.

Section Turn.
Context `{Tools}.

Definition streamEventToAcpNotifications (event : StreamEvent) (session : string)
    (a : Agent) : Outcome (list SessionNotification) * Agent :=
  match event with
  | content_block_start content_block =>
      toAcpNotifications (inr [content_block]) assistant session a
  | content_block_delta delta => toAcpNotifications (inr [delta]) assistant session a
  | message_start | message_delta | message_stop | content_block_stop => (Returned [], a)
  | other_event json => (Returned [], logger (error ("Unexpected case: " ++ json)) a)
  end.

Definition isTextOrThinking (block : Chunk) : bool :=
  match block with
  | TextChunk _ | ThinkingChunk _ => true
  | _ => false
  end.

(** The [case "user"] and [case "assistant"] of the loop, for a session
    that is not cancelled. *)
Definition handleConversation (role : Role) (model : string) (content : MessageContent)
    (session : string) (a : Agent)
    : option (Outcome StopReason) * Agent * list SessionNotification :=
  match content with
  | ContentText text =>
      if includes text "<local-command-stdout>" then (None, logger (log text) a, [])
      else if includes text "<local-command-stderr>" then (None, logger (error text) a, [])
      else
        match role with
        | user => (None, a, [])
        | assistant =>
            (Some (Threw (TypeError "message.message.content.filter is not a function")),
             a, [])
        end
  | ContentBlocks blocks =>
      let single :=
        match blocks with
        | [TextChunk text] => Some text
        | _ => None
        end in
      match role, single with
      | user, Some _ => (None, a, [])
      | _, _ =>
          let login :=
            match role, single with
            | assistant, Some text =>
                String.eqb model "<synthetic>" && includes text "Please run /login"
            | _, _ => false
            end in
          if login then (Some (Threw authRequired), a, [])
          else
            let content' :=
              match role with
              | assistant => List.filter (fun block => negb (isTextOrThinking block)) blocks
              | user => blocks
              end in
            match toAcpNotifications (inr content') role session a with
            | (Returned notifications, a') => (None, a', notifications)
            | (Threw e, a') => (Some (Threw e), a', [])
            end
      end
  end.

(** One round of the loop for the message the engine sent: the end of the
    turn or [None] to go on, and the notifications sent to the host. *)
Definition handleMessage (message : SDKMessage) (session : string) (a : Agent)
    (m : Credentials.Machine)
    : option (Outcome StopReason) * Agent * Credentials.Machine * list SessionNotification :=
  match message with
  | system_message (other_subtype json) =>
      (None, logger (error ("Unexpected case: " ++ json)) a, m, [])
  | system_message _ => (None, a, m, [])
  | result_message message =>
      if isCancelled a session then (Some (Returned stop_cancelled), a, m, [])
      else let '(stop, a', m') := handleResult message a m in (stop, a', m', [])
  | stream_event event =>
      match streamEventToAcpNotifications event session a with
      | (Returned notifications, a') => (None, a', m, notifications)
      | (Threw e, a') => (Some (Threw e), a', m, [])
      end
  | user_message content =>
      if isCancelled a session then (None, a, m, [])
      else let '(stop, a', sent) := handleConversation user "" content session a in
           (stop, a', m, sent)
  | assistant_message model content =>
      if isCancelled a session then (None, a, m, [])
      else let '(stop, a', sent) := handleConversation assistant model content session a in
           (stop, a', m, sent)
  | tool_progress | auth_status => (None, a, m, [])
  | other_message json => (None, a, m, [])   (* [unreachable] writes to the console *)
  end.

(** The [while (true)] loop of [prompt] over what reaches it, until the
    stream of the engine is done. *)
Fixpoint promptLoop (session : string) (events : list TurnEvent) (a : Agent)
    (m : Credentials.Machine) (sent : list SessionNotification)
    : Outcome StopReason * Agent * Credentials.Machine * list SessionNotification :=
  match events with
  | [] =>
      if isCancelled a session then (Returned stop_cancelled, a, m, sent)
      else (Threw (Error "Session did not end in result"), a, m, sent)
  | CancelRequest :: rest => promptLoop session rest (snd (cancel session a)) m sent
  | Message message :: rest =>
      match handleMessage message session a m with
      | (Some stop, a', m', notifications) => (stop, a', m', sent ++ notifications)
      | (None, a', m', notifications) =>
          promptLoop session rest a' m' (sent ++ notifications)
      end
  end.

(** The texts [prompt] shows while a session waits for its API key. *)
Inductive Notice : Type :=
  | setupInTerminal
  | setupDone
  | setupMissing
  | setupByHand
  | restartSession.

Variable noticeText : Notice -> string.

Definition notice (session : string) (n : Notice) : SessionNotification :=
  {| sessionId := session;
     update := agent_message_chunk (TextContent (noticeText n)) |}.

(** The settings file the key set-up of [prompt] looks at. *)
Definition setupSettingsPath (m : Credentials.Machine) : string :=
  (Credentials.homedir m ++ "/.config/z-ai-acp/managed-settings.json")%string.

(** [prompt(params)]. [events] is what reaches the loop of the turn.
    [terminal] is [None] when the host has no terminal to offer, and
    otherwise the settings files as the set-up script leaves them; the log
    lines of the key set-up are not recorded. *)
Definition prompt (session : string) (events : list TurnEvent)
    (terminal : option (gmap string Utils.ManagedSettings)) (a : Agent)
    (m : Credentials.Machine)
    : Outcome StopReason * Agent * Credentials.Machine * list SessionNotification :=
  match sessions a !! session with
  | None => (Threw (Error "Session not found"), a, m, [])
  | Some s0 =>
      let s := setCancelled false s0 in
      let a0 := withSessions (insert session s) a in
      if isAuthRequired s then
        match terminal with
        | Some files' =>
            let m1 :=
              {| Credentials.processEnv := Credentials.processEnv m;
                 Credentials.homedir := Credentials.homedir m;
                 Credentials.files := files' |} in
            let token :=
              match files' !! setupSettingsPath m with
              | Some settings =>
                  match Utils.env settings with
                  | Some entries =>
                      match Credentials.entryOf Credentials.TOKEN entries with
                      | Some v => if String.eqb v "" then None else Some v
                      | None => None
                      end
                  | None => None
                  end
              | None => None
              end in
            match token with
            | Some v =>
                (Returned end_turn,
                 withSessions (insert session (setAuthRequired false s)) a0,
                 {| Credentials.processEnv :=
                      <[Credentials.TOKEN := v]> (Credentials.processEnv m1);
                    Credentials.homedir := Credentials.homedir m1;
                    Credentials.files := Credentials.files m1 |},
                 [notice session setupInTerminal; notice session setupDone])
            | None =>
                (Returned end_turn, a0, m1,
                 [notice session setupInTerminal; notice session setupMissing])
            end
        | None => (Returned end_turn, a0, m, [notice session setupByHand])
        end
      else
        match query s with
        | None => (Returned end_turn, a0, m, [notice session restartSession])
        | Some _ => promptLoop session events a0 m []
        end
  end.

End Turn.

End AcpTurn.

(** ** The vocabulary of the stream properties *)

Module Stream.
Import Js AcpAgent.
#[local] Open Scope list_scope.

(** The tool use a chunk announces. *)
Definition announcement (chunk : Chunk) : option ToolUse :=
  match chunk with
  | ToolUseChunk toolUse => Some toolUse
  | _ => None
  end.

(** The latest tool use that the chunks announce under [toolUseId]. *)
Fixpoint latestToolUse (toolUseId : string) (chunks : list Chunk) : option ToolUse :=
  match chunks with
  | [] => None
  | chunk :: rest =>
      match latestToolUse toolUseId rest with
      | Some toolUse => Some toolUse
      | None =>
          match announcement chunk with
          | Some toolUse => if String.eqb (id toolUse) toolUseId then Some toolUse else None
          | None => None
          end
      end
  end.

(** An identifier is tracked when the cache had an entry for it before
    the chunks or one of the chunks announced it. *)
Definition tracked (cache : gmap string ToolUse) (chunks : list Chunk) (key : string)
    : Prop :=
  is_Some (cache !! key) \/ is_Some (latestToolUse key chunks).

(** The names the cache inherits: those of [Object.prototype] and, when a
    chunk stored under [__proto__] has become its prototype, the fields
    of a chunk. *)
Definition inherited (cache : gmap string ToolUse) (chunks : list Chunk) (key : string)
    : Prop :=
  is_Some (Object_prototype key) \/
  (tracked cache chunks "__proto__" /\ key ∈ ["type"; "id"; "name"; "input"]%string).

Section WithTools.
Context `{Tools}.

(** The identifier a [tool_call_update] notification refers to. *)
Definition updatedToolCall (notification : SessionNotification) : option string :=
  match update notification with
  | tool_call_update toolCallId _ _ _ => Some toolCallId
  | _ => None
  end.

(** The leaves of a computation with the host: the values it can end
    with, over all the answers the host can give. *)
Inductive endsWith {A : Type} : Host A -> A -> Prop :=
  | ends_Ret (a : A) : endsWith (Ret a) a
  | ends_requestPermission (request : RequestPermissionRequest)
      (k : RequestPermissionResponse -> Host A) (response : RequestPermissionResponse)
      (a : A) :
      endsWith (k response) a -> endsWith (requestPermission request k) a
  | ends_sessionUpdate (notification : SessionNotification) (k : Host A) (a : A) :
      endsWith k a -> endsWith (sessionUpdate notification k) a.

End WithTools.

(** A session that can take a turn: it has its engine and does not wait
    for an API key. *)
Definition usableSession (session : Session) : Prop :=
  isAuthRequired session = false /\ is_Some (query session).

Definition usable (a : Agent) : Prop :=
  forall sessionId session, sessions a !! sessionId = Some session -> usableSession session.

Section Reachable.
Context `{Engine} `{Tools}.
Variable noticeText : AcpTurn.Notice -> string.

(** [unstable_forkSession(params)] and [unstable_resumeSession(params)]:
    a new session with the directory, the servers and the [_meta] of the
    request; the session of the request is not looked at. *)
Definition unstable_forkSession (params : NewSessionRequest) (uuid : string) (sys : System)
    (a : Agent) : Outcome NewSessionResponse * Agent :=
  newSession params uuid sys
    (logger (log "Fork session requested - creating new session with same parameters") a).

Definition unstable_resumeSession (params : NewSessionRequest) (uuid : string)
    (sys : System) (a : Agent) : Outcome NewSessionResponse * Agent :=
  newSession params uuid sys
    (logger (log "Resume session requested - creating new session") a).

(** The agents a host can bring about: the new agent, and what any
    operation leaves of a reachable agent, for any arguments and any
    answers of the engine and of the host. [initialize] and
    [authenticate] leave of the agent modelled here a longer log; an
    engine can be left in any state, as by a call that it rejects midway. *)
Inductive reachable : Agent -> Prop :=
  | reach_new : reachable newAgent
  | reach_logger (a : Agent) line :
      reachable a -> reachable (logger line a)
  | reach_engine (a : Agent) sessionId session q q' :
      reachable a ->
      sessions a !! sessionId = Some session ->
      query session = Some q ->
      reachable (withSessions (insert sessionId (setQuery q' session)) a)
  | reach_newSession (a : Agent) params uuid sys :
      reachable a -> reachable (snd (newSession params uuid sys a))
  | reach_forkSession (a : Agent) params uuid sys :
      reachable a -> reachable (snd (unstable_forkSession params uuid sys a))
  | reach_resumeSession (a : Agent) params uuid sys :
      reachable a -> reachable (snd (unstable_resumeSession params uuid sys a))
  | reach_setSessionModel (a : Agent) sessionId modelId answer env :
      reachable a -> reachable (snd (setSessionModel sessionId modelId answer env a))
  | reach_setSessionMode (a : Agent) sessionId modeId rejection :
      reachable a -> reachable (snd (AcpTurn.setSessionMode sessionId modeId rejection a))
  | reach_cancel (a : Agent) sessionId :
      reachable a -> reachable (snd (AcpTurn.cancel sessionId a))
  | reach_canUseTool (a : Agent) sessionId toolName toolInput suggestions toolUseID
      (answer : PermissionResult) (a' : Agent) :
      reachable a ->
      endsWith (canUseTool sessionId a toolName toolInput suggestions toolUseID) (answer, a') ->
      reachable a'
  | reach_file (a : Agent) request :
      reachable a -> reachable (AcpTurn.serve request a)
  | reach_prompt (a : Agent) sessionId events terminal m :
      reachable a ->
      reachable (snd (fst (fst (AcpTurn.prompt noticeText sessionId events terminal a m)))).

End Reachable.

(** A system with a key, the texts of the notices, and the session that
    [newSession] registers on it with the sample engine. *)
Definition sampleSystem : System :=
  {| processEnv := {[ "ANTHROPIC_AUTH_TOKEN"%string := "key"%string ]};
     homedir := "/home/dev";
     existing := ∅ |}.

Definition sampleNotice (n : AcpTurn.Notice) : string := "notice".

Definition startedSession : Session :=
  {| query := Some {| model := Some "glm-4.7"%string;
                      maxThinkingTokens := Some (Num 15000);
                      queryPermissionMode := "default";
                      interrupted := false |};
     cancelled := false;
     permissionMode := "default";
     isAuthRequired := false;
     sessionParams := noParams |}.

End Stream.

(** * Properties *)

(** ** The prompt analyzer *)

Module PromptAnalyzerProofs.
Import Js PromptAnalyzer.

Section ArgMax.

Variable h : TaskType -> nat.


End ArgMax.






(** C6, as the specification states it, fails: the prompt of one hundred
    words [a], on one line, without code block, file path or keyword, with
    the default task type, scores 1 and is classified [simple]. *)
Lemma hundred_words_is_simple :
  wordCount (wordsPrompt "a" 100) = 100 /\
  lineCount (wordsPrompt "a" 100) = 1 /\
  codeBlocks (wordsPrompt "a" 100) = 0 /\
  filePaths (wordsPrompt "a" 100) = 0 /\
  complexKeywordCount toLowerCase (wordsPrompt "a" 100) = 0 /\
  simpleKeywordCount toLowerCase (wordsPrompt "a" 100) = 0 /\
  taskType (analyzePrompt (wordsPrompt "a" 100)) = question /\
  complexityScore toLowerCase (wordsPrompt "a" 100) = 1%Z /\
  complexity (analyzePrompt (wordsPrompt "a" 100)) = simple.
Proof. vm_compute. repeat split. Qed.

(** The score of a prompt with at most 20 lines, no code block, no file
    path, no complexity keyword and the default task type is the score
    of its length less one point for each simplicity keyword. *)
Lemma length_alone_score (lowerCase : string -> string) (promptText : string) :
  lineCount promptText <= 20 ->
  codeBlocks promptText = 0 ->
  filePaths promptText = 0 ->
  complexKeywordCount lowerCase promptText = 0 ->
  detectTaskType lowerCase promptText = question ->
  complexityScore lowerCase promptText
  = (lengthScore (wordCount promptText)
     - Z.of_nat (simpleKeywordCount lowerCase promptText))%Z.
Proof.
  intros Hlines Hblocks Hpaths Hcomplex Htype.
  unfold complexityScore.
  rewrite Hblocks, Hpaths, Hcomplex, Htype.
  assert (Hline : lineScore (lineCount promptText) = 0%Z).
  { unfold lineScore.
    destruct (Nat.ltb_spec 50 (lineCount promptText)); [lia |].
    destruct (Nat.ltb_spec 20 (lineCount promptText)); [lia | reflexivity]. }
  rewrite Hline.
  generalize (Z.of_nat (simpleKeywordCount lowerCase promptText)). intros k.
  generalize (lengthScore (wordCount promptText)). intros l.
  change (taskTypeScore question) with 0%Z.
  change (Z.of_nat (Nat.min (0 * 2) 6)) with 0%Z.
  change (Z.of_nat (Nat.min 0 3)) with 0%Z.
  change (Z.of_nat 0) with 0%Z. lia.
Qed.

(** The points of the length: the three thresholds are strict. *)
Lemma lengthScore_cases (words : nat) :
  (words <= 50 -> lengthScore words = 0%Z) /\
  (50 < words <= 100 -> lengthScore words = 1%Z) /\
  (100 < words <= 200 -> lengthScore words = 2%Z) /\
  (200 < words -> lengthScore words = 3%Z).
Proof.
  unfold lengthScore.
  destruct (Nat.ltb_spec 200 words); [repeat split; intros; (lia || reflexivity) |].
  destruct (Nat.ltb_spec 100 words); [repeat split; intros; (lia || reflexivity) |].
  destruct (Nat.ltb_spec 50 words); repeat split; intros; (lia || reflexivity).
Qed.

(** The tier of a score: [simple] below 3, [medium] from 3 to 7, [complex]
    from 8. *)
Lemma tierOfScore_cases (score : Z) :
  (tierOfScore score = simple <-> (score < 3)%Z) /\
  (tierOfScore score = medium <-> (3 <= score < 8)%Z) /\
  (tierOfScore score = complex <-> (8 <= score)%Z).
Proof.
  unfold tierOfScore.
  destruct (Z.leb_spec 8 score); [repeat split; intros; (lia || discriminate || reflexivity) |].
  destruct (Z.leb_spec 3 score); repeat split; intros; (lia || discriminate || reflexivity).
Qed.

Lemma analyze_complexity (lowerCase : string -> string) (promptText : string) :
  complexity (analyze lowerCase promptText)
  = tierOfScore (complexityScore lowerCase promptText).
Proof.
  unfold analyze.
  destruct (tierOfScore (complexityScore lowerCase promptText));
    [destruct (detectTaskType lowerCase promptText) | |]; reflexivity.
Qed.

(** C6, amended: a prompt that contributes no other complexity points (at
    most 20 lines, no code block, no file path, no complex or simple
    keyword, the default task type [question]) scores by its word count
    alone, with strict thresholds: 0 up to 50 words, 1 from 51 to 100,
    2 from 101 to 200, 3 above 200. It is classified [simple] up to 200
    words and [medium] only above; with exactly 100 words it scores 1 and
    is [simple], not [medium]. For every prompt the tier is [simple]
    below a score of 3, [medium] from 3 to 7 and [complex] from 8. This
    holds whatever the lowering of the text is. *)
Theorem length_alone_tier (lowerCase : string -> string) (promptText : string) :
  lineCount promptText <= 20 ->
  codeBlocks promptText = 0 ->
  filePaths promptText = 0 ->
  complexKeywordCount lowerCase promptText = 0 ->
  simpleKeywordCount lowerCase promptText = 0 ->
  detectTaskType lowerCase promptText = question ->
  (wordCount promptText <= 50 -> complexityScore lowerCase promptText = 0%Z) /\
  (50 < wordCount promptText <= 100 -> complexityScore lowerCase promptText = 1%Z) /\
  (100 < wordCount promptText <= 200 -> complexityScore lowerCase promptText = 2%Z) /\
  (200 < wordCount promptText -> complexityScore lowerCase promptText = 3%Z) /\
  (complexity (analyze lowerCase promptText) = simple <-> wordCount promptText <= 200) /\
  (complexity (analyze lowerCase promptText) = medium <-> 200 < wordCount promptText) /\
  (wordCount promptText = 100 ->
   complexityScore lowerCase promptText = 1%Z /\
   complexity (analyze lowerCase promptText) = simple) /\
  (forall other : string,
      (complexity (analyze lowerCase other) = simple
       <-> (complexityScore lowerCase other < 3)%Z) /\
      (complexity (analyze lowerCase other) = medium
       <-> (3 <= complexityScore lowerCase other < 8)%Z) /\
      (complexity (analyze lowerCase other) = complex
       <-> (8 <= complexityScore lowerCase other)%Z)).
Proof.
  intros Hlines Hblocks Hpaths Hcomplex Hsimple Htype.
  assert (Hscore : complexityScore lowerCase promptText
                   = lengthScore (wordCount promptText)).
  { rewrite (length_alone_score lowerCase promptText) by assumption.
    rewrite Hsimple. lia. }
  rewrite analyze_complexity, Hscore.
  destruct (lengthScore_cases (wordCount promptText)) as (H0 & H1 & H2 & H3).
  destruct (tierOfScore_cases (lengthScore (wordCount promptText)))
    as (Hs & Hm & _).
  split; [exact H0 |]. split; [exact H1 |]. split; [exact H2 |]. split; [exact H3 |].
  split; [| split; [| split]].
  - rewrite Hs. split.
    + intros Hlow.
      destruct (Nat.le_gt_cases (wordCount promptText) 200) as [| Hmore];
        [assumption | rewrite (H3 Hmore) in Hlow; lia].
    + intros Hwords.
      destruct (Nat.le_gt_cases (wordCount promptText) 50) as [Hle | Hgt];
        [rewrite (H0 Hle); lia |].
      destruct (Nat.le_gt_cases (wordCount promptText) 100) as [Hle | Hgt'];
        [rewrite (H1 (conj Hgt Hle)); lia | rewrite (H2 (conj Hgt' Hwords)); lia].
  - rewrite Hm. split.
    + intros Hmid.
      destruct (Nat.le_gt_cases (wordCount promptText) 50) as [Hle | Hgt];
        [rewrite (H0 Hle) in Hmid; lia |].
      destruct (Nat.le_gt_cases (wordCount promptText) 100) as [Hle | Hgt'];
        [rewrite (H1 (conj Hgt Hle)) in Hmid; lia |].
      destruct (Nat.le_gt_cases (wordCount promptText) 200) as [Hle | Hmore];
        [rewrite (H2 (conj Hgt' Hle)) in Hmid; lia | assumption].
    + intros Hmore. rewrite (H3 Hmore). lia.
  - intros Hwords. split; [apply H1; lia |]. apply Hs. rewrite H1; lia.
  - intros other. rewrite analyze_complexity. apply tierOfScore_cases.
Qed.

Lemma length_alone_tier_witness :
  lineCount (wordsPrompt "ok" 100) <= 20 /\
  wordCount (wordsPrompt "ok" 100) = 100 /\
  (wordCount (wordsPrompt "ok" 100) <= 50 ->
   complexityScore toLowerCase (wordsPrompt "ok" 100) = 0%Z) /\
  (50 < wordCount (wordsPrompt "ok" 100) <= 100 ->
   complexityScore toLowerCase (wordsPrompt "ok" 100) = 1%Z) /\
  (100 < wordCount (wordsPrompt "ok" 100) <= 200 ->
   complexityScore toLowerCase (wordsPrompt "ok" 100) = 2%Z) /\
  (200 < wordCount (wordsPrompt "ok" 100) ->
   complexityScore toLowerCase (wordsPrompt "ok" 100) = 3%Z) /\
  (complexity (analyze toLowerCase (wordsPrompt "ok" 100)) = simple
   <-> wordCount (wordsPrompt "ok" 100) <= 200) /\
  (complexity (analyze toLowerCase (wordsPrompt "ok" 100)) = medium
   <-> 200 < wordCount (wordsPrompt "ok" 100)) /\
  (wordCount (wordsPrompt "ok" 100) = 100 ->
   complexityScore toLowerCase (wordsPrompt "ok" 100) = 1%Z /\
   complexity (analyze toLowerCase (wordsPrompt "ok" 100)) = simple) /\
  (forall other : string,
      (complexity (analyze toLowerCase other) = simple
       <-> (complexityScore toLowerCase other < 3)%Z) /\
      (complexity (analyze toLowerCase other) = medium
       <-> (3 <= complexityScore toLowerCase other < 8)%Z) /\
      (complexity (analyze toLowerCase other) = complex
       <-> (8 <= complexityScore toLowerCase other)%Z)).
Proof.
  split; [vm_compute; lia |].
  split; [vm_compute; reflexivity |].
  apply (length_alone_tier toLowerCase (wordsPrompt "ok" 100)).
  - vm_compute. lia.
  - vm_compute. reflexivity.
  - vm_compute. reflexivity.
  - vm_compute. reflexivity.
  - vm_compute. reflexivity.
  - vm_compute. reflexivity.
Defined.

(** C8: the text [What is a closure?] is a [question] of tier [simple]. *)
Theorem closure_question_simple :
  taskType (analyzePrompt "What is a closure?") = question /\
  complexity (analyzePrompt "What is a closure?") = simple.
Proof. split; vm_compute; reflexivity. Qed.

Lemma modelMapping_lookup_4_7 :
  modelMapping !! "claude-4-opus-20250114" = Some "glm-4.7".
Proof. vm_compute. reflexivity. Qed.

Lemma modelMapping_lookup_air :
  modelMapping !! "claude-4-haiku-20250114" = Some "glm-4.5-air".
Proof. vm_compute. reflexivity. Qed.

(** C10: each of the two GLM identifiers comes back from the round trip
    through its Claude model name, and a name that is no property of the
    mapping table, own or inherited, is returned as it is. A name that
    the table does not list but inherits is not: for [constructor] the
    call returns the function [Object]. *)
Theorem glm_round_trip :
  mapModelToGlm (getClaudeModelFromGlm "glm-4.7") = ModelName "glm-4.7" /\
  mapModelToGlm (getClaudeModelFromGlm "glm-4.5-air") = ModelName "glm-4.5-air" /\
  (forall claudeModel : string,
      modelMapping !! claudeModel = None ->
      mapModelToGlm claudeModel
      = match Object_prototype claudeModel with
        | Some member => Inherited member
        | None => ModelName claudeModel
        end) /\
  modelMapping !! "constructor" = None /\
  mapModelToGlm "constructor" = Inherited (prototypeMethod "Object").
Proof.
  split; [| split; [| split; [| split]]].
  - change (getClaudeModelFromGlm "glm-4.7") with "claude-4-opus-20250114".
    unfold mapModelToGlm. rewrite modelMapping_lookup_4_7. reflexivity.
  - change (getClaudeModelFromGlm "glm-4.5-air") with "claude-4-haiku-20250114".
    unfold mapModelToGlm. rewrite modelMapping_lookup_air. reflexivity.
  - intros claudeModel Habsent. unfold mapModelToGlm. rewrite Habsent. reflexivity.
  - vm_compute. reflexivity.
  - vm_compute. reflexivity.
Qed.

End PromptAnalyzerProofs.

(** ** The managed settings *)

Module UtilsProofs.
Import Js Utils.

Lemma applyEntry_preserves (processEnv : gmap string string) (entry : string * string)
    (key v : string) :
  processEnv !! key = Some v -> applyEntry processEnv entry !! key = Some v.
Proof.
  intros Hset. unfold applyEntry.
  destruct (processEnv !! entry.1) eqn:Hentry; [exact Hset |].
  rewrite lookup_insert_ne; [exact Hset |].
  intros Heq. rewrite Heq in Hentry. congruence.
Qed.

Lemma applyEnvSection_preserves (entries : list (string * string)) :
  forall (processEnv : gmap string string) (key v : string),
    processEnv !! key = Some v -> applyEnvSection entries processEnv !! key = Some v.
Proof.
  induction entries as [|entry entries IH]; intros processEnv key v Hset.
  - exact Hset.
  - cbn. apply IH, applyEntry_preserves, Hset.
Qed.

(** The loop over the [env] section, key by key: a variable that is set
    keeps its value, one that is not gets the first value listed for it. *)
Lemma applyEnvSection_lookup (entries : list (string * string)) :
  forall (processEnv : gmap string string) (key : string),
    applyEnvSection entries processEnv !! key
    = match processEnv !! key with
      | Some v => Some v
      | None => snd <$> List.find (fun entry => String.eqb (fst entry) key) entries
      end.
Proof.
  induction entries as [|[k v] entries IH]; intros processEnv key.
  - cbn. destruct (processEnv !! key); reflexivity.
  - cbn [applyEnvSection fold_left List.find fst]. fold (applyEnvSection entries).
    rewrite IH. unfold applyEntry. cbn [fst snd].
    destruct (String.eqb_spec k key) as [-> | Hne].
    + destruct (processEnv !! key) eqn:Hkey.
      * rewrite Hkey. reflexivity.
      * rewrite lookup_insert_eq. reflexivity.
    + destruct (processEnv !! k) eqn:Hk.
      * reflexivity.
      * rewrite lookup_insert_ne by exact Hne. reflexivity.
Qed.

Lemma applyZAi_disabled (zAiConfig : ZAiConfig) (processEnv : gmap string string) :
  enabled zAiConfig <> Some true -> applyZAi zAiConfig processEnv = processEnv.
Proof.
  intros Hoff. unfold applyZAi.
  destruct (enabled zAiConfig) as [[|]|]; [congruence | reflexivity | reflexivity].
Qed.

Lemma applyZAi_preserves (zAiConfig : ZAiConfig) (processEnv : gmap string string)
    (key v : string) :
  processEnv !! key = Some v ->
  key <> "Z_AI_ENABLED" -> key <> "Z_AI_MODEL_MAPPING_CONFIG" ->
  applyZAi zAiConfig processEnv !! key = Some v.
Proof.
  intros Hset Hne1 Hne2. unfold applyZAi.
  destruct (enabled zAiConfig) as [[|]|]; [| exact Hset | exact Hset].
  rewrite lookup_insert_ne by congruence.
  assert (Hbase :
    match api_endpoint zAiConfig, processEnv !! "ANTHROPIC_BASE_URL" with
    | Some url, None =>
        if truthy (Some url) then <["ANTHROPIC_BASE_URL" := url]> processEnv
        else processEnv
    | _, _ => processEnv
    end !! key = Some v).
  { destruct (api_endpoint zAiConfig) as [url|]; [| exact Hset].
    destruct (processEnv !! "ANTHROPIC_BASE_URL") eqn:Hbase; [exact Hset |].
    destruct (truthy (Some url)); [| exact Hset].
    rewrite lookup_insert_ne; [exact Hset | intros Heq; congruence]. }
  destruct (model_mapping zAiConfig); [| exact Hbase].
  rewrite lookup_insert_ne by congruence. exact Hbase.
Qed.

(** C9, as stated, fails for a variable that the [z_ai] section sets:
    [Z_AI_ENABLED] is in the environment with the value [1] and listed in
    the [env] section, and the call leaves it at [true]. *)
Lemma z_ai_section_overwrites :
  applyEnvironmentSettings
    {| permissions := None;
       env := Some [("Z_AI_ENABLED", "0")];
       z_ai := Some {| enabled := Some true; api_endpoint := None;
                       model_mapping := None |} |}
    {[ "Z_AI_ENABLED" := "1" ]} !! "Z_AI_ENABLED"
  = Some "true".
Proof. vm_compute. reflexivity. Qed.

(** C9, amended: a variable that is set before the call keeps its value
    through the loop over the [env] section, whatever the section lists
    for it, and that loop changes only variables that were not set; it
    keeps its value through the whole call unless it is [Z_AI_ENABLED] or
    [Z_AI_MODEL_MAPPING_CONFIG], which an enabled [z_ai] section sets. *)
Theorem applyEnvironmentSettings_keeps_set_variables
    (settings : ManagedSettings) (processEnv : gmap string string) (key v : string) :
  processEnv !! key = Some v ->
  (forall entries, applyEnvSection entries processEnv !! key = Some v) /\
  (forall entries key',
      applyEnvSection entries processEnv !! key' <> processEnv !! key' ->
      processEnv !! key' = None) /\
  (key <> "Z_AI_ENABLED" -> key <> "Z_AI_MODEL_MAPPING_CONFIG" ->
   applyEnvironmentSettings settings processEnv !! key = Some v) /\
  ((forall zAiConfig, z_ai settings = Some zAiConfig -> enabled zAiConfig <> Some true) ->
   applyEnvironmentSettings settings processEnv !! key = Some v).
Proof.
  intros Hset.
  assert (Hsection :
    match env settings with
    | Some entries => applyEnvSection entries processEnv
    | None => processEnv
    end !! key = Some v).
  { destruct (env settings); [apply applyEnvSection_preserves |]; exact Hset. }
  split; [| split; [| split]].
  - intros entries. apply applyEnvSection_preserves, Hset.
  - intros entries key' Hchanged.
    destruct (processEnv !! key') as [v'|] eqn:Hkey'; [| reflexivity].
    exfalso. apply Hchanged. apply applyEnvSection_preserves, Hkey'.
  - intros Hne1 Hne2. unfold applyEnvironmentSettings.
    destruct (z_ai settings); [apply applyZAi_preserves; assumption | exact Hsection].
  - intros Hoff. unfold applyEnvironmentSettings.
    destruct (z_ai settings) as [zAiConfig|]; [| exact Hsection].
    rewrite applyZAi_disabled by (apply Hoff; reflexivity). exact Hsection.
Qed.

Lemma applyEnvironmentSettings_keeps_witness :
  applyEnvironmentSettings
    {| permissions := None;
       env := Some [("ANTHROPIC_AUTH_TOKEN", "file_key")];
       z_ai := Some {| enabled := Some true;
                       api_endpoint := Some "https://api.z.ai/api/anthropic";
                       model_mapping := Some [("claude-3-opus-20240229", "glm-4.6")] |} |}
    {[ "ANTHROPIC_AUTH_TOKEN" := "env_key" ]} !! "ANTHROPIC_AUTH_TOKEN"
  = Some "env_key".
Proof.
  refine (proj1 (proj2 (proj2
            (applyEnvironmentSettings_keeps_set_variables _ _ _ "env_key" _))) _ _).
  - vm_compute. reflexivity.
  - discriminate.
  - discriminate.
Defined.

End UtilsProofs.

(** ** The agent *)

Module AcpAgentProofs.
Import Js AcpAgent.

Lemma stripOne_whiteSpace (w rest : string) :
  w ∈ whiteSpace -> stripOne whiteSpace (w ++ rest) = Some rest.
Proof.
  intros Hw. vm_compute in Hw.
  repeat (apply elem_of_cons in Hw as [-> | Hw]; [vm_compute; reflexivity |]).
  inversion Hw.
Qed.

Lemma whiteSpace_not_empty (w : string) :
  w ∈ whiteSpace -> 1 <= String.length w.
Proof.
  intros Hw. vm_compute in Hw.
  repeat (apply elem_of_cons in Hw as [-> | Hw]; [cbn; lia |]).
  inversion Hw.
Qed.

Lemma length_append (s1 s2 : string) :
  String.length (s1 ++ s2) = String.length s1 + String.length s2.
Proof. induction s1 as [|c s1 IH]; simpl; [reflexivity | f_equal; exact IH]. Qed.

Lemma stripAll_blank (ws : list string) :
  Forall (fun w => w ∈ whiteSpace) ws ->
  forall fuel, String.length (foldr String.append "" ws) <= fuel ->
    stripAll fuel whiteSpace (foldr String.append "" ws) = "".
Proof.
  induction 1 as [|w ws Hw _ IH]; intros fuel Hfuel.
  - destruct fuel; reflexivity.
  - cbn [foldr] in *. rewrite length_append in Hfuel.
    pose proof (whiteSpace_not_empty w Hw) as Hlen.
    destruct fuel as [|fuel]; [lia |].
    cbn [stripAll].
    destruct (w ++ foldr String.append "" ws) as [|c s] eqn:Hs.
    { destruct w; [cbn in Hlen; lia | discriminate]. }
    rewrite <- Hs, stripOne_whiteSpace by exact Hw.
    apply IH. lia.
Qed.

Lemma trim_blank (s : string) : blank s -> trim s = "".
Proof.
  intros (ws & Hws & ->). unfold trim, trimStart.
  rewrite stripAll_blank by (exact Hws || lia). reflexivity.
Qed.

Lemma existsSync_true (sys : System) (path : string) :
  path ∈ existing sys -> existsSync sys path = true.
Proof. intros Hin. unfold existsSync. apply bool_decide_eq_true_2, Hin. Qed.

Lemma existsSync_false (sys : System) (path : string) :
  path ∉ existing sys -> existsSync sys path = false.
Proof. intros Hout. unfold existsSync. apply bool_decide_eq_false_2, Hout. Qed.

(** No credential is configured: the token variable is missing or blank,
    or the backup of the configuration file exists without the file. *)
Lemma authMissing_no_credential (sys : System) :
  processEnv sys !! "ANTHROPIC_AUTH_TOKEN" = None \/
  (exists v, processEnv sys !! "ANTHROPIC_AUTH_TOKEN" = Some v /\ blank v) \/
  (path_resolve (homedir sys) ".claude.json.backup" ∈ existing sys /\
   path_resolve (homedir sys) ".claude.json" ∉ existing sys) ->
  authMissing sys = true.
Proof.
  intros [Hnone | [(v & Hv & Hblank) | [Hbackup Hmain]]]; unfold authMissing.
  - rewrite Hnone. reflexivity.
  - rewrite Hv, (trim_blank v Hblank).
    rewrite orb_true_r. reflexivity.
  - rewrite (existsSync_true _ _ Hbackup), (existsSync_false _ _ Hmain).
    apply orb_true_r.
Qed.

(** C1: when no credential is configured, [newSession] throws the
    authorization-required error, whatever the request and the engine are,
    and the session registry is what it was. *)
Theorem newSession_authRequired `{Engine} (params : NewSessionRequest) (uuid : string)
    (sys : System) (a : Agent) :
  processEnv sys !! "ANTHROPIC_AUTH_TOKEN" = None \/
  (exists v, processEnv sys !! "ANTHROPIC_AUTH_TOKEN" = Some v /\ blank v) \/
  (path_resolve (homedir sys) ".claude.json.backup" ∈ existing sys /\
   path_resolve (homedir sys) ".claude.json" ∉ existing sys) ->
  fst (newSession params uuid sys a) = Threw authRequired /\
  sessions (snd (newSession params uuid sys a)) = sessions a.
Proof.
  intros Hmissing. unfold newSession.
  rewrite (authMissing_no_credential sys Hmissing). split; reflexivity.
Qed.

Lemma newSession_authRequired_witness :
  fst (newSession (H := sampleEngine) noParams "7f1c"
         {| processEnv := {[ "ANTHROPIC_AUTH_TOKEN" := "   " ]};
            homedir := "/home/dev"; existing := ∅ |} newAgent)
  = Threw authRequired /\
  sessions (snd (newSession (H := sampleEngine) noParams "7f1c"
                   {| processEnv := {[ "ANTHROPIC_AUTH_TOKEN" := "   " ]};
                      homedir := "/home/dev"; existing := ∅ |} newAgent))
  = sessions newAgent.
Proof.
  apply (newSession_authRequired (H := sampleEngine)).
  right. left. exists "   ". split; [vm_compute; reflexivity |].
  exists [" "; " "; " "]. split; [| reflexivity].
  repeat constructor; vm_compute; set_solver.
Defined.

(** One call of [setSessionModel] that the engine accepts, on a session
    that has an engine: the model is forwarded, and the budget is the
    configured one for an Opus-class identifier and [null] for any other. *)
Lemma setSessionModel_budget (sessionId modelId : string) (env : gmap string string)
    (a : Agent) (session : Session) (q : Query) :
  sessions a !! sessionId = Some session ->
  query session = Some q ->
  exists a',
    setSessionModel sessionId modelId bothAccepted env a = (Returned tt, a') /\
    (exists session' q',
        sessions a' !! sessionId = Some session' /\ query session' = Some q' /\
        model q' = Some modelId) /\
    thinkingBudget a' sessionId
    = Some (if isOpusModel modelId then Some (configuredThinkingTokens env) else None).
Proof.
  intros Hsession Hquery. unfold setSessionModel. rewrite Hsession, Hquery.
  destruct (isOpusModel modelId); eexists; (split; [reflexivity |]);
    unfold thinkingBudget; cbn [logger withSessions sessions];
    rewrite lookup_insert_eq; (split; [| reflexivity]);
    eexists _, _; (split; [reflexivity | split; reflexivity]).
Qed.

Lemma setSessionModel_without_engine (sessionId modelId : string) (answer : ModelAnswer)
    (env : gmap string string) (a : Agent) (session : Session) :
  sessions a !! sessionId = Some session ->
  query session = None ->
  setSessionModel sessionId modelId answer env a = (Returned tt, a).
Proof.
  intros Hsession Hquery. unfold setSessionModel. rewrite Hsession, Hquery. reflexivity.
Qed.

(** A call that returns on a session with an engine was accepted by the
    engine. *)
Lemma setSessionModel_returned (sessionId modelId : string) (answer : ModelAnswer)
    (env : gmap string string) (a a' : Agent) (session : Session) (q : Query) :
  sessions a !! sessionId = Some session ->
  query session = Some q ->
  setSessionModel sessionId modelId answer env a = (Returned tt, a') ->
  answer = bothAccepted.
Proof.
  intros Hsession Hquery. unfold setSessionModel. rewrite Hsession, Hquery.
  destruct answer; [reflexivity | discriminate | discriminate].
Qed.

(** C5: on any session, when the engine accepts the calls, selecting a
    high-capability identifier and then one that is not both return, and
    afterwards the engine of the session, if it has one, holds no
    thinking budget: the second call set it to [null], whatever the first
    one had set and whatever the environment configures. A session
    without an engine has no budget at any time. Whatever the engine
    answers to the second call, if that call returns, the budget is
    cleared. *)
Theorem setSessionModel_clears_budget (sessionId high other : string)
    (env1 env2 : gmap string string) (a : Agent) (session : Session) :
  sessions a !! sessionId = Some session ->
  isOpusModel high = true ->
  isOpusModel other = false ->
  exists a1 a2,
    setSessionModel sessionId high bothAccepted env1 a = (Returned tt, a1) /\
    setSessionModel sessionId other bothAccepted env2 a1 = (Returned tt, a2) /\
    match query session with
    | Some _ =>
        thinkingBudget a1 sessionId = Some (Some (configuredThinkingTokens env1)) /\
        thinkingBudget a2 sessionId = Some None
    | None => thinkingBudget a1 sessionId = None /\ thinkingBudget a2 sessionId = None
    end /\
    (forall answer a2',
        setSessionModel sessionId other answer env2 a1 = (Returned tt, a2') -> a2' = a2).
Proof.
  intros Hsession Hhigh Hother.
  destruct (query session) as [q|] eqn:Hquery.
  - destruct (setSessionModel_budget sessionId high env1 a session q Hsession Hquery)
      as (a1 & Hcall1 & (session1 & q1 & Hsession1 & Hquery1 & _) & Hbudget1).
    destruct (setSessionModel_budget sessionId other env2 a1 session1 q1 Hsession1 Hquery1)
      as (a2 & Hcall2 & _ & Hbudget2).
    rewrite Hhigh in Hbudget1. rewrite Hother in Hbudget2.
    exists a1, a2.
    split; [exact Hcall1 | split; [exact Hcall2 | split; [split; assumption |]]].
    intros answer a2' Hcall.
    rewrite (setSessionModel_returned _ _ _ _ _ _ _ _ Hsession1 Hquery1 Hcall) in Hcall.
    congruence.
  - exists a, a.
    rewrite !(setSessionModel_without_engine _ _ _ _ _ _ Hsession Hquery).
    unfold thinkingBudget. rewrite Hsession, Hquery.
    split; [reflexivity | split; [reflexivity | split; [split; reflexivity |]]].
    intros answer a2'.
    rewrite (setSessionModel_without_engine _ _ _ _ _ _ Hsession Hquery). congruence.
Qed.

Lemma setSessionModel_clears_budget_witness :
  exists a1 a2,
    setSessionModel "s1" "glm-4.7" bothAccepted {[ "MAX_THINKING_TOKENS" := "32000" ]}
      (agentWith "default") = (Returned tt, a1) /\
    setSessionModel "s1" "glm-4.5-air" bothAccepted {[ "MAX_THINKING_TOKENS" := "32000" ]} a1
      = (Returned tt, a2) /\
    match query (sampleSession "default") with
    | Some _ =>
        thinkingBudget a1 "s1"
        = Some (Some (configuredThinkingTokens {[ "MAX_THINKING_TOKENS" := "32000" ]})) /\
        thinkingBudget a2 "s1" = Some None
    | None => thinkingBudget a1 "s1" = None /\ thinkingBudget a2 "s1" = None
    end /\
    (forall answer a2',
        setSessionModel "s1" "glm-4.5-air" answer {[ "MAX_THINKING_TOKENS" := "32000" ]} a1
        = (Returned tt, a2') -> a2' = a2).
Proof.
  apply (setSessionModel_clears_budget "s1" "glm-4.7" "glm-4.5-air").
  - vm_compute. reflexivity.
  - vm_compute. reflexivity.
  - vm_compute. reflexivity.
Defined.

Section WithTools.
Context `{Tools}.

Lemma isEditTool_elem_of (toolName : string) :
  isEditTool toolName = true <-> toolName ∈ EDIT_TOOL_NAMES.
Proof.
  unfold isEditTool. rewrite existsb_exists. split.
  - intros (x & Hin & Heq). apply String.eqb_eq in Heq as ->.
    apply list_elem_of_In, Hin.
  - intros Hin. exists toolName. split; [apply list_elem_of_In, Hin | apply String.eqb_refl].
Qed.

(** An answer of the host that selects neither [allow] nor [allow_always]
    ends in the refusal. *)
Ltac refused_answer :=
  let choice := fresh "choice" in
  let Hrejected := fresh "Hrejected" in
  intros [[|choice]|] Hrejected; [reflexivity | | reflexivity];
  destruct (Hrejected choice eq_refl) as [? ?];
  destruct (String.eqb_spec choice "allow"); [contradiction |];
  destruct (String.eqb_spec choice "allow_always"); [contradiction |];
  reflexivity.

(** C4: a permission check for a tool other than [ExitPlanMode], on a
    session of the registry. In mode [bypassPermissions], and in mode
    [acceptEdits] for a tool of [EDIT_TOOL_NAMES], the answer is [allow]
    and the host is not asked. In every other case the first thing the
    mediator does is a permission request to the host, and every answer
    that selects neither [allow] nor [allow_always] (a reject, a
    cancellation, no outcome) yields [deny] with the interrupt flag set. *)
Theorem canUseTool_ordinary (session : string) (a : Agent) (s : Session)
    (toolName : string) (toolInput : Json) (suggestions : option (list PermissionUpdate))
    (toolUseID : string) :
  sessions a !! session = Some s ->
  toolName <> "ExitPlanMode" ->
  let automatic :=
    permissionMode s = "bypassPermissions" \/
    (permissionMode s = "acceptEdits" /\ toolName ∈ EDIT_TOOL_NAMES) in
  (automatic ->
   canUseTool session a toolName toolInput suggestions toolUseID
   = Ret (allow toolInput
            (Some (default [addRules [toolName] "allow" "session"] suggestions)), a)) /\
  (~ automatic ->
   exists k,
     canUseTool session a toolName toolInput suggestions toolUseID
     = requestPermission
         (permissionRequest toolOptions session toolName toolInput toolUseID a) k /\
     forall response : RequestPermissionResponse,
       (forall choice, response = Some (selected choice) ->
                       choice <> "allow" /\ choice <> "allow_always") ->
       k response = Ret (deny "User refused permission to run tool" true, a)).
Proof.
  intros Hsession Hordinary automatic. unfold canUseTool. rewrite Hsession.
  destruct (String.eqb_spec toolName "ExitPlanMode") as [|_]; [contradiction |].
  destruct (String.eqb_spec (permissionMode s) "bypassPermissions") as [Hbypass | Hbypass].
  { cbn [orb]. split; [reflexivity |].
    intros Hnot. exfalso. apply Hnot. left. exact Hbypass. }
  cbn [orb].
  destruct (String.eqb_spec (permissionMode s) "acceptEdits") as [Hedits | Hedits];
    cbn [andb]; [destruct (isEditTool toolName) eqn:Hedit |].
  - split; [reflexivity |].
    intros Hnot. exfalso. apply Hnot. right.
    split; [exact Hedits | apply isEditTool_elem_of, Hedit].
  - split.
    + intros [Hmode | [_ Hin]]; [contradiction |].
      apply isEditTool_elem_of in Hin. congruence.
    + intros _. eexists. split; [reflexivity |].
      refused_answer.
  - split.
    + intros [Hmode | [Hmode _]]; contradiction.
    + intros _. eexists. split; [reflexivity |].
      refused_answer.
Qed.


(** An entry of the cache is what a read of its identifier finds. *)
Lemma toolUseCacheGet_own (cache : gmap string ToolUse) (key : string) (toolUse : ToolUse) :
  cache !! key = Some toolUse -> toolUseCacheGet cache key = Some (cachedToolUse toolUse).
Proof. intros Hown. unfold toolUseCacheGet. rewrite Hown. reflexivity. Qed.

(** A name of [Object.prototype] that has no entry is found all the same:
    the read gives the inherited member. *)
Lemma toolUseCacheGet_inherited (cache : gmap string ToolUse) (key : string)
    (member : PrototypeMember) :
  cache !! key = None ->
  Object_prototype key = Some member ->
  toolUseCacheGet cache key = Some (inheritedMember member).
Proof.
  intros Hown Hmember. unfold toolUseCacheGet. rewrite Hown.
  destruct (cache !! "__proto__") as [prototype|]; [| rewrite Hmember; reflexivity].
  destruct (String.eqb_spec key "type") as [-> | _]; [discriminate |].
  destruct (String.eqb_spec key "id") as [-> | _]; [discriminate |].
  destruct (String.eqb_spec key "name") as [-> | _]; [discriminate |].
  destruct (String.eqb_spec key "input") as [-> | _]; [discriminate |].
  rewrite Hmember. reflexivity.
Qed.


Lemma prototypeMember_notTodoWrite (key : string) (member : PrototypeMember) :
  Object_prototype key = Some member ->
  notTodoWrite (CacheValue_name (inheritedMember member)) = true.
Proof.
  unfold Object_prototype.
  destruct (String.eqb key "__proto__"); [intros [= <-]; reflexivity |].
  destruct (String.eqb key "constructor"); [intros [= <-]; reflexivity |].
  destruct (existsb (String.eqb key) Object_prototype_methods) eqn:Hmethod;
    [| discriminate].
  intros [= <-]. cbn [CacheValue_name notTodoWrite].
  destruct (String.eqb_spec key "TodoWrite") as [-> | _]; [discriminate | reflexivity].
Qed.


(** C2 fails for the identifiers that name a member of
    [Object.prototype], such as [constructor]: a tool-result chunk with
    such an identifier and no entry in the cache is not logged and
    dropped; the translator emits a [tool_call_update] for it, made from
    the inherited member, and the log is as before. *)
Theorem inherited_tool_result_updates (role : Role) (session : string)
    (result : ToolResult) (a : Agent) (member : PrototypeMember) :
  toolUseCache a !! tool_use_id result = None ->
  Object_prototype (tool_use_id result) = Some member ->
  toAcpNotifications (inr [ToolResultChunk result]) role session a
  = (Returned
       [ {| sessionId := session;
            update :=
              tool_call_update (tool_use_id result)
                (CacheValue_name (inheritedMember member))
                (match is_error result with
                 | Some true => failed
                 | _ => completed
                 end)
                (toolUpdateFromToolResult result (inheritedMember member)) |} ],
     a).
Proof.
  intros Habsent Hmember.
  unfold toAcpNotifications. cbn [translateChunks]. unfold translateChunk.
  rewrite (toolUseCacheGet_inherited _ _ _ Habsent Hmember).
  cbn [CacheValue_truthy].
  rewrite (prototypeMember_notTodoWrite _ _ Hmember). reflexivity.
Qed.

(** C3, amended: a tool-use chunk named [TodoWrite] whose input is not
    [null] yields a [plan] update made from the input when the input is an
    object with an array [todos], and no update otherwise, so never a
    [tool_call]; the chunk is stored in the cache under its identifier
    like any other tool use, and nothing else of the agent changes (no hook
    callback is registered); a tool result that refers to it yields no
    update. *)
Theorem todoWrite_translation (role : Role) (chunk : ToolUse) (a : Agent) :
  name chunk = "TodoWrite" ->
  input chunk <> JNull ->
  let listed :=
    exists members items,
      input chunk = JObject members /\ member "todos" members = Some (JArray items) in
  let cached := withToolUseCache (insert (id chunk) chunk) a in
  (listed ->
   translateChunk role (ToolUseChunk chunk) a
   = (Returned (Some (plan (planEntries (input chunk)))), cached)) /\
  (~ listed -> translateChunk role (ToolUseChunk chunk) a = (Returned None, cached)) /\
  toolUseCache cached !! id chunk = Some chunk /\
  (forall (result : ToolResult) (a' : Agent),
      toolUseCache a' !! tool_use_id result = Some chunk ->
      translateChunk role (ToolResultChunk result) a' = (Returned None, a')).
Proof.
  intros Hname Hinput listed cached.
  split; [| split; [| split]].
  - intros (members & items & Hobject & Htodos).
    unfold translateChunk. rewrite Hname, String.eqb_refl, Hobject.
    cbn [getProperty]. rewrite Htodos. reflexivity.
  - intros Hnot. unfold translateChunk. rewrite Hname, String.eqb_refl.
    destruct (input chunk) as [| | | | |members] eqn:Hobject;
      [contradiction | reflexivity.. |].
    cbn [getProperty].
    destruct (member "todos" members) as [[| | | |items|]|] eqn:Htodos; try reflexivity.
    exfalso. apply Hnot. exists members, items. split; [reflexivity | exact Htodos].
  - apply lookup_insert_eq.
  - intros result a' Hcached. unfold translateChunk.
    rewrite (toolUseCacheGet_own _ _ _ Hcached).
    cbn [CacheValue_truthy CacheValue_name notTodoWrite].
    rewrite Hname, String.eqb_refl. reflexivity.
Qed.

End WithTools.

Lemma canUseTool_ordinary_witness :
  (permissionMode (sampleSession "acceptEdits") = "bypassPermissions" \/
   (permissionMode (sampleSession "acceptEdits") = "acceptEdits" /\
    "mcp__acp__Edit" ∈ EDIT_TOOL_NAMES (Tools := sampleTools)) ->
   canUseTool (H := sampleTools) "s1" (agentWith "acceptEdits") "mcp__acp__Edit"
     (JObject []) None "toolu_01"
   = Ret (allow (JObject [])
            (Some (default [addRules ["mcp__acp__Edit"] "allow" "session"] None)),
          agentWith "acceptEdits")) /\
  (~ (permissionMode (sampleSession "acceptEdits") = "bypassPermissions" \/
      (permissionMode (sampleSession "acceptEdits") = "acceptEdits" /\
       "mcp__acp__Edit" ∈ EDIT_TOOL_NAMES (Tools := sampleTools))) ->
   exists k,
     canUseTool (H := sampleTools) "s1" (agentWith "acceptEdits") "mcp__acp__Edit"
       (JObject []) None "toolu_01"
     = requestPermission
         (permissionRequest (H := sampleTools) toolOptions "s1" "mcp__acp__Edit"
            (JObject []) "toolu_01" (agentWith "acceptEdits")) k /\
     forall response : RequestPermissionResponse,
       (forall choice, response = Some (selected choice) ->
                       choice <> "allow" /\ choice <> "allow_always") ->
       k response
       = Ret (deny "User refused permission to run tool" true, agentWith "acceptEdits")).
Proof.
  apply (canUseTool_ordinary (H := sampleTools) "s1" (agentWith "acceptEdits")
           (sampleSession "acceptEdits")).
  - vm_compute. reflexivity.
  - discriminate.
Defined.


Lemma inherited_tool_result_witness :
  toAcpNotifications (H := sampleTools) (inr [ToolResultChunk constructorResult]) assistant
    "s1" newAgent
  = (Returned
       [ {| sessionId := "s1";
            update :=
              tool_call_update (H := sampleTools) "constructor" (Some (JString "Object"))
                completed (JString "done") |} ],
     newAgent).
Proof.
  exact (inherited_tool_result_updates (H := sampleTools) assistant "s1" constructorResult
           newAgent (prototypeMethod "Object") ltac:(vm_compute; reflexivity)
           ltac:(vm_compute; reflexivity)).
Defined.

(** C3, as stated, fails in its last part: after the translation of a
    [TodoWrite] chunk by an agent with an empty cache, the cache holds the
    chunk under its identifier (and the update is the plan). *)
Lemma todoWrite_is_cached :
  toolUseCache newAgent !! "toolu_01" = None /\
  fst (toAcpNotifications (H := sampleTools) (inr [ToolUseChunk sampleTodoWrite])
         assistant "s1" newAgent)
  = Returned [ {| sessionId := "s1";
                  update := plan (H := sampleTools)
                              (planEntries (Tools := sampleTools) (input sampleTodoWrite)) |} ] /\
  toolUseCache
    (snd (toAcpNotifications (H := sampleTools) (inr [ToolUseChunk sampleTodoWrite])
            assistant "s1" newAgent)) !! "toolu_01"
  = Some sampleTodoWrite.
Proof. vm_compute. repeat split. Qed.

Lemma todoWrite_translation_witness :
  translateChunk (H := sampleTools) assistant (ToolUseChunk sampleTodoWrite) newAgent
  = (Returned (Some (plan (H := sampleTools)
                       (planEntries (Tools := sampleTools) (input sampleTodoWrite)))),
     withToolUseCache (insert "toolu_01" sampleTodoWrite) newAgent).
Proof.
  refine (proj1 (todoWrite_translation (H := sampleTools) assistant sampleTodoWrite
                   newAgent eq_refl _) _).
  - discriminate.
  - eexists _, _. split; reflexivity.
Defined.

End AcpAgentProofs.

(** ** Trimming *)

Module JsProofs.
Import Js.





















End JsProofs.

(** ** Reading a file by whole lines *)

Module LinesProofs.
Import Lines.
#[local] Open Scope list_scope.

Lemma lineFeeds_cons (c : N) (text : list N) :
  lineFeeds (c :: text) = (if N.eqb LF c then 1 else 0) + lineFeeds text.
Proof. unfold lineFeeds. cbn [List.filter]. destruct (N.eqb LF c); reflexivity. Qed.

Lemma lineFeeds_app (text1 text2 : list N) :
  lineFeeds (text1 ++ text2) = lineFeeds text1 + lineFeeds text2.
Proof. unfold lineFeeds. rewrite List.filter_app, length_app. reflexivity. Qed.

Lemma lineFeeds_take_S (text : list N) (j : nat) :
  text !! j = Some LF -> lineFeeds (take (S j) text) = lineFeeds (take j text) + 1.
Proof.
  intros Hj. rewrite (take_S_r _ _ _ Hj), lineFeeds_app. reflexivity.
Qed.

(** What [indexOf] finds: the first line feed at or after [index]. *)
Lemma indexOfLF_Some (fullContent : list N) :
  forall index nextIndex,
    indexOfLF fullContent index = Some nextIndex ->
    index <= nextIndex < length fullContent /\
    fullContent !! nextIndex = Some LF /\
    lineFeeds (take nextIndex fullContent) = lineFeeds (take index fullContent).
Proof.
  induction fullContent as [|c rest IH]; intros index nextIndex Hfound; [discriminate |].
  cbn [indexOfLF] in Hfound. destruct index as [|index].
  - destruct (N.eqb_spec c LF) as [-> | Hc].
    + injection Hfound as <-. cbn. repeat split; lia.
    + destruct (indexOfLF rest 0) as [j|] eqn:Hrest; [| discriminate].
      injection Hfound as <-. destruct (IH 0 j Hrest) as ([_ Hlt] & Hj & Hcount).
      cbn [length lookup list_lookup take]. rewrite lineFeeds_cons, Hcount.
      destruct (N.eqb_spec LF c); [congruence |].
      rewrite take_0. cbn. repeat split; (lia || assumption).
  - destruct (indexOfLF rest index) as [j|] eqn:Hrest; [| discriminate].
    injection Hfound as <-. destruct (IH index j Hrest) as ([Hle Hlt] & Hj & Hcount).
    cbn [length take]. rewrite !lineFeeds_cons, Hcount.
    repeat split; (lia || assumption).
Qed.

Lemma indexOfLF_None (fullContent : list N) :
  forall index,
    indexOfLF fullContent index = None ->
    lineFeeds fullContent = lineFeeds (take index fullContent).
Proof.
  induction fullContent as [|c rest IH]; intros index Hnone.
  - rewrite take_nil. reflexivity.
  - cbn [indexOfLF] in Hnone. destruct index as [|index].
    + destruct (N.eqb_spec c LF) as [-> | Hc]; [discriminate |].
      destruct (indexOfLF rest 0) as [j|] eqn:Hrest; [discriminate |].
      rewrite lineFeeds_cons, (IH 0 Hrest), !take_0.
      destruct (N.eqb_spec LF c); [congruence | reflexivity].
    + destruct (indexOfLF rest index) as [j|] eqn:Hrest; [discriminate |].
      cbn [take]. rewrite !lineFeeds_cons, (IH index Hrest). reflexivity.
Qed.

(** The loop, from any line start [index] with [linesSeen] lines taken:
    it ends within the fuel, at a position [contentLength] with
    [linesSeen'] lines and the flag [limited], and these are related to
    the text as the conjuncts say. *)
Lemma extractLoop_spec (fullContent : list N) (maxContentLength : Z) :
  forall fuel linesSeen index,
    index <= length fullContent ->
    length fullContent < fuel + index ->
    exists contentLength linesSeen' limited,
      extractLoop fuel fullContent maxContentLength linesSeen index index
      = Some (contentLength, linesSeen', limited) /\
      index <= contentLength <= length fullContent /\
      (linesSeen <= linesSeen' /\ (linesSeen = 0 -> 1 <= linesSeen')) /\
      (linesSeen' + lineFeeds (take index fullContent)
       = linesSeen + lineFeeds (take contentLength fullContent)
         + (if limited then 0 else 1)) /\
      (limited = false -> contentLength = length fullContent) /\
      (limited = true ->
       (maxContentLength < Z.of_nat (length fullContent))%Z /\
       match indexOfLF fullContent contentLength with
       | Some nextIndex => (maxContentLength < Z.of_nat (nextIndex + 1))%Z
       | None => True
       end) /\
      (contentLength = index \/ limited = false \/
       exists j, contentLength = S j /\ fullContent !! j = Some LF) /\
      ((Z.of_nat contentLength <= maxContentLength)%Z \/ linesSeen' <= 1 \/
       (contentLength = index /\ linesSeen' = linesSeen)).
Proof.
  induction fuel as [|fuel IH]; intros linesSeen index Hindex Hfuel; [lia |].
  cbn [extractLoop].
  destruct (indexOfLF fullContent index) as [nextIndex|] eqn:Hnext.
  - destruct (indexOfLF_Some _ _ _ Hnext) as ([Hle Hlt] & Hlf & Hcount).
    destruct ((0 <? linesSeen)%nat && (maxContentLength <? Z.of_nat (nextIndex + 1))%Z)
      eqn:Hlimit.
    + apply andb_true_iff in Hlimit as [Hseen Hmax].
      apply Nat.ltb_lt in Hseen. apply Z.ltb_lt in Hmax.
      exists index, linesSeen, true. rewrite Hnext.
      repeat split; try lia; try discriminate; auto.
    + destruct (IH (S linesSeen) (nextIndex + 1)) as
        (cl & ls & lim & Hrun & Hrange & Hmono & Hlines & Hwhole & Hcut & Hedge & Hfit);
        [lia | lia |].
      exists cl, ls, lim. rewrite Hrun.
      replace (nextIndex + 1) with (S nextIndex) in * by lia.
      rewrite (lineFeeds_take_S _ _ Hlf), Hcount in Hlines.
      split; [reflexivity |]. split; [lia |]. split; [lia |]. split; [lia |].
      split; [exact Hwhole |]. split; [exact Hcut |]. split.
      * destruct Hedge as [-> | [Hedge | Hedge]]; [| auto | auto].
        right. right. exists nextIndex. split; [reflexivity | exact Hlf].
      * apply andb_false_iff in Hlimit as [Hseen | Hmax].
        -- apply Nat.ltb_ge in Hseen.
           destruct Hfit as [Hfit | [Hfit | [_ Hfit]]]; [auto | auto |].
           right. left. lia.
        -- apply Z.ltb_ge in Hmax.
           destruct Hfit as [Hfit | [Hfit | [-> Hfit]]]; [auto | auto |].
           left. lia.
  - pose proof (indexOfLF_None _ _ Hnext) as Hcount.
    destruct ((0 <? linesSeen)%nat && (maxContentLength <? Z.of_nat (length fullContent))%Z)
      eqn:Hlimit.
    + apply andb_true_iff in Hlimit as [Hseen Hmax].
      apply Nat.ltb_lt in Hseen. apply Z.ltb_lt in Hmax.
      exists index, linesSeen, true. rewrite Hnext.
      repeat split; try lia; try discriminate; auto.
    + exists (length fullContent), (S linesSeen), false.
      rewrite firstn_all, <- Hcount.
      repeat split; try lia; try discriminate; auto.
      apply andb_false_iff in Hlimit as [Hseen | Hmax].
      * apply Nat.ltb_ge in Hseen. right. left. lia.
      * apply Z.ltb_ge in Hmax. left. lia.
Qed.

(** The call on a text that is not empty, in terms of the loop. *)
Lemma extractLines_run (c : N) (rest : list N) (maxContentLength : Z) :
  let fullContent := c :: rest in
  exists contentLength linesSeen limited,
    extractLinesWithByteLimit fullContent maxContentLength
    = Some {| content := take contentLength fullContent;
              wasLimited := limited; linesRead := linesSeen |} /\
    contentLength <= length fullContent /\
    1 <= linesSeen /\
    linesSeen = lineFeeds (take contentLength fullContent) + (if limited then 0 else 1) /\
    (limited = false -> contentLength = length fullContent) /\
    (limited = true ->
     (maxContentLength < Z.of_nat (length fullContent))%Z /\
     match indexOfLF fullContent contentLength with
     | Some nextIndex => (maxContentLength < Z.of_nat (nextIndex + 1))%Z
     | None => True
     end) /\
    (contentLength = 0 \/ limited = false \/
     exists j, contentLength = S j /\ fullContent !! j = Some LF) /\
    ((Z.of_nat contentLength <= maxContentLength)%Z \/ linesSeen <= 1).
Proof.
  intros fullContent.
  destruct (extractLoop_spec fullContent maxContentLength (S (length fullContent)) 0 0)
    as (cl & ls & lim & Hrun & Hrange & Hmono & Hlines & Hwhole & Hcut & Hedge & Hfit);
    [lia | lia |].
  exists cl, ls, lim. unfold extractLinesWithByteLimit. subst fullContent.
  rewrite Hrun. rewrite take_0 in Hlines. cbn [lineFeeds List.filter length] in Hlines.
  split; [reflexivity |]. split; [lia |]. split; [lia |]. split; [lia |].
  split; [exact Hwhole |]. split; [exact Hcut |]. split; [exact Hedge |].
  destruct Hfit as [Hfit | [Hfit | [_ Hfit]]]; [auto | auto | right; lia].
Qed.

(** X1: For every text and every limit the call returns; what it returns is
    a prefix of the text that is the whole text or ends with a line feed,
    not empty unless the text is, and at least one line is counted. *)
Theorem extractLines_whole_lines (fullContent : list N) (maxContentLength : Z) :
  exists result,
    extractLinesWithByteLimit fullContent maxContentLength = Some result /\
    (exists rest, fullContent = content result ++ rest) /\
    (content result = fullContent \/ last (content result) = Some LF) /\
    (fullContent <> [] -> content result <> []) /\
    1 <= linesRead result.
Proof.
  destruct fullContent as [|c rest].
  { eexists. split; [reflexivity |]. cbn. repeat split; auto. exists []. reflexivity. }
  destruct (extractLines_run c rest maxContentLength)
    as (cl & ls & lim & Hrun & Hrange & Hpos & Hlines & Hwhole & _ & Hedge & _).
  eexists. split; [exact Hrun |]. cbn [content linesRead].
  assert (Hnonzero : cl <> 0).
  { intros ->. destruct lim.
    - rewrite take_0 in Hlines. cbn in Hlines. lia.
    - specialize (Hwhole eq_refl). cbn in Hwhole. lia. }
  split; [| split; [| split]].
  - exists (drop cl (c :: rest)). symmetry. apply take_drop.
  - destruct Hedge as [Hedge | [Hedge | (j & -> & Hj)]]; [contradiction | |].
    + left. rewrite (Hwhole Hedge). apply firstn_all.
    + right. rewrite (take_S_r _ _ _ Hj). apply last_snoc.
  - intros _ Hempty. apply (f_equal length) in Hempty.
    rewrite length_take in Hempty. cbn in Hempty, Hrange. lia.
  - exact Hpos.
Qed.

(** X2: A call that does not report a limit returns the whole text and counts
    its lines, one more than it has line feeds; and a text that is not
    longer than the limit is never reported as limited. *)
Theorem extractLines_not_limited (fullContent : list N) (maxContentLength : Z)
    (result : ExtractLinesResult) :
  extractLinesWithByteLimit fullContent maxContentLength = Some result ->
  (wasLimited result = false ->
   content result = fullContent /\ linesRead result = lineFeeds fullContent + 1) /\
  ((Z.of_nat (length fullContent) <= maxContentLength)%Z -> wasLimited result = false).
Proof.
  destruct fullContent as [|c rest].
  { intros [= <-]. cbn. split; auto. }
  destruct (extractLines_run c rest maxContentLength)
    as (cl & ls & lim & Hrun & Hrange & Hpos & Hlines & Hwhole & Hcut & _ & _).
  rewrite Hrun. intros [= <-]. cbn [content linesRead wasLimited]. split.
  - intros ->. rewrite (Hwhole eq_refl) in *. rewrite firstn_all in *. split; [reflexivity | lia].
  - intros Hshort. destruct lim; [| reflexivity].
    destruct (Hcut eq_refl) as [Hlong _]. lia.
Qed.

(** X3: The limit is kept for everything but the first line: a returned
    content longer than the limit is one line, the first, with at most its
    own line feed. *)
Theorem extractLines_over_limit (fullContent : list N) (maxContentLength : Z)
    (result : ExtractLinesResult) :
  extractLinesWithByteLimit fullContent maxContentLength = Some result ->
  (maxContentLength < Z.of_nat (length (content result)))%Z ->
  linesRead result = 1 /\ lineFeeds (content result) <= 1.
Proof.
  destruct fullContent as [|c rest].
  { intros [= <-] _. cbn. split; [reflexivity | lia]. }
  destruct (extractLines_run c rest maxContentLength)
    as (cl & ls & lim & Hrun & Hrange & Hpos & Hlines & _ & _ & _ & Hfit).
  rewrite Hrun. intros [= <-]. cbn [content linesRead]. intros Hover.
  rewrite length_take in Hover.
  destruct Hfit as [Hfit | Hfit]; [lia |].
  split; [lia |]. destruct lim; lia.
Qed.

(** X4: A reported limit: the text is longer than the limit, the content is
    made of the counted lines, each with its line feed, and the line that
    follows would end beyond the limit. *)
Theorem extractLines_limited (fullContent : list N) (maxContentLength : Z)
    (result : ExtractLinesResult) :
  extractLinesWithByteLimit fullContent maxContentLength = Some result ->
  wasLimited result = true ->
  (maxContentLength < Z.of_nat (length fullContent))%Z /\
  linesRead result = lineFeeds (content result) /\
  last (content result) = Some LF /\
  (forall nextIndex,
      indexOfLF fullContent (length (content result)) = Some nextIndex ->
      (maxContentLength < Z.of_nat (nextIndex + 1))%Z).
Proof.
  destruct fullContent as [|c rest].
  { intros [= <-]. cbn. discriminate. }
  destruct (extractLines_run c rest maxContentLength)
    as (cl & ls & lim & Hrun & Hrange & Hpos & Hlines & _ & Hcut & Hedge & _).
  rewrite Hrun. intros [= <-]. cbn [content linesRead wasLimited]. intros ->.
  destruct (Hcut eq_refl) as [Hlong Hnext].
  split; [exact Hlong |]. split; [lia |]. split.
  - destruct Hedge as [-> | [Hedge | (j & -> & Hj)]]; [| discriminate |].
    + rewrite take_0 in Hlines. cbn in Hlines. lia.
    + rewrite (take_S_r _ _ _ Hj). apply last_snoc.
  - intros nextIndex Hfound. rewrite length_take in Hfound.
    replace (cl `min` length (c :: rest)) with cl in Hfound by lia.
    rewrite Hfound in Hnext. exact Hnext.
Qed.

Lemma extractLines_not_limited_witness :
  (wasLimited {| content := threeLines; wasLimited := false; linesRead := 3 |} = false ->
   content {| content := threeLines; wasLimited := false; linesRead := 3 |} = threeLines /\
   linesRead {| content := threeLines; wasLimited := false; linesRead := 3 |}
   = lineFeeds threeLines + 1) /\
  ((Z.of_nat (length threeLines) <= 10)%Z ->
   wasLimited {| content := threeLines; wasLimited := false; linesRead := 3 |} = false).
Proof.
  apply (extractLines_not_limited threeLines 10). vm_compute. reflexivity.
Defined.

Lemma extractLines_over_limit_witness :
  linesRead {| content := take 7 longFirstLine; wasLimited := true; linesRead := 1 |} = 1 /\
  lineFeeds (content {| content := take 7 longFirstLine; wasLimited := true;
                        linesRead := 1 |}) <= 1.
Proof.
  apply (extractLines_over_limit longFirstLine 3).
  - vm_compute. reflexivity.
  - vm_compute. reflexivity.
Defined.

Lemma extractLines_limited_witness :
  (4 < Z.of_nat (length threeLines))%Z /\
  linesRead {| content := take 3 threeLines; wasLimited := true; linesRead := 1 |}
  = lineFeeds (content {| content := take 3 threeLines; wasLimited := true;
                          linesRead := 1 |}) /\
  last (content {| content := take 3 threeLines; wasLimited := true; linesRead := 1 |})
  = Some LF /\
  (forall nextIndex,
      indexOfLF threeLines
        (length (content {| content := take 3 threeLines; wasLimited := true;
                            linesRead := 1 |})) = Some nextIndex ->
      (4 < Z.of_nat (nextIndex + 1))%Z).
Proof.
  apply (extractLines_limited threeLines 4).
  - vm_compute. reflexivity.
  - reflexivity.
Defined.

End LinesProofs.

(** ** The input channel *)

Module PushableQueueProofs.
Import PushableQueue.
#[local] Open Scope list_scope.

Section Pushable.
Variable T : Type.

Lemma call_settled (c : Call T) (p : Pushable T) :
  settled T p ->
  settled T (fst (call T c p)) /\
  yielded T (snd (call T c p)) ++ queue T (fst (call T c p))
  = queue T p ++ pushed T [c] /\
  map fst (snd (call T c p)) ++ resolvers T (fst (call T c p))
  = resolvers T p ++ requested T [c].
Proof.
  intros [Hidle Hdone]. unfold settled.
  destruct p as [items pending ended]. cbn [queue resolvers done] in *.
  destruct c as [item | | ticket]; cbn [call pushed requested flat_map].
  - unfold push. cbn [resolvers queue done].
    destruct pending as [|resolve rest]; cbn; rewrite ?app_nil_r.
    + auto.
    + destruct Hidle as [-> | Hno]; [| discriminate].
      split; [split; [auto |] | auto].
      intros Hd. specialize (Hdone Hd). discriminate.
  - unfold end_. cbn [fst snd queue resolvers done].
    rewrite ?app_nil_r. split; [auto |]. split.
    + clear Hidle Hdone.
      induction pending as [|r rs IH]; cbn; [reflexivity | exact IH].
    + rewrite map_map. cbn [fst]. apply map_id.
  - unfold next. cbn [resolvers queue done].
    destruct items as [|item rest].
    + destruct ended; cbn; rewrite ?app_nil_r.
      * rewrite (Hdone eq_refl). auto.
      * split; [split; [auto | discriminate] | auto].
    + destruct Hidle as [Hno | ->]; [discriminate |].
      cbn. rewrite app_nil_r. auto.
Qed.

Lemma run_settled (calls : list (Call T)) :
  forall p : Pushable T,
    settled T p ->
    settled T (fst (run T calls p)) /\
    yielded T (snd (run T calls p)) ++ queue T (fst (run T calls p))
    = queue T p ++ pushed T calls /\
    map fst (snd (run T calls p)) ++ resolvers T (fst (run T calls p))
    = resolvers T p ++ requested T calls.
Proof.
  induction calls as [|c calls IH]; intros p Hp.
  - cbn. rewrite !app_nil_r. auto.
  - cbn [run].
    destruct (call_settled c p Hp) as (Hp1 & Hitems1 & Htickets1).
    destruct (call T c p) as [p1 resolved1]. cbn [fst snd] in *.
    destruct (IH p1 Hp1) as (Hp2 & Hitems2 & Htickets2).
    destruct (run T calls p1) as [p2 resolved2]. cbn [fst snd] in *.
    split; [exact Hp2 |].
    unfold yielded in *. rewrite flat_map_app, map_app, <- !app_assoc.
    rewrite Hitems2, Htickets2, !app_assoc, Hitems1, Htickets1.
    change (c :: calls) with ([c] ++ calls).
    unfold pushed, requested. rewrite !flat_map_app, !app_assoc. auto.
Qed.

(** X5: No item is lost, repeated or overtaken: after any history of calls on
    a new [Pushable], the items handed to [next()] calls, in the order they
    were handed out, followed by the items still queued, are the items
    pushed, in the order they were pushed. *)
Theorem pushable_fifo (calls : list (Call T)) :
  yielded T (snd (run T calls (new T))) ++ queue T (fst (run T calls (new T)))
  = pushed T calls.
Proof.
  destruct (run_settled calls (new T)) as (_ & Hitems & _).
  - split; [left; reflexivity | discriminate].
  - exact Hitems.
Qed.

(** X6: The [next()] calls are answered in the order they were made, the
    pending ones being the latest; items wait only while no call is
    pending; and once [end()] was called no call is left pending. *)
Theorem pushable_answers_in_order (calls : list (Call T)) :
  let p := fst (run T calls (new T)) in
  map fst (snd (run T calls (new T))) ++ resolvers T p = requested T calls /\
  (queue T p = [] \/ resolvers T p = []) /\
  (done T p = true -> resolvers T p = []).
Proof.
  destruct (run_settled calls (new T)) as ([Hidle Hdone] & _ & Htickets).
  - split; [left; reflexivity | discriminate].
  - cbn zeta. auto.
Qed.

End Pushable.

End PushableQueueProofs.

(** ** The stored API key *)

Module CredentialsProofs.
Import Js Utils Credentials.
#[local] Open Scope list_scope.


Lemma entryOf_setEntry_ne (key other value : string) (entries : list (string * string)) :
  other <> key -> entryOf other (setEntry key value entries) = entryOf other entries.
Proof.
  intros Hother. unfold entryOf. induction entries as [|[k v] entries IH]; cbn.
  - destruct (String.eqb_spec key other); [congruence | reflexivity].
  - destruct (String.eqb_spec k key) as [-> | Hne]; cbn.
    + destruct (String.eqb_spec key other); [congruence | reflexivity].
    + destruct (String.eqb_spec k other); [reflexivity | exact IH].
Qed.



Lemma deleteEntry_setEntry (key value : string) (entries : list (string * string)) :
  entryOf key entries = None -> deleteEntry key (setEntry key value entries) = entries.
Proof.
  unfold entryOf, deleteEntry. induction entries as [|[k v] entries IH]; cbn.
  - rewrite String.eqb_refl. reflexivity.
  - destruct (String.eqb_spec k key) as [-> | Hne]; cbn; [discriminate |].
    intros Habsent. destruct (String.eqb_spec k key); [contradiction |].
    cbn. rewrite (IH Habsent). reflexivity.
Qed.

Lemma saveApiKey_path (apiKey : string) (m : Machine) :
  getManagedSettingsPath (saveApiKey apiKey m) = getManagedSettingsPath m.
Proof. reflexivity. Qed.

Lemma saveApiKey_load (apiKey : string) (m : Machine) :
  loadManagedSettings (saveApiKey apiKey m)
  = Some (withEnv
            (setEntry TOKEN apiKey
               (default [] (env (default defaultSettings (loadManagedSettings m)))))
            (default defaultSettings (loadManagedSettings m))).
Proof.
  unfold loadManagedSettings. rewrite saveApiKey_path.
  unfold saveApiKey, writeSettings. cbn [files]. apply lookup_insert_eq.
Qed.

Lemma clearApiKey_processEnv (m : Machine) :
  processEnv (clearApiKey m) = delete TOKEN (processEnv m).
Proof.
  unfold clearApiKey. destruct (files m !! getManagedSettingsPath m) as [settings|];
    [destruct (env settings) |]; reflexivity.
Qed.

Lemma clearApiKey_path (m : Machine) :
  getManagedSettingsPath (clearApiKey m) = getManagedSettingsPath m.
Proof.
  unfold getManagedSettingsPath. rewrite clearApiKey_processEnv.
  rewrite lookup_delete_ne by discriminate.
  unfold clearApiKey. destruct (files m !! _) as [settings|];
    [destruct (env settings) |]; reflexivity.
Qed.

Lemma clearApiKey_load (m : Machine) :
  loadManagedSettings (clearApiKey m)
  = match loadManagedSettings m with
    | Some settings =>
        match env settings with
        | Some entries => Some (withEnv (deleteEntry TOKEN entries) settings)
        | None => Some settings
        end
    | None => None
    end.
Proof.
  unfold loadManagedSettings. rewrite clearApiKey_path. unfold clearApiKey.
  destruct (files m !! getManagedSettingsPath m) as [settings|] eqn:Hfile.
  - destruct (env settings) as [entries|] eqn:Henv; cbn [files writeSettings].
    + apply lookup_insert_eq.
    + exact Hfile.
  - cbn [files]. exact Hfile.
Qed.


(** X9: Saving a key and clearing it again leaves a readable settings file
    that did not list a key exactly as it was. *)
Theorem save_then_clear_restores_file (apiKey : string) (m : Machine)
    (settings : ManagedSettings) (entries : list (string * string)) :
  loadManagedSettings m = Some settings ->
  env settings = Some entries ->
  entryOf TOKEN entries = None ->
  loadManagedSettings (clearApiKey (saveApiKey apiKey m)) = Some settings.
Proof.
  intros Hload Henv Habsent.
  rewrite clearApiKey_load, saveApiKey_load, Hload. cbn [from_option id].
  rewrite Henv. cbn [from_option id env withEnv].
  rewrite (deleteEntry_setEntry _ _ _ Habsent).
  destruct settings as [perm e z]. cbn in *. subst e. reflexivity.
Qed.


Lemma save_then_clear_restores_witness :
  loadManagedSettings (clearApiKey (saveApiKey "key" sampleMachine)) = Some sampleSettings.
Proof.
  apply (save_then_clear_restores_file "key" sampleMachine sampleSettings
           [("API_TIMEOUT_MS", "3000000")]%string).
  - vm_compute. reflexivity.
  - reflexivity.
  - reflexivity.
Defined.

End CredentialsProofs.

(** ** Getting an API key *)

Module AuthenticationProofs.
Import Js Utils Credentials Authentication.
#[local] Open Scope list_scope.

Lemma trim_empty : trim "" = ""%string.
Proof. reflexivity. Qed.



(** X12: a key is rejected only on the word of an endpoint: when the models
    endpoint answers with a status that is neither a success nor 404, or
    when it fails or answers 404 and the messages endpoint answers 401 or
    403. With no network at all every key is accepted. *)
Theorem validateApiKey_rejects (models messages : option Z) :
  isValid (validateApiKey models messages) = false <->
  (exists status, models = Some status /\ ok status = false /\ status <> 404%Z) \/
  ((models = None \/ models = Some 404%Z) /\
   (messages = Some 401%Z \/ messages = Some 403%Z)).
Proof.
  assert (Hmessages :
    isValid (validateApiKeyWithMessagesEndpoint messages) = false <->
    (messages = Some 401%Z \/ messages = Some 403%Z)).
  { unfold validateApiKeyWithMessagesEndpoint.
    destruct messages as [status|]; [| split; [discriminate | intros [H | H]; discriminate]].
    unfold ok.
    destruct (Z.eqb_spec status 400), (Z.eqb_spec status 401), (Z.eqb_spec status 403);
      destruct (Z.leb_spec 200 status), (Z.leb_spec status 299); cbn;
      split; try discriminate; try lia; auto;
      try (intros [[= ?] | [= ?]]; lia); try (intros _; left; f_equal; lia);
      try (intros _; right; f_equal; lia). }
  unfold validateApiKey. destruct models as [status|].
  - destruct (ok status) eqn:Hok.
    + cbn. split; [discriminate |].
      intros [(s & [= <-] & Hno & _) | [[H | [= ->]] _]]; [congruence | discriminate |].
      discriminate.
    + destruct (Z.eqb_spec status 401) as [-> | H401]; cbn [orb].
      { cbn. split; [| reflexivity]. intros _. left. exists 401%Z. repeat split. lia. }
      destruct (Z.eqb_spec status 403) as [-> | H403]; cbn [orb].
      { cbn. split; [| reflexivity]. intros _. left. exists 403%Z. repeat split. lia. }
      destruct (Z.eqb_spec status 404) as [-> | H404].
      * rewrite Hmessages. split.
        -- intros H. right. split; [right; reflexivity | exact H].
        -- intros [(s & [= <-] & _ & Hne) | [_ H]]; [contradiction | exact H].
      * cbn. split; [| reflexivity]. intros _. left. exists status. auto.
  - rewrite Hmessages. split.
    + intros H. right. split; [left; reflexivity | exact H].
    + intros [(s & Hs & _) | [_ H]]; [discriminate | exact H].
Qed.



End AuthenticationProofs.

(** ** Settings applied twice, models mapped twice *)

Module SettingsProofs.
Import Js Utils.
#[local] Open Scope list_scope.

(** What [applyZAi] leaves under a name depends on what was there. *)
Lemma applyZAi_lookup (zAiConfig : ZAiConfig) (processEnv : gmap string string)
    (key : string) :
  applyZAi zAiConfig processEnv !! key
  = match enabled zAiConfig with
    | Some true =>
        if String.eqb key "Z_AI_ENABLED" then Some "true"%string
        else if String.eqb key "Z_AI_MODEL_MAPPING_CONFIG" then
          match model_mapping zAiConfig with
          | Some mapping => Some (JSON_stringify mapping)
          | None => processEnv !! key
          end
        else if String.eqb key "ANTHROPIC_BASE_URL" then
          match api_endpoint zAiConfig, processEnv !! key with
          | Some url, None => if truthy (Some url) then Some url else None
          | _, present => present
          end
        else processEnv !! key
    | _ => processEnv !! key
    end.
Proof.
  unfold applyZAi. destruct (enabled zAiConfig) as [[|]|]; [| reflexivity | reflexivity].
  destruct (String.eqb_spec key "Z_AI_ENABLED") as [-> | Henabled].
  { apply lookup_insert_eq. }
  rewrite lookup_insert_ne by congruence.
  destruct (String.eqb_spec key "Z_AI_MODEL_MAPPING_CONFIG") as [-> | Hmapping].
  { destruct (model_mapping zAiConfig); [apply lookup_insert_eq |].
    destruct (api_endpoint zAiConfig) as [url|]; [| reflexivity].
    destruct (processEnv !! "ANTHROPIC_BASE_URL"); [reflexivity |].
    destruct (truthy (Some url)); [| reflexivity].
    apply lookup_insert_ne. discriminate. }
  assert (Hrest :
    forall e : gmap string string,
      match model_mapping zAiConfig with
      | Some mapping => <["Z_AI_MODEL_MAPPING_CONFIG"%string := JSON_stringify mapping]> e
      | None => e
      end !! key = e !! key).
  { intros e. destruct (model_mapping zAiConfig); [| reflexivity].
    apply lookup_insert_ne. congruence. }
  rewrite Hrest.
  destruct (String.eqb_spec key "ANTHROPIC_BASE_URL") as [-> | Hbase].
  - destruct (api_endpoint zAiConfig) as [url|]; [| reflexivity].
    destruct (processEnv !! "ANTHROPIC_BASE_URL") eqn:Hpresent; [exact Hpresent |].
    destruct (truthy (Some url)); [apply lookup_insert_eq | exact Hpresent].
  - destruct (api_endpoint zAiConfig) as [url|]; [| reflexivity].
    destruct (processEnv !! "ANTHROPIC_BASE_URL"); [reflexivity |].
    destruct (truthy (Some url)); [| reflexivity].
    apply lookup_insert_ne. congruence.
Qed.

Lemma applyEnvironmentSettings_lookup (settings : ManagedSettings)
    (processEnv : gmap string string) (key : string) :
  applyEnvironmentSettings settings processEnv !! key
  = let afterEnv :=
      match env settings, processEnv !! key with
      | Some entries, None =>
          snd <$> List.find (fun entry => String.eqb (fst entry) key) entries
      | _, present => present
      end in
    match z_ai settings with
    | Some zAiConfig =>
        match enabled zAiConfig with
        | Some true =>
            if String.eqb key "Z_AI_ENABLED" then Some "true"%string
            else if String.eqb key "Z_AI_MODEL_MAPPING_CONFIG" then
              match model_mapping zAiConfig with
              | Some mapping => Some (JSON_stringify mapping)
              | None => afterEnv
              end
            else if String.eqb key "ANTHROPIC_BASE_URL" then
              match api_endpoint zAiConfig, afterEnv with
              | Some url, None => if truthy (Some url) then Some url else None
              | _, present => present
              end
            else afterEnv
        | _ => afterEnv
        end
    | None => afterEnv
    end.
Proof.
  unfold applyEnvironmentSettings.
  assert (Henv :
    match env settings with
    | Some entries => applyEnvSection entries processEnv
    | None => processEnv
    end !! key
    = match env settings, processEnv !! key with
      | Some entries, None =>
          snd <$> List.find (fun entry => String.eqb (fst entry) key) entries
      | _, present => present
      end).
  { destruct (env settings) as [entries|]; [| destruct (processEnv !! key); reflexivity].
    rewrite UtilsProofs.applyEnvSection_lookup. destruct (processEnv !! key); reflexivity. }
  cbv zeta. destruct (z_ai settings) as [zAiConfig|]; [| exact Henv].
  rewrite applyZAi_lookup, Henv.
  destruct (enabled zAiConfig) as [[|]|]; try reflexivity.
  destruct (String.eqb key "Z_AI_ENABLED"); [reflexivity |].
  destruct (String.eqb key "Z_AI_MODEL_MAPPING_CONFIG"); [reflexivity |].
  destruct (String.eqb key "ANTHROPIC_BASE_URL"); [| reflexivity].
  destruct (api_endpoint zAiConfig) as [url|]; [| reflexivity].
  destruct (env settings) as [entries|]; destruct (processEnv !! key); try reflexivity.
  destruct (snd <$> List.find (fun entry => String.eqb (fst entry) key) entries);
    reflexivity.
Qed.

(** X11: Applying the settings to an environment they have been applied to
    changes nothing: every variable they set is set by the first pass. *)
Theorem applyEnvironmentSettings_idempotent (settings : ManagedSettings)
    (processEnv : gmap string string) :
  applyEnvironmentSettings settings (applyEnvironmentSettings settings processEnv)
  = applyEnvironmentSettings settings processEnv.
Proof.
  apply map_eq. intros key.
  rewrite (applyEnvironmentSettings_lookup settings (applyEnvironmentSettings _ _)).
  rewrite (applyEnvironmentSettings_lookup settings processEnv).
  cbv zeta.
  generalize (processEnv !! key) as present. intros present.
  assert (Henv : forall entries : list (string * string),
    match
      match present with
      | Some y => Some y
      | None => snd <$> List.find (fun entry => String.eqb (fst entry) key) entries
      end
    with
    | Some y => Some y
    | None => snd <$> List.find (fun entry => String.eqb (fst entry) key) entries
    end
    = match present with
      | Some y => Some y
      | None => snd <$> List.find (fun entry => String.eqb (fst entry) key) entries
      end).
  { intros entries. destruct present; [reflexivity |].
    destruct (snd <$> List.find (fun entry => String.eqb (fst entry) key) entries);
      reflexivity. }
  destruct (z_ai settings) as [zAiConfig|].
  - destruct (enabled zAiConfig) as [[|]|].
    + destruct (String.eqb key "Z_AI_ENABLED"); [reflexivity |].
      destruct (String.eqb key "Z_AI_MODEL_MAPPING_CONFIG").
      { destruct (model_mapping zAiConfig); [reflexivity |].
        destruct (env settings) as [entries|]; [apply Henv | reflexivity]. }
      destruct (String.eqb key "ANTHROPIC_BASE_URL").
      { destruct (api_endpoint zAiConfig) as [url|].
        - destruct (env settings) as [entries|].
          + destruct present; [reflexivity |].
            destruct (snd <$> List.find (fun entry => String.eqb (fst entry) key) entries);
              [reflexivity |].
            destruct (truthy (Some url)); reflexivity.
          + destruct present; [reflexivity |].
            destruct (truthy (Some url)); reflexivity.
        - destruct (env settings) as [entries|]; [apply Henv | reflexivity]. }
      destruct (env settings) as [entries|]; [apply Henv | reflexivity].
    + destruct (env settings) as [entries|]; [apply Henv | reflexivity].
    + destruct (env settings) as [entries|]; [apply Henv | reflexivity].
  - destruct (env settings) as [entries|]; [apply Henv | reflexivity].
Qed.

End SettingsProofs.

Module ModelMappingProofs.
Import Js PromptAnalyzer.
#[local] Open Scope list_scope.

Lemma modelMapping_range (claudeModel glm : string) :
  modelMapping !! claudeModel = Some glm -> glm = "glm-4.7"%string \/ glm = "glm-4.5-air"%string.
Proof.
  intros Hlookup. apply elem_of_list_to_map_2 in Hlookup.
  repeat (apply elem_of_cons in Hlookup; destruct Hlookup as [Heq | Hlookup];
          [injection Heq; intros; subst; auto |]).
  apply elem_of_nil in Hlookup. contradiction.
Qed.

(** X15: A mapped model name is not mapped further: a model name that
    [mapModelToGlm] returns is one of the two GLM identifiers or the
    argument, and the function returns it unchanged when called with it.
    The only other results are the members of [Object.prototype], for
    the names of those members, none of which the table lists. *)
Theorem mapModelToGlm_idempotent (claudeModel : string) :
  match mapModelToGlm claudeModel with
  | ModelName name =>
      (name = claudeModel \/ name = "glm-4.7"%string \/ name = "glm-4.5-air"%string) /\
      mapModelToGlm name = ModelName name
  | Inherited member =>
      modelMapping !! claudeModel = None /\ Object_prototype claudeModel = Some member
  end.
Proof.
  assert (Hglm : mapModelToGlm "glm-4.7" = ModelName "glm-4.7" /\
                 mapModelToGlm "glm-4.5-air" = ModelName "glm-4.5-air").
  { split; vm_compute; reflexivity. }
  unfold mapModelToGlm at 1.
  destruct (modelMapping !! claudeModel) as [glm|] eqn:Hlookup.
  - destruct (modelMapping_range _ _ Hlookup) as [-> | ->]; cbn [String.eqb Ascii.eqb Bool.eqb];
      (split; [auto | apply Hglm]).
  - destruct (Object_prototype claudeModel) as [member|] eqn:Hinherited; [auto |].
    split; [auto |]. unfold mapModelToGlm. rewrite Hlookup, Hinherited. reflexivity.
Qed.

End ModelMappingProofs.

(** ** Modes, cancellation and the file cache *)

Module AcpTurnProofs.
Import Js AcpAgent AcpTurn.
#[local] Open Scope list_scope.





Section WithTools.
Context `{Tools}.

(** X17: A mode of the list that the engine accepts becomes the mode of the
    session and of its engine, and the other sessions stay as they are;
    from then on the permission mediator decides by it: for a tool other
    than [ExitPlanMode] it answers [allow] without a question to the host
    exactly when the new mode is [bypassPermissions], or [acceptEdits] and
    the tool is an edit tool, and asks the host otherwise. *)
Theorem setSessionMode_then_canUseTool (sessionId modeId : string) (a : Agent)
    (session : Session) (toolName : string) (toolInput : Json)
    (suggestions : option (list PermissionUpdate)) (toolUseID : string) :
  sessions a !! sessionId = Some session ->
  knownMode modeId = true ->
  toolName <> "ExitPlanMode"%string ->
  exists a',
    setSessionMode sessionId modeId None a = (Returned tt, a') /\
    (exists session',
        sessions a' !! sessionId = Some session' /\
        permissionMode session' = modeId /\
        queryPermissionMode <$> query session' = (fun _ => modeId) <$> query session) /\
    (forall other, other <> sessionId -> sessions a' !! other = sessions a !! other) /\
    (if String.eqb modeId "bypassPermissions"
        || (String.eqb modeId "acceptEdits" && isEditTool toolName)
     then canUseTool sessionId a' toolName toolInput suggestions toolUseID
          = Ret (allow toolInput
                   (Some (default [addRules [toolName] "allow"%string "session"%string]
                            suggestions)), a')
     else exists k,
         canUseTool sessionId a' toolName toolInput suggestions toolUseID
         = requestPermission
             (permissionRequest toolOptions sessionId toolName toolInput toolUseID a') k).
Proof.
  intros Hsession Hknown Hordinary.
  assert (Hcall : exists session',
    setSessionMode sessionId modeId None a
    = (Returned tt, withSessions (insert sessionId session') a) /\
    permissionMode session' = modeId /\
    queryPermissionMode <$> query session' = (fun _ => modeId) <$> query session).
  { unfold setSessionMode. rewrite Hsession, Hknown.
    destruct (query session) as [q|] eqn:Hquery; eexists; (split; [reflexivity |]);
      cbn; rewrite ?Hquery; auto. }
  destruct Hcall as (session' & Hcall & Hmode & Hengine).
  eexists. split; [exact Hcall |].
  split; [exists session'; cbn; rewrite lookup_insert_eq; auto |].
  split; [intros other Hother; cbn; apply lookup_insert_ne; congruence |].
  unfold canUseTool. cbn [withSessions sessions]. rewrite lookup_insert_eq.
  destruct (String.eqb_spec toolName "ExitPlanMode"); [contradiction |].
  rewrite Hmode.
  destruct (String.eqb modeId "bypassPermissions"
            || String.eqb modeId "acceptEdits" && isEditTool toolName);
    [reflexivity | eexists; reflexivity].
Qed.

(** X18: A mode that the engine rejects is the mode of the session all the
    same: the call throws, and the session already has the new mode while
    its engine keeps the old one. For [bypassPermissions] this means that
    the mediator allows every tool other than [ExitPlanMode] without a
    question to the host, although the engine has refused the mode. *)
Theorem setSessionMode_rejected_mode_stays (sessionId modeId : string)
    (e : option string) (a : Agent) (session : Session) (q : Query) :
  sessions a !! sessionId = Some session ->
  query session = Some q ->
  knownMode modeId = true ->
  exists message a' session',
    setSessionMode sessionId modeId (Some e) a = (Threw (Error message), a') /\
    sessions a' !! sessionId = Some session' /\
    permissionMode session' = modeId /\
    query session' = Some q /\
    (modeId = "bypassPermissions"%string ->
     forall toolName toolInput suggestions toolUseID,
       toolName <> "ExitPlanMode"%string ->
       canUseTool sessionId a' toolName toolInput suggestions toolUseID
       = Ret (allow toolInput
                (Some (default [addRules [toolName] "allow"%string "session"%string]
                         suggestions)), a')).
Proof.
  intros Hsession Hquery Hknown.
  unfold setSessionMode. rewrite Hsession, Hknown, Hquery.
  eexists _, _, _. split; [reflexivity |].
  cbn [withSessions sessions]. rewrite lookup_insert_eq.
  split; [reflexivity |]. split; [reflexivity |]. split; [exact Hquery |].
  intros -> toolName toolInput suggestions toolUseID Hordinary.
  unfold canUseTool. cbn [withSessions sessions]. rewrite lookup_insert_eq.
  destruct (String.eqb_spec toolName "ExitPlanMode"); [contradiction |].
  reflexivity.
Qed.

(** X19: Leaving plan mode is always put to the host, whatever the mode of the
    session is. When the host selects [default] or [acceptEdits], that
    becomes the mode of the session, the host is told so, and the answer
    is [allow]; every other answer is a [deny] with the interrupt flag,
    and the agent is as before. *)
Theorem canUseTool_exit_plan_mode (sessionId : string) (a : Agent) (session : Session)
    (toolInput : Json) (suggestions : option (list PermissionUpdate))
    (toolUseID : string) :
  sessions a !! sessionId = Some session ->
  exists k,
    canUseTool sessionId a "ExitPlanMode" toolInput suggestions toolUseID
    = requestPermission
        (permissionRequest exitPlanModeOptions sessionId "ExitPlanMode" toolInput
           toolUseID a) k /\
    (forall choice,
        choice = "default"%string \/ choice = "acceptEdits"%string ->
        exists a',
          k (Some (selected choice))
          = sessionUpdate
              {| AcpAgent.sessionId := sessionId; update := current_mode_update choice |}
              (Ret (allow toolInput
                      (Some (default [setMode choice "session"%string] suggestions)), a')) /\
          sessions a' !! sessionId = Some (setPermissionMode choice session) /\
          (forall other, other <> sessionId -> sessions a' !! other = sessions a !! other)) /\
    (forall response : RequestPermissionResponse,
        (forall choice, response = Some (selected choice) ->
                        choice <> "default"%string /\ choice <> "acceptEdits"%string) ->
        k response
        = Ret (deny "User rejected request to exit plan mode." true, a)).
Proof.
  intros Hsession. unfold canUseTool. rewrite Hsession. cbn [String.eqb].
  change (String.eqb "ExitPlanMode" "ExitPlanMode") with true. cbn iota.
  eexists. split; [reflexivity |]. split.
  - intros choice Hchoice. eexists.
    split; [destruct Hchoice as [-> | ->]; reflexivity |].
    cbn [withSessions sessions]. split; [apply lookup_insert_eq |].
    intros other Hother. apply lookup_insert_ne. congruence.
  - intros [[|choice]|] Hrejected; [reflexivity | | reflexivity].
    destruct (Hrejected choice eq_refl) as [Hdefault Hedits].
    destruct (String.eqb_spec choice "default"); [contradiction |].
    destruct (String.eqb_spec choice "acceptEdits"); [contradiction |].
    reflexivity.
Qed.

End WithTools.

Lemma setSessionMode_then_canUseTool_witness :
  exists a',
    setSessionMode "s1" "acceptEdits" None (agentWith "default") = (Returned tt, a') /\
    (exists session',
        sessions a' !! "s1" = Some session' /\
        permissionMode session' = "acceptEdits"%string /\
        queryPermissionMode <$> query session'
        = (fun _ => "acceptEdits"%string) <$> query (sampleSession "default")) /\
    (forall other, other <> "s1"%string ->
                   sessions a' !! other = sessions (agentWith "default") !! other) /\
    (if String.eqb "acceptEdits" "bypassPermissions"
        || (String.eqb "acceptEdits" "acceptEdits"
            && isEditTool (H := sampleTools) "mcp__acp__Edit")
     then canUseTool (H := sampleTools) "s1" a' "mcp__acp__Edit" (JObject []) None "toolu_01"
          = Ret (allow (JObject [])
                   (Some (default [addRules ["mcp__acp__Edit"%string] "allow"%string
                                     "session"%string] None)), a')
     else exists k,
         canUseTool (H := sampleTools) "s1" a' "mcp__acp__Edit" (JObject []) None "toolu_01"
         = requestPermission
             (permissionRequest (H := sampleTools) toolOptions "s1" "mcp__acp__Edit"
                (JObject []) "toolu_01" a') k).
Proof.
  apply (setSessionMode_then_canUseTool (H := sampleTools) "s1" "acceptEdits"
           (agentWith "default") (sampleSession "default")).
  - vm_compute. reflexivity.
  - reflexivity.
  - discriminate.
Defined.

Lemma setSessionMode_rejected_witness :
  exists message a' session',
    setSessionMode "s1" "bypassPermissions" (Some (Some "not allowed as root"%string))
      (agentWith "default")
    = (Threw (Error message), a') /\
    sessions a' !! "s1" = Some session' /\
    permissionMode session' = "bypassPermissions"%string /\
    query session' = Some sampleQuery /\
    ("bypassPermissions"%string = "bypassPermissions"%string ->
     forall toolName toolInput suggestions toolUseID,
       toolName <> "ExitPlanMode"%string ->
       canUseTool (H := sampleTools) "s1" a' toolName toolInput suggestions toolUseID
       = Ret (allow toolInput
                (Some (default [addRules [toolName] "allow"%string "session"%string]
                         suggestions)), a')).
Proof.
  apply (setSessionMode_rejected_mode_stays (H := sampleTools) "s1" "bypassPermissions"
           (Some "not allowed as root"%string) (agentWith "default")
           (sampleSession "default") sampleQuery).
  - vm_compute. reflexivity.
  - reflexivity.
  - reflexivity.
Defined.

Lemma canUseTool_exit_plan_mode_witness :
  exists k,
    canUseTool (H := sampleTools) "s1" (agentWith "plan") "ExitPlanMode" (JObject []) None
      "toolu_01"
    = requestPermission
        (permissionRequest (H := sampleTools) exitPlanModeOptions "s1" "ExitPlanMode"
           (JObject []) "toolu_01" (agentWith "plan")) k /\
    (forall choice,
        choice = "default"%string \/ choice = "acceptEdits"%string ->
        exists a',
          k (Some (selected choice))
          = sessionUpdate
              {| AcpAgent.sessionId := "s1"; update := current_mode_update choice |}
              (Ret (allow (JObject [])
                      (Some (default [setMode choice "session"%string] None)), a')) /\
          sessions a' !! "s1" = Some (setPermissionMode choice (sampleSession "plan")) /\
          (forall other, other <> "s1"%string ->
                         sessions a' !! other = sessions (agentWith "plan") !! other)) /\
    (forall response : RequestPermissionResponse,
        (forall choice, response = Some (selected choice) ->
                        choice <> "default"%string /\ choice <> "acceptEdits"%string) ->
        k response
        = Ret (deny "User rejected request to exit plan mode." true, agentWith "plan")).
Proof.
  apply (canUseTool_exit_plan_mode (H := sampleTools) "s1" (agentWith "plan")
           (sampleSession "plan")).
  vm_compute. reflexivity.
Defined.

End AcpTurnProofs.

(** ** Streams of chunks *)

Module StreamProofs.
Import Js AcpAgent Stream.
#[local] Open Scope list_scope.

Section WithTools.
Context `{Tools}.

(** What a read of the cache finds is an entry or an inherited name. *)
Lemma toolUseCacheGet_found (cache : gmap string ToolUse) (key : string) :
  is_Some (toolUseCacheGet cache key) -> tracked cache [] key \/ inherited cache [] key.
Proof.
  unfold toolUseCacheGet, inherited, tracked.
  destruct (cache !! key) as [toolUse|]; [intros _; left; left; eauto |].
  destruct (cache !! "__proto__") as [prototype|] eqn:Hprototype.
  - destruct (String.eqb_spec key "type") as [-> | _];
      [intros _; right; right; split; [left; eauto | set_solver] |].
    destruct (String.eqb_spec key "id") as [-> | _];
      [intros _; right; right; split; [left; eauto | set_solver] |].
    destruct (String.eqb_spec key "name") as [-> | _];
      [intros _; right; right; split; [left; eauto | set_solver] |].
    destruct (String.eqb_spec key "input") as [-> | _];
      [intros _; right; right; split; [left; eauto | set_solver] |].
    destruct (Object_prototype key); [intros _; right; left; eauto |].
    intros [x Hx]. discriminate.
  - destruct (Object_prototype key); [intros _; right; left; eauto |].
    intros [x Hx]. discriminate.
Qed.

Lemma tracked_cons (cache : gmap string ToolUse) (chunk : Chunk) (rest : list Chunk)
    (key : string) :
  tracked match announcement chunk with
          | Some toolUse => <[id toolUse := toolUse]> cache
          | None => cache
          end rest key ->
  tracked cache (chunk :: rest) key.
Proof.
  unfold tracked. cbn [latestToolUse]. intros [Hin | Hin].
  - destruct (latestToolUse key rest); [right; eauto |].
    destruct (announcement chunk) as [toolUse|]; [| left; exact Hin].
    destruct (String.eqb_spec (id toolUse) key) as [<- | Hne].
    + right. eauto.
    + rewrite lookup_insert_ne in Hin by exact Hne. left. exact Hin.
  - right. destruct Hin as [toolUse ->]. eauto.
Qed.

Lemma tracked_before (cache : gmap string ToolUse) (chunks : list Chunk) (key : string) :
  tracked cache [] key -> tracked cache chunks key.
Proof. intros [Hin | [x Hx]]; [left; exact Hin | discriminate]. Qed.

Lemma inherited_cons (cache : gmap string ToolUse) (chunk : Chunk) (rest : list Chunk)
    (key : string) :
  inherited match announcement chunk with
            | Some toolUse => <[id toolUse := toolUse]> cache
            | None => cache
            end rest key ->
  inherited cache (chunk :: rest) key.
Proof.
  intros [Hmember | [Hprototype Hfield]]; [left; exact Hmember |].
  right. split; [apply tracked_cons, Hprototype | exact Hfield].
Qed.

Lemma inherited_before (cache : gmap string ToolUse) (chunks : list Chunk) (key : string) :
  inherited cache [] key -> inherited cache chunks key.
Proof.
  intros [Hmember | [Hprototype Hfield]]; [left; exact Hmember |].
  right. split; [apply tracked_before, Hprototype | exact Hfield].
Qed.

(** One chunk: the sessions stay, the cache gets the announced tool use
    and nothing else, the update is a [tool_call_update] only for an
    identifier that a read of the cache finds, and only a [TypeError] can
    be thrown. *)
Lemma translateChunk_effect (role : Role) (chunk : Chunk) (a : Agent) :
  let '(outcome, a') := translateChunk role chunk a in
  sessions a' = sessions a /\
  fileContentCache a' = fileContentCache a /\
  toolUseCache a'
  = match announcement chunk with
    | Some toolUse => <[id toolUse := toolUse]> (toolUseCache a)
    | None => toolUseCache a
    end /\
  (forall e, outcome = Threw e -> exists message, e = TypeError message) /\
  (forall toolCallId toolName status fields,
      outcome = Returned (Some (tool_call_update toolCallId toolName status fields)) ->
      is_Some (toolUseCacheGet (toolUseCache a) toolCallId)).
Proof.
  destruct chunk as [text | source | thinking | toolUse | result | t | json];
    cbn [translateChunk announcement].
  - repeat split; try discriminate. destruct role; discriminate.
  - repeat split; try discriminate. destruct role, source; discriminate.
  - repeat split; try discriminate.
  - destruct (String.eqb (name toolUse) "TodoWrite").
    + destruct (getProperty (input toolUse) "todos") as [[[| | | | |]|]|e] eqn:Hprop;
        repeat split; try discriminate.
      intros e' [= <-]. destruct (input toolUse); try discriminate.
      cbn in Hprop. injection Hprop as <-. eauto.
    + repeat split; try discriminate.
  - destruct (toolUseCacheGet (toolUseCache a) (tool_use_id result)) as [found|] eqn:Hfound;
      [| repeat split; discriminate].
    destruct (CacheValue_truthy (Some found)); [| repeat split; discriminate].
    destruct (notTodoWrite (CacheValue_name found)); [| repeat split; discriminate].
    repeat split; try discriminate.
    intros toolCallId toolName status fields [= <- _ _ _]. rewrite Hfound. eauto.
  - repeat split; try discriminate.
  - repeat split; try discriminate.
Qed.

Lemma latestToolUse_cons (toolUseId : string) (chunk : Chunk) (rest : list Chunk)
    (cache : gmap string ToolUse) :
  match latestToolUse toolUseId (chunk :: rest) with
  | Some toolUse => Some toolUse
  | None => cache !! toolUseId
  end
  = match latestToolUse toolUseId rest with
    | Some toolUse => Some toolUse
    | None =>
        match announcement chunk with
        | Some toolUse => <[id toolUse := toolUse]> cache
        | None => cache
        end !! toolUseId
    end.
Proof.
  cbn [latestToolUse]. destruct (latestToolUse toolUseId rest); [reflexivity |].
  destruct (announcement chunk) as [toolUse|]; [| reflexivity].
  destruct (String.eqb_spec (id toolUse) toolUseId) as [<- | Hne].
  - rewrite lookup_insert_eq. reflexivity.
  - rewrite lookup_insert_ne by exact Hne. reflexivity.
Qed.

Lemma cache_grows (chunk : Chunk) (cache : gmap string ToolUse) (toolUseId : string) :
  is_Some (cache !! toolUseId) ->
  is_Some (match announcement chunk with
           | Some toolUse => <[id toolUse := toolUse]> cache
           | None => cache
           end !! toolUseId).
Proof.
  intros Hin. destruct (announcement chunk) as [toolUse|]; [| exact Hin].
  destruct (decide (id toolUse = toolUseId)) as [<- | Hne].
  - rewrite lookup_insert_eq. eauto.
  - rewrite lookup_insert_ne by exact Hne. exact Hin.
Qed.

(** A stream of chunks, from any agent and any output collected so far. *)
Lemma translateChunks_effect (role : Role) (session : string) (chunks : list Chunk) :
  forall (a : Agent) (output : list SessionNotification),
    let '(outcome, a') := translateChunks role session chunks a output in
    sessions a' = sessions a /\
    fileContentCache a' = fileContentCache a /\
    (forall toolUseId, is_Some (toolUseCache a !! toolUseId) ->
                       is_Some (toolUseCache a' !! toolUseId)) /\
    (forall e, outcome = Threw e -> exists message, e = TypeError message) /\
    (forall output',
        outcome = Returned output' ->
        (forall toolUseId,
            toolUseCache a' !! toolUseId
            = match latestToolUse toolUseId chunks with
              | Some toolUse => Some toolUse
              | None => toolUseCache a !! toolUseId
              end) /\
        exists new,
          output' = output ++ new /\
          length new <= length chunks /\
          Forall (fun notification => sessionId notification = session) new /\
          Forall (fun notification =>
                    forall toolUseId,
                      updatedToolCall notification = Some toolUseId ->
                      tracked (toolUseCache a) chunks toolUseId \/
                      inherited (toolUseCache a) chunks toolUseId) new).
Proof.
  induction chunks as [|chunk rest IH]; intros a output.
  - cbn [translateChunks].
    split; [reflexivity |]. split; [reflexivity |]. split; [auto |].
    split; [discriminate |].
    intros output' [= <-]. split; [reflexivity |].
    exists []. rewrite app_nil_r.
    split; [reflexivity |]. split; [cbn; lia |]. split; constructor.
  - cbn [translateChunks].
    pose proof (translateChunk_effect role chunk a) as Hchunk.
    assert (Hlater : forall (a1 : Agent) (new : list SessionNotification),
      toolUseCache a1
      = match announcement chunk with
        | Some toolUse => <[id toolUse := toolUse]> (toolUseCache a)
        | None => toolUseCache a
        end ->
      Forall (fun notification =>
                forall toolUseId,
                  updatedToolCall notification = Some toolUseId ->
                  tracked (toolUseCache a1) rest toolUseId \/
                  inherited (toolUseCache a1) rest toolUseId) new ->
      Forall (fun notification =>
                forall toolUseId,
                  updatedToolCall notification = Some toolUseId ->
                  tracked (toolUseCache a) (chunk :: rest) toolUseId \/
                  inherited (toolUseCache a) (chunk :: rest) toolUseId) new).
    { intros a1 new Hc1 Htracked. eapply Forall_impl; [exact Htracked |].
      intros notification Hn toolUseId Hupdated. rewrite Hc1 in Hn.
      destruct (Hn toolUseId Hupdated) as [Hin | Hin];
        [left; apply tracked_cons, Hin | right; apply inherited_cons, Hin]. }
    destruct (translateChunk role chunk a) as [[[u|]|e] a1].
    + destruct Hchunk as (Hs1 & Hf1 & Hc1 & _ & Hupd1).
      specialize (IH a1 (output ++ [ {| sessionId := session; update := u |} ])).
      destruct (translateChunks role session rest a1 _) as [outcome a'].
      destruct IH as (Hs & Hf & Hmono & Hthrow & Hret).
      split; [congruence |]. split; [congruence |]. split; [| split; [exact Hthrow |]].
      * intros toolUseId Hin. apply Hmono. rewrite Hc1. apply cache_grows, Hin.
      * intros output' Hout.
        destruct (Hret output' Hout) as (Hcache & new & -> & Hlen & Hsid & Htracked).
        split.
        -- intros toolUseId. rewrite Hcache, Hc1. symmetry. apply latestToolUse_cons.
        -- exists ({| sessionId := session; update := u |} :: new).
           rewrite <- app_assoc. split; [reflexivity |]. split; [cbn; lia |].
           split; [constructor; [reflexivity | exact Hsid] |].
           constructor; [| exact (Hlater a1 new Hc1 Htracked)].
           intros toolUseId Hupdated.
           unfold updatedToolCall in Hupdated. cbn [update] in Hupdated.
           destruct u; try discriminate. injection Hupdated as ->.
           destruct (toolUseCacheGet_found _ _ (Hupd1 _ _ _ _ eq_refl)) as [Hin | Hin];
             [left; apply tracked_before, Hin | right; apply inherited_before, Hin].
    + destruct Hchunk as (Hs1 & Hf1 & Hc1 & _ & _).
      specialize (IH a1 output).
      destruct (translateChunks role session rest a1 output) as [outcome a'].
      destruct IH as (Hs & Hf & Hmono & Hthrow & Hret).
      split; [congruence |]. split; [congruence |]. split; [| split; [exact Hthrow |]].
      * intros toolUseId Hin. apply Hmono. rewrite Hc1. apply cache_grows, Hin.
      * intros output' Hout.
        destruct (Hret output' Hout) as (Hcache & new & -> & Hlen & Hsid & Htracked).
        split.
        -- intros toolUseId. rewrite Hcache, Hc1. symmetry. apply latestToolUse_cons.
        -- exists new. split; [reflexivity |]. split; [cbn; lia |].
           split; [exact Hsid | exact (Hlater a1 new Hc1 Htracked)].
    + destruct Hchunk as (Hs1 & Hf1 & Hc1 & Hthrow & _).
      split; [exact Hs1 |]. split; [exact Hf1 |]. split; [| split].
      * intros toolUseId Hin. rewrite Hc1. apply cache_grows, Hin.
      * intros e' [= <-]. apply Hthrow. reflexivity.
      * discriminate.
Qed.

(** X21: Translation only adds to the cache, also when it throws; and after a
    stream that was translated to its end, an identifier is mapped to the
    latest tool use the stream announced under it, or to what it was
    mapped to before when the stream announced none. *)
Theorem stream_cache_latest (role : Role) (session : string) (chunks : list Chunk)
    (a : Agent) :
  let '(outcome, a') := toAcpNotifications (inr chunks) role session a in
  (forall toolUseId, is_Some (toolUseCache a !! toolUseId) ->
                     is_Some (toolUseCache a' !! toolUseId)) /\
  (forall output toolUseId,
      outcome = Returned output ->
      toolUseCache a' !! toolUseId
      = match latestToolUse toolUseId chunks with
        | Some toolUse => Some toolUse
        | None => toolUseCache a !! toolUseId
        end).
Proof.
  unfold toAcpNotifications.
  pose proof (translateChunks_effect role session chunks a []) as Heffect.
  destruct (translateChunks role session chunks a []) as [outcome a'].
  destruct Heffect as (_ & _ & Hmono & _ & Hret).
  split; [exact Hmono |].
  intros output toolUseId Hout. destruct (Hret output Hout) as [Hcache _]. apply Hcache.
Qed.

(** X22: A stream of chunks yields at most one notification for each chunk,
    every one for the session of the call, and the only error it can throw
    is a [TypeError]. *)
Theorem stream_one_notification_per_chunk (role : Role) (session : string)
    (chunks : list Chunk) (a : Agent) :
  match fst (toAcpNotifications (inr chunks) role session a) with
  | Returned output =>
      length output <= length chunks /\
      Forall (fun notification => sessionId notification = session) output
  | Threw e => exists message, e = TypeError message
  end.
Proof.
  unfold toAcpNotifications.
  pose proof (translateChunks_effect role session chunks a []) as Heffect.
  destruct (translateChunks role session chunks a []) as [[output | e] a']; cbn [fst].
  - destruct Heffect as (_ & _ & _ & _ & Hret).
    destruct (Hret output eq_refl) as (_ & new & -> & Hlen & Hsid & _).
    cbn [app]. auto.
  - destruct Heffect as (_ & _ & _ & Hthrow & _). apply Hthrow. reflexivity.
Qed.


End WithTools.

End StreamProofs.

(** ** The turn *)

Module PromptProofs.
Import Js AcpAgent AcpTurn Stream.
#[local] Open Scope list_scope.

Lemma handleResult_sessions (message : ResultMessage) (a : Agent)
    (m : Credentials.Machine) :
  sessions (snd (fst (handleResult message a m))) = sessions a.
Proof.
  unfold handleResult.
  destruct (subtype message);
    repeat match goal with
           | |- context [if ?b then _ else _] => destruct b
           end; reflexivity.
Qed.

(** X24: What [handleResult] does with a result message: an error result never
    gives a stop reason; [end_turn] comes only from a [success] or an
    [error_during_execution] that is no error, [max_turn_requests] only
    from one of the three limit subtypes; and the stored key is cleared
    only together with the authorization-required error, for an error
    result. *)
Theorem handleResult_outcomes (message : ResultMessage) (a : Agent)
    (m : Credentials.Machine) :
  let '(stop, a', m') := handleResult message a m in
  sessions a' = sessions a /\
  (is_error message = true -> forall reason, stop <> Some (Returned reason)) /\
  (stop = Some (Returned end_turn) ->
   subtype message = success \/ subtype message = error_during_execution) /\
  (stop = Some (Returned max_turn_requests) ->
   subtype message = error_max_budget_usd \/ subtype message = error_max_turns \/
   subtype message = error_max_structured_output_retries) /\
  stop <> Some (Returned stop_cancelled) /\
  (m' = m \/
   (m' = Credentials.clearApiKey m /\ stop = Some (Threw authRequired) /\
    is_error message = true)).
Proof.
  unfold handleResult.
  destruct (subtype message) eqn:Hsubtype.
  - destruct (includes (result message) "Please run /login");
      [repeat split; auto; try discriminate; intros; discriminate |].
    destruct (is_error message) eqn:Herror.
    + destruct (isAuthError (result message));
        repeat split; auto; try discriminate; intros; discriminate.
    + repeat split; auto; try discriminate.
  - destruct (is_error message) eqn:Herror.
    + destruct (isAuthError _);
        repeat split; auto; try discriminate; intros; discriminate.
    + repeat split; auto; try discriminate.
  - destruct (is_error message) eqn:Herror;
      repeat split; auto; try discriminate; intros; discriminate.
  - destruct (is_error message) eqn:Herror;
      repeat split; auto; try discriminate; intros; discriminate.
  - destruct (is_error message) eqn:Herror;
      repeat split; auto; try discriminate; intros; discriminate.
  - repeat split; auto; try discriminate; intros; discriminate.
Qed.

Section WithTools.
Context `{Tools}.

Lemma toAcpNotifications_effect (content : string + list Chunk) (role : Role)
    (session : string) (a : Agent) :
  let '(outcome, a') := toAcpNotifications content role session a in
  sessions a' = sessions a /\
  (forall e, outcome = Threw e -> exists message, e = TypeError message).
Proof.
  destruct content as [text | chunks]; cbn [toAcpNotifications].
  - split; [reflexivity | discriminate].
  - pose proof (StreamProofs.translateChunks_effect role session chunks a []) as Heffect.
    destruct (translateChunks role session chunks a []) as [outcome a'].
    destruct Heffect as (Hsessions & _ & _ & Hthrow & _). auto.
Qed.

(** One round of the loop: the sessions stay; a message that is no result
    message stops the turn only by throwing; and for a cancelled session
    the round goes on, or ends the turn as cancelled, or throws a
    [TypeError]. *)
Lemma handleMessage_effect (message : SDKMessage) (session : string) (a : Agent)
    (m : Credentials.Machine) :
  let '(stop, a', m', sent) := handleMessage message session a m in
  sessions a' = sessions a /\
  ((forall r, message <> result_message r) ->
   forall outcome, stop = Some outcome -> exists e, outcome = Threw e) /\
  (isCancelled a session = true ->
   stop = None \/ stop = Some (Returned stop_cancelled) \/
   exists text, stop = Some (Threw (TypeError text))).
Proof.
  destruct message as [sub | r | event | content | model content | | | json];
    cbn [handleMessage].
  - destruct sub; repeat split; auto; discriminate.
  - destruct (isCancelled a session) eqn:Hcancelled.
    + repeat split; auto. intros Hno. exfalso. apply (Hno r). reflexivity.
    + pose proof (handleResult_sessions r a m) as Hsessions.
      destruct (handleResult r a m) as [[stop a'] m']. cbn [fst snd] in Hsessions.
      split; [exact Hsessions |]. split; [| discriminate].
      intros Hno. exfalso. apply (Hno r). reflexivity.
  - assert (Hstream :
      let '(outcome, a') := streamEventToAcpNotifications event session a in
      sessions a' = sessions a /\
      (forall e, outcome = Threw e -> exists text, e = TypeError text)).
    { destruct event; cbn [streamEventToAcpNotifications];
        try apply toAcpNotifications_effect; split; (reflexivity || discriminate). }
    destruct (streamEventToAcpNotifications event session a) as [[sent | e] a'].
    + destruct Hstream as [Hsessions _]. repeat split; auto; discriminate.
    + destruct Hstream as [Hsessions Hthrow].
      destruct (Hthrow e eq_refl) as [text ->].
      split; [exact Hsessions |]. split.
      * intros _ outcome [= <-]. eauto.
      * intros _. right. right. eauto.
  - destruct (isCancelled a session) eqn:Hcancelled; [repeat split; auto; discriminate |].
    assert (Hconversation :
      let '(stop, a', sent) := handleConversation user "" content session a in
      sessions a' = sessions a /\
      forall outcome, stop = Some outcome -> exists e, outcome = Threw e).
    { unfold handleConversation. destruct content as [text | blocks].
      - destruct (includes text "<local-command-stdout>"); [split; [reflexivity | discriminate] |].
        destruct (includes text "<local-command-stderr>"); split; (reflexivity || discriminate).
      - destruct blocks as [|[] []]; try (split; [reflexivity | discriminate]);
          match goal with
          | |- context [toAcpNotifications ?c ?r ?s ?x] =>
              pose proof (toAcpNotifications_effect c r s x) as Heffect;
              destruct (toAcpNotifications c r s x) as [[sent | e] a'];
              destruct Heffect as [Hsessions Hthrow];
              (split; [exact Hsessions |]); [discriminate | intros outcome [= <-]; eauto]
          end. }
    destruct (handleConversation user "" content session a) as [[stop a'] sent].
    destruct Hconversation as [Hsessions Hstop].
    split; [exact Hsessions |]. split; [intros _; exact Hstop | discriminate].
  - destruct (isCancelled a session) eqn:Hcancelled; [repeat split; auto; discriminate |].
    assert (Hconversation :
      let '(stop, a', sent) := handleConversation assistant model content session a in
      sessions a' = sessions a /\
      forall outcome, stop = Some outcome -> exists e, outcome = Threw e).
    { unfold handleConversation. destruct content as [text | blocks].
      - destruct (includes text "<local-command-stdout>"); [split; [reflexivity | discriminate] |].
        destruct (includes text "<local-command-stderr>"); [split; [reflexivity | discriminate] |].
        split; [reflexivity |]. intros outcome [= <-]. eauto.
      - match goal with
        | |- context [if ?login then _ else _] =>
            destruct login; [split; [reflexivity |]; intros outcome [= <-]; eauto |]
        end.
        match goal with
        | |- context [toAcpNotifications ?c ?r ?s ?x] =>
            pose proof (toAcpNotifications_effect c r s x) as Heffect;
            destruct (toAcpNotifications c r s x) as [[sent | e] a'];
            destruct Heffect as [Hsessions Hthrow];
            (split; [exact Hsessions |]); [discriminate | intros outcome [= <-]; eauto]
        end. }
    destruct (handleConversation assistant model content session a) as [[stop a'] sent].
    destruct Hconversation as [Hsessions Hstop].
    split; [exact Hsessions |]. split; [intros _; exact Hstop | discriminate].
  - repeat split; auto; discriminate.
  - repeat split; auto; discriminate.
  - repeat split; auto; discriminate.
Qed.



Lemma isCancelled_sessions (session : string) (a a' : Agent) :
  sessions a' = sessions a -> isCancelled a' session = isCancelled a session.
Proof. unfold isCancelled. intros ->. reflexivity. Qed.



(** X26: A turn that is not cancelled and whose stream ends without a result
    message does not return: it throws (at the latest, when the stream is
    done, the error that the session did not end in a result). *)
Theorem turn_without_result_throws (session : string) (events : list TurnEvent) :
  forall (a : Agent) (m : Credentials.Machine) (sent : list SessionNotification),
    isCancelled a session = false ->
    Forall noResult events ->
    let '(outcome, _, _, _) := promptLoop session events a m sent in
    exists e, outcome = Threw e.
Proof.
  induction events as [|event events IH]; intros a m sent Hcancelled Hevents;
    cbn [promptLoop].
  - rewrite Hcancelled. eauto.
  - inversion Hevents as [|? ? Hevent Hrest]; subst.
    destruct event as [message|]; [| contradiction].
    pose proof (handleMessage_effect message session a m) as Heffect.
    destruct (handleMessage message session a m) as [[[stop a'] m'] notifications].
    destruct Heffect as (Hsessions & Hstop & _).
    assert (Hno : forall r, message <> result_message r).
    { intros r ->. exact Hevent. }
    destruct stop as [outcome|].
    + destruct (Hstop Hno outcome eq_refl) as [e ->]. eauto.
    + apply IH; [| exact Hrest].
      rewrite (isCancelled_sessions _ _ _ Hsessions). exact Hcancelled.
Qed.

Lemma usable_sessions (a a' : Agent) :
  sessions a' = sessions a -> usable a -> usable a'.
Proof. unfold usable. intros ->. auto. Qed.

Lemma usable_insert (sessionId : string) (session : Session) (a : Agent) :
  usableSession session -> usable a -> usable (withSessions (insert sessionId session) a).
Proof.
  intros Hsession Ha other s. cbn [withSessions sessions].
  destruct (decide (sessionId = other)) as [-> | Hne].
  - rewrite lookup_insert_eq. intros [= <-]. exact Hsession.
  - rewrite lookup_insert_ne by exact Hne. apply Ha.
Qed.

Lemma cancel_usable (session : string) (a : Agent) :
  usable a -> usable (snd (cancel session a)).
Proof.
  intros Ha. unfold cancel. destruct (sessions a !! session) as [s|] eqn:Hs; [| exact Ha].
  cbn [snd]. apply usable_insert; [| exact Ha].
  destruct (Ha _ _ Hs) as [Hauth [q Hq]]. rewrite Hq. split; [exact Hauth | eauto].
Qed.

Lemma promptLoop_usable (session : string) (events : list TurnEvent) :
  forall (a : Agent) (m : Credentials.Machine) (sent : list SessionNotification),
    usable a -> usable (snd (fst (fst (promptLoop session events a m sent)))).
Proof.
  induction events as [|[message|] events IH]; intros a m sent Ha; cbn [promptLoop].
  - destruct (isCancelled a session); exact Ha.
  - pose proof (handleMessage_effect message session a m) as Heffect.
    destruct (handleMessage message session a m) as [[[[outcome|] a'] m'] notifications];
      destruct Heffect as (Hsessions & _).
    + cbn [fst snd]. exact (usable_sessions _ _ Hsessions Ha).
    + apply IH. exact (usable_sessions _ _ Hsessions Ha).
  - apply IH, cancel_usable, Ha.
Qed.

Lemma endsWith_canUseTool_usable (sessionId : string) (a : Agent) (toolName : string)
    (toolInput : Json) (suggestions : option (list PermissionUpdate)) (toolUseID : string)
    (answer : PermissionResult) (a' : Agent) :
  usable a ->
  endsWith (canUseTool sessionId a toolName toolInput suggestions toolUseID) (answer, a') ->
  usable a'.
Proof.
  intros Ha. unfold canUseTool.
  destruct (sessions a !! sessionId) as [s|] eqn:Hs.
  - destruct (String.eqb toolName "ExitPlanMode").
    + intros Hends. inversion Hends as [| ? ? response ? Hk |]; subst.
      destruct response as [[|choice]|].
      * inversion Hk; subst. exact Ha.
      * destruct (String.eqb choice "default" || String.eqb choice "acceptEdits").
        -- inversion Hk as [| | ? ? ? Hret]; subst. inversion Hret; subst.
           apply usable_insert; [| exact Ha]. exact (Ha _ _ Hs).
        -- inversion Hk; subst. exact Ha.
      * inversion Hk; subst. exact Ha.
    + destruct (String.eqb (permissionMode s) "bypassPermissions"
                || String.eqb (permissionMode s) "acceptEdits" && isEditTool toolName).
      * intros Hends. inversion Hends; subst. exact Ha.
      * intros Hends. inversion Hends as [| ? ? response ? Hk |]; subst.
        destruct response as [[|choice]|].
        -- inversion Hk; subst. exact Ha.
        -- destruct (String.eqb choice "allow" || String.eqb choice "allow_always");
             [destruct (String.eqb choice "allow_always") |]; inversion Hk; subst; exact Ha.
        -- inversion Hk; subst. exact Ha.
  - intros Hends. inversion Hends; subst. exact Ha.
Qed.

End WithTools.

Section Reachable.
Context `{Engine} `{Tools}.
Variable noticeText : Notice -> string.

Lemma newSession_usable (params : NewSessionRequest) (uuid : string) (sys : System)
    (a : Agent) :
  usable a -> usable (snd (newSession params uuid sys a)).
Proof.
  intros Ha. unfold newSession.
  destruct (authMissing sys); [exact Ha |].
  destruct (settingsManagerInitialize params); [exact Ha |].
  destruct (aborted params); [exact Ha |].
  destruct (createQuery params uuid) as [q | e]; [| exact Ha].
  assert (Hfirst : usable
    (withSessions
       (insert uuid {| query := Some q; cancelled := false; permissionMode := "default";
                       isAuthRequired := false; sessionParams := params |})
       (logger (log "Creating query with cwd:")
          (logger (log "newSession called with params:") a)))).
  { apply usable_insert; [split; [reflexivity | eauto] | exact Ha]. }
  destruct (getAvailableSlashCommands q) as [commands | e]; [| exact Hfirst].
  destruct (getAvailableModels (processEnv sys) q) as [[models | e] q'];
    cbn [snd]; (apply usable_insert; [split; [reflexivity | cbn; eauto] | exact Hfirst]).
Qed.

Lemma setSessionModel_usable (sessionId modelId : string) (answer : ModelAnswer)
    (env : gmap string string) (a : Agent) :
  usable a -> usable (snd (setSessionModel sessionId modelId answer env a)).
Proof.
  intros Ha. unfold setSessionModel.
  destruct (sessions a !! sessionId) as [s|] eqn:Hs;
    [| destruct (Object_prototype sessionId); exact Ha].
  destruct (query s) as [q|]; [| exact Ha].
  destruct (Ha _ _ Hs) as [Hauth _].
  destruct answer as [| e | e]; [| exact Ha |].
  - destruct (isOpusModel modelId); cbn [snd]; unfold logger;
      (eapply usable_sessions; [reflexivity |]);
      apply usable_insert; try exact Ha; split; cbn; eauto.
  - cbn [snd]. apply usable_insert; [split; cbn; eauto | exact Ha].
Qed.

Lemma setSessionMode_usable (sessionId modeId : string) (rejection : option (option string))
    (a : Agent) :
  usable a -> usable (snd (setSessionMode sessionId modeId rejection a)).
Proof.
  intros Ha. unfold setSessionMode.
  destruct (sessions a !! sessionId) as [s|] eqn:Hs; [| exact Ha].
  destruct (knownMode modeId); [| exact Ha].
  destruct (Ha _ _ Hs) as [Hauth [q Hq]]. rewrite Hq.
  destruct rejection; cbn [snd]; apply usable_insert; try exact Ha; split; cbn; eauto.
Qed.

Lemma prompt_usable (session : string) (events : list TurnEvent)
    (terminal : option (gmap string Utils.ManagedSettings)) (a : Agent)
    (m : Credentials.Machine) :
  usable a -> usable (snd (fst (fst (prompt noticeText session events terminal a m)))).
Proof.
  intros Ha. unfold prompt.
  destruct (sessions a !! session) as [s|] eqn:Hs; [| exact Ha].
  destruct (Ha _ _ Hs) as [Hauth [q Hq]].
  cbn [setCancelled isAuthRequired query]. rewrite Hauth, Hq.
  apply promptLoop_usable, usable_insert; [| exact Ha].
  split; cbn; eauto.
Qed.

Lemma reachable_is_usable (a : Agent) : reachable noticeText a -> usable a.
Proof.
  induction 1 as [| a line _ IH | a sessionId session q q' _ IH Hsession Hquery
                  | a params uuid sys _ IH | a params uuid sys _ IH
                  | a params uuid sys _ IH | a sessionId modelId answer env _ IH
                  | a sessionId modeId rejection _ IH | a sessionId _ IH
                  | a sessionId toolName toolInput suggestions toolUseID answer a' _ IH Hends
                  | a request _ IH | a sessionId events terminal m _ IH].
  - intros sessionId session Hlookup. cbn in Hlookup. rewrite lookup_empty in Hlookup.
    discriminate.
  - exact (usable_sessions a _ eq_refl IH).
  - apply usable_insert; [| exact IH].
    destruct (IH _ _ Hsession) as [Hauth _]. split; [exact Hauth | cbn; eauto].
  - apply newSession_usable, IH.
  - apply newSession_usable. exact (usable_sessions a _ eq_refl IH).
  - apply newSession_usable. exact (usable_sessions a _ eq_refl IH).
  - apply setSessionModel_usable, IH.
  - apply setSessionMode_usable, IH.
  - apply cancel_usable, IH.
  - exact (endsWith_canUseTool_usable _ _ _ _ _ _ _ _ IH Hends).
  - apply (usable_sessions a); [| exact IH]. destruct request; [| reflexivity].
    cbn [serve]. unfold readTextFile.
    destruct (absentOrZero (limit params) && absentOrZero (line params)); reflexivity.
  - apply prompt_usable, IH.
Qed.

(** X27: Every session of an agent that the operations can bring about has
    its engine and does not wait for an API key: [newSession] registers
    no other session, and no operation takes the engine away. *)
Theorem reachable_sessions_usable (a : Agent) (sessionId : string) (session : Session) :
  reachable noticeText a ->
  sessions a !! sessionId = Some session ->
  isAuthRequired session = false /\ exists q, query session = Some q.
Proof.
  intros Hreach Hs. exact (reachable_is_usable a Hreach _ _ Hs).
Qed.

(** X28: On such an agent a prompt for a registered session is the loop of the
    turn, run with the cancellation flag of the session reset: the key
    set-up and the request to restart the session are never shown. *)
Theorem prompt_runs_the_turn (session : string) (events : list TurnEvent)
    (terminal : option (gmap string Utils.ManagedSettings)) (a : Agent)
    (m : Credentials.Machine) (s : Session) :
  reachable noticeText a ->
  sessions a !! session = Some s ->
  prompt noticeText session events terminal a m
  = promptLoop session events (withSessions (insert session (setCancelled false s)) a) m [].
Proof.
  intros Hreach Hs. destruct (reachable_is_usable a Hreach _ _ Hs) as [Hauth [q Hq]].
  unfold prompt. rewrite Hs. cbn [setCancelled isAuthRequired query].
  rewrite Hauth, Hq. reflexivity.
Qed.

(** X16: A call of [newSession] that gets its engine registers the session
    under the fresh identifier, in mode [default], not cancelled, and
    leaves the other sessions alone, whether it returns or throws
    afterwards. It returns exactly when the engine answers
    [supportedCommands] and [supportedModels], lists a model and accepts
    the calls that make the first model current: then that model is the
    current one, of the session's engine too, and is not among the
    available ones. When it throws, the error is the one of the engine
    call that was rejected, or a [TypeError] when no model is listed. *)
Theorem newSession_registers (params : NewSessionRequest) (uuid : string) (sys : System)
    (a : Agent) (q : Query) :
  authMissing sys = false ->
  settingsManagerInitialize params = None ->
  aborted params = false ->
  createQuery params uuid = Returned q ->
  let '(outcome, a') := newSession params uuid sys a in
  (exists session q',
      sessions a' !! uuid = Some session /\ query session = Some q' /\
      permissionMode session = "default"%string /\ cancelled session = false /\
      isAuthRequired session = false /\ sessionParams session = params /\
      match outcome with
      | Returned response =>
          exists commands first others,
            supportedCommands q = Returned commands /\
            supportedModels q = Returned (first :: others) /\
            (modelAnswer q (value first) = bothAccepted \/
             isOpusModel (value first) = false /\
             exists e, modelAnswer q (value first) = setMaxThinkingTokensRejected e) /\
            model q' = Some (value first) /\
            newSessionId response = uuid /\
            currentModeId response = "default"%string /\
            currentModelId (models response) = value first /\
            forall m, In m (availableModels (models response)) <->
                      In m (first :: others) /\ value m <> value first
      | Threw e =>
          supportedCommands q = Threw e \/
          (exists commands, supportedCommands q = Returned commands) /\
          (supportedModels q = Threw e \/
           (supportedModels q = Returned [] /\ exists text, e = TypeError text) \/
           exists first others,
             supportedModels q = Returned (first :: others) /\
             (modelAnswer q (value first) = setModelRejected e \/
              isOpusModel (value first) = true /\
              modelAnswer q (value first) = setMaxThinkingTokensRejected e))
      end) /\
  (forall other, other <> uuid -> sessions a' !! other = sessions a !! other).
Proof.
  intros Hauth Hsettings Haborted Hquery. unfold newSession.
  rewrite Hauth, Hsettings, Haborted, Hquery.
  unfold getAvailableSlashCommands, getAvailableModels.
  assert (Hothers : forall (session1 session2 : Session) (other : string),
    other <> uuid ->
    sessions
      (withSessions (insert uuid session2)
         (withSessions (insert uuid session1)
            (logger (log "Creating query with cwd:")
               (logger (log "newSession called with params:") a)))) !! other
    = sessions a !! other).
  { intros session1 session2 other Hother. cbn [withSessions sessions logger].
    rewrite !lookup_insert_ne by congruence. reflexivity. }
  assert (Hfilter : forall (first : ModelInfo) (others : list ModelInfo) (m : ModelInfo),
    In m (List.filter (fun m => negb (String.eqb (value m) (value first))) (first :: others))
    <-> In m (first :: others) /\ value m <> value first).
  { intros first others m. rewrite filter_In, negb_true_iff.
    destruct (String.eqb_spec (value m) (value first)); intuition congruence. }
  destruct (supportedCommands q) as [commands | e] eqn:Hcommands.
  2: { split.
       - eexists _, _. cbn [withSessions sessions logger]. rewrite lookup_insert_eq.
         split; [reflexivity |]. cbn. repeat (split; [reflexivity |]). left. reflexivity.
       - intros other Hother. cbn [withSessions sessions logger].
         apply lookup_insert_ne. congruence. }
  destruct (supportedModels q) as [[|first others] | e] eqn:Hmodels.
  - split; [| intros other Hother; apply Hothers, Hother].
    eexists _, _. cbn [withSessions sessions logger]. rewrite lookup_insert_eq.
    split; [reflexivity |]. cbn. repeat (split; [reflexivity |]).
    right. split; [eauto |]. right. left. eauto.
  - destruct (modelAnswer q (value first)) as [| e | e] eqn:Hanswer;
      [| | destruct (isOpusModel (value first)) eqn:Hopus].
    + destruct (isOpusModel (value first));
        (split; [| intros other Hother; apply Hothers, Hother]);
        (eexists _, _; cbn [withSessions sessions logger]; rewrite lookup_insert_eq;
         split; [reflexivity |]; cbn [setQuery query permissionMode cancelled isAuthRequired
                                        sessionParams];
         split; [reflexivity |]; repeat (split; [reflexivity |]);
         exists commands, first, others;
         split; [reflexivity |]; split; [reflexivity |]; split; [left; exact Hanswer |];
         split; [reflexivity |]; cbn [newSessionId currentModeId models currentModelId
                                        availableModels];
         repeat (split; [reflexivity |]); apply Hfilter).
    + split; [| intros other Hother; apply Hothers, Hother].
      eexists _, _. cbn [withSessions sessions logger]. rewrite lookup_insert_eq.
      split; [reflexivity |]. cbn. repeat (split; [reflexivity |]).
      right. split; [eauto |]. right. right. exists first, others. auto.
    + split; [| intros other Hother; apply Hothers, Hother].
      eexists _, _. cbn [withSessions sessions logger]. rewrite lookup_insert_eq.
      split; [reflexivity |]. cbn. repeat (split; [reflexivity |]).
      right. split; [eauto |]. right. right. exists first, others. auto.
    + split; [| intros other Hother; apply Hothers, Hother].
      eexists _, _. cbn [withSessions sessions logger]. rewrite lookup_insert_eq.
      split; [reflexivity |]. cbn [setQuery query permissionMode cancelled isAuthRequired
                                     sessionParams].
      split; [reflexivity |]. repeat (split; [reflexivity |]).
      exists commands, first, others.
      split; [reflexivity |]. split; [reflexivity |].
      split; [right; split; [exact Hopus | eauto] |].
      split; [reflexivity |]. cbn [newSessionId currentModeId models currentModelId
                                     availableModels].
      repeat (split; [reflexivity |]). apply Hfilter.
  - split; [| intros other Hother; apply Hothers, Hother].
    eexists _, _. cbn [withSessions sessions logger]. rewrite lookup_insert_eq.
    split; [reflexivity |]. cbn. repeat (split; [reflexivity |]).
    right. split; [eauto |]. left. reflexivity.
Qed.

End Reachable.


Lemma turn_without_result_witness :
  let '(outcome, _, _, _) :=
    promptLoop (H := sampleTools) "s1"
      [Message (system_message init);
       Message (assistant_message "glm-4.7" (ContentText "Hello"))]
      (agentWith "default") Credentials.sampleMachine [] in
  exists e, outcome = Threw e.
Proof.
  apply (turn_without_result_throws (H := sampleTools) "s1"
           [Message (system_message init);
            Message (assistant_message "glm-4.7" (ContentText "Hello"))]
           (agentWith "default") Credentials.sampleMachine []).
  - vm_compute. reflexivity.
  - repeat constructor.
Defined.

Lemma reachable_sessions_usable_witness :
  isAuthRequired startedSession = false /\ exists q, query startedSession = Some q.
Proof.
  apply (reachable_sessions_usable (H := sampleEngine) (H0 := sampleTools) sampleNotice
           (snd (newSession (H := sampleEngine) noParams "7f1c" sampleSystem newAgent))
           "7f1c" startedSession).
  - apply reach_newSession, reach_new.
  - vm_compute. reflexivity.
Defined.

Lemma prompt_runs_the_turn_witness :
  prompt (H := sampleTools) sampleNotice "7f1c" [CancelRequest] None
    (snd (newSession (H := sampleEngine) noParams "7f1c" sampleSystem newAgent))
    Credentials.sampleMachine
  = promptLoop (H := sampleTools) "7f1c" [CancelRequest]
      (withSessions (insert "7f1c" (setCancelled false startedSession))
         (snd (newSession (H := sampleEngine) noParams "7f1c" sampleSystem newAgent)))
      Credentials.sampleMachine [].
Proof.
  apply (prompt_runs_the_turn (H := sampleEngine) (H0 := sampleTools) sampleNotice "7f1c"
           [CancelRequest] None
           (snd (newSession (H := sampleEngine) noParams "7f1c" sampleSystem newAgent))
           Credentials.sampleMachine startedSession).
  - apply reach_newSession, reach_new.
  - vm_compute. reflexivity.
Defined.

Lemma newSession_registers_witness :
  let '(outcome, a') :=
    newSession (H := sampleEngine) noParams "7f1c" sampleSystem newAgent in
  (exists session q',
      sessions a' !! "7f1c" = Some session /\ query session = Some q' /\
      permissionMode session = "default"%string /\ cancelled session = false /\
      isAuthRequired session = false /\ sessionParams session = noParams /\
      match outcome with
      | Returned response =>
          exists commands first others,
            supportedCommands (Engine := sampleEngine) sampleQuery = Returned commands /\
            supportedModels (Engine := sampleEngine) sampleQuery
            = Returned (first :: others) /\
            (modelAnswer (Engine := sampleEngine) sampleQuery (value first) = bothAccepted \/
             isOpusModel (value first) = false /\
             exists e, modelAnswer (Engine := sampleEngine) sampleQuery (value first)
                       = setMaxThinkingTokensRejected e) /\
            model q' = Some (value first) /\
            newSessionId response = "7f1c"%string /\
            currentModeId response = "default"%string /\
            currentModelId (models response) = value first /\
            forall m, In m (availableModels (models response)) <->
                      In m (first :: others) /\ value m <> value first
      | Threw e =>
          supportedCommands (Engine := sampleEngine) sampleQuery = Threw e \/
          (exists commands,
              supportedCommands (Engine := sampleEngine) sampleQuery = Returned commands) /\
          (supportedModels (Engine := sampleEngine) sampleQuery = Threw e \/
           (supportedModels (Engine := sampleEngine) sampleQuery = Returned [] /\
            exists text, e = TypeError text) \/
           exists first others,
             supportedModels (Engine := sampleEngine) sampleQuery
             = Returned (first :: others) /\
             (modelAnswer (Engine := sampleEngine) sampleQuery (value first)
              = setModelRejected e \/
              isOpusModel (value first) = true /\
              modelAnswer (Engine := sampleEngine) sampleQuery (value first)
              = setMaxThinkingTokensRejected e))
      end) /\
  (forall other, other <> "7f1c"%string ->
                 sessions a' !! other = sessions newAgent !! other).
Proof.
  apply (newSession_registers (H := sampleEngine) noParams "7f1c" sampleSystem newAgent
           sampleQuery).
  - vm_compute. reflexivity.
  - reflexivity.
  - reflexivity.
  - reflexivity.
Defined.

End PromptProofs.
